(** * Role-gated entity management (Staff / Task / Course modules)

    A shallow embedding of the three CRUD components of the workload
    administration front end (StaffManagement, TaskManagement,
    CourseManagement and the AddStaffForm child), together with the host
    functions they call (string methods, [Math.max], [localStorage]).

    Conventions of the embedding:
    - a component's event handler is a function from the values captured by
      its closure (props and the state of the render it belongs to) to the
      list of effects it issues, in program order: React state setters and
      [localStorage.setItem].  [run] replays such a list on a state;
    - JavaScript numbers that serve as identifiers are integers ([Z], or [N]
      for the value of a digit run); other numeric leaves are carried as
      opaque attribute values;
    - strings are byte strings; whitespace and letter case are the ASCII
      ones;
    - [JSON.stringify] / [JSON.parse] belong to the host and are taken as an
      interface ([JSONCodec]).

    Around the three components the development also embeds the login
    form, the application shell that keeps the session in the store, and
    the department list of the allocation form.  A page in use is a
    session: a list of interactions, each delivered only while its control
    is rendered for the role, with the effects React runs after a render
    as interactions of their own; a file read that has been started stays
    pending, with the collection it remembers, until it completes. *)

From Stdlib Require Import ZArith NArith Ascii String DecimalString DecimalN Lia Sorted.
From stdpp Require Import gmap strings list.

Local Open Scope Z_scope.

(** ** Host functions on strings *)

Module JS.

(** White space removed by [String.prototype.trim] (ASCII part). *)
Definition isWhiteSpace (c : ascii) : bool :=
  let n := nat_of_ascii c in
  ((9 <=? n)%nat && (n <=? 13)%nat) || (n =? 32)%nat.

Fixpoint trimStart (s : string) : string :=
  match s with
  | EmptyString => EmptyString
  | String c s' => if isWhiteSpace c then trimStart s' else s
  end.

Fixpoint trimEnd (s : string) : string :=
  match s with
  | EmptyString => EmptyString
  | String c s' =>
      let t := trimEnd s' in
      if isWhiteSpace c && String.eqb t "" then EmptyString else String c t
  end.

Definition trim (s : string) : string := trimEnd (trimStart s).

(** Truthiness of a string value: only the empty string is falsy. *)
Definition truthy (s : string) : bool := negb (String.eqb s "").

Definition lowerChar (c : ascii) : ascii :=
  let n := nat_of_ascii c in
  if ((65 <=? n)%nat && (n <=? 90)%nat) then ascii_of_nat (n + 32) else c.

Definition upperChar (c : ascii) : ascii :=
  let n := nat_of_ascii c in
  if ((97 <=? n)%nat && (n <=? 122)%nat) then ascii_of_nat (n - 32) else c.

Fixpoint toLowerCase (s : string) : string :=
  match s with
  | EmptyString => EmptyString
  | String c s' => String (lowerChar c) (toLowerCase s')
  end.

Fixpoint startsWith (s q : string) : bool :=
  match q, s with
  | EmptyString, _ => true
  | String _ _, EmptyString => false
  | String b q', String a s' => Ascii.eqb a b && startsWith s' q'
  end.

(** [s.includes(q)]: [q] occurs in [s] as a contiguous substring. *)
Fixpoint includes (s q : string) : bool :=
  startsWith s q ||
  match s with
  | EmptyString => false
  | String _ s' => includes s' q
  end.

Definition isDigit (c : ascii) : bool :=
  let n := nat_of_ascii c in (48 <=? n)%nat && (n <=? 57)%nat.

(** The longest prefix of digits, as the greedy [\d+] consumes it. *)
Fixpoint takeDigits (s : string) : string :=
  match s with
  | EmptyString => EmptyString
  | String c s' => if isDigit c then String c (takeDigits s') else EmptyString
  end.

(** [s.match(/\d+/)]: the leftmost match, or [None] for [null]. *)
Fixpoint matchDigits (s : string) : option string :=
  match s with
  | EmptyString => None
  | String c s' => if isDigit c then Some (takeDigits s) else matchDigits s'
  end.

(** [parseInt] on a run of decimal digits. *)
Definition parseInt (digits : string) : N :=
  match NilEmpty.uint_of_string digits with
  | Some d => N.of_uint d
  | None => 0%N
  end.

(** [String(n)] for a non-negative integer. *)
Definition String_ (n : N) : string := NilEmpty.string_of_uint (N.to_uint n).

(** [k] characters of [fill] repeated, starting in the middle at [rest]. *)
Fixpoint cycle (k : nat) (rest fill : string) : string :=
  match k with
  | O => EmptyString
  | S k' =>
      match rest with
      | String c r => String c (cycle k' r fill)
      | EmptyString =>
          match fill with
          | String c r => String c (cycle k' r fill)
          | EmptyString => EmptyString
          end
      end
  end.

Definition padStart (targetLength : nat) (padString : string) (s : string) : string :=
  if (targetLength <=? String.length s)%nat then s
  else cycle (targetLength - String.length s) padString padString +:+ s.

(** [Math.max(x, ...xs)] on at least one argument. *)
Definition Math_max {A : Type} (max : A -> A -> A) (x : A) (xs : list A) : A :=
  fold_left max xs x.

(** [a || b] on strings. *)
Definition or_ (a b : string) : string := if truthy a then a else b.

(** [a || b] where [a] may be [undefined]. *)
Definition orUndefined (a : option string) (b : string) : string :=
  match a with
  | Some s => or_ s b
  | None => b
  end.

(** [s.charAt(0).toUpperCase() + s.slice(1)] *)
Definition capitalise (s : string) : string :=
  match s with
  | EmptyString => EmptyString
  | String c s' => String (upperChar c) s'
  end.

(** [set.add(x)] on a [Set] of strings kept in insertion order. *)
Definition setAdd (set : list string) (x : string) : list string :=
  if existsb (String.eqb x) set then set else set ++ [x].

(** [new Set(xs)] *)
Definition newSet (xs : list string) : list string := fold_left setAdd xs [].

(** [xs.sort()] on strings: ascending in the order of the code units. *)
Fixpoint sortInsert (x : string) (sorted : list string) : list string :=
  match sorted with
  | [] => [x]
  | y :: rest => if String.leb x y then x :: y :: rest else y :: sortInsert x rest
  end.

Definition Array_sort (xs : list string) : list string := fold_right sortInsert [] xs.

(** [s] between double quotes. *)
Definition quoted (s : string) : string :=
  String (ascii_of_nat 34) s +:+ String (ascii_of_nat 34) EmptyString.

(** [n.toString()] for an integer. *)
Definition toString (n : Z) : string := NilEmpty.string_of_int (Z.to_int n).

End JS.

(** ** Values shared by the three components *)

(** A leaf of a record's free-form attributes (credits, hours, flags...). *)
Inductive JsVal :=
| JsNum (n : Z)
| JsStr (s : string)
| JsBool (b : bool).

(** The [popup] state: [{ show, message, type }], [type] one of
    ['success'], ['error'], ['delete']. *)
Record Popup := mkPopup { show : bool; message : string; type : string }.

(** Truthiness of an attribute value and [a || b] on possibly missing ones. *)
Definition truthyVal (v : JsVal) : bool :=
  match v with
  | JsNum n => negb (n =? 0)
  | JsStr s => JS.truthy s
  | JsBool b => b
  end.

Definition orVal (a : option JsVal) (b : JsVal) : JsVal :=
  match a with
  | Some v => if truthyVal v then v else b
  | None => b
  end.

Definition isAdministrator (userRole : string) : bool := String.eqb userRole "Administrator".
Definition isStaff (userRole : string) : bool := String.eqb userRole "Staff".

(** The host's JSON functions on a collection of records. [JSON_parse]
    gives [None] where [JSON.parse] throws a SyntaxError. *)
Class JSONCodec (R : Type) := {
  JSON_stringify : list R -> string;
  JSON_parse : string -> option (list R)
}.

(** ** Component state and effects *)

Section Component.
Context {R F : Type}.

(** The state hooks of one component ([items] is [staffMembers], [tasks] or
    [courses]) and the browser's [localStorage]. *)
Record State := mkState {
  activeTab : string;
  items : list R;
  filteredItems : list R;
  editing : option R;
  popup : Popup;
  selected : option R;
  formData : F;
  localStorage : gmap string string
}.

(** What a handler does, one constructor per setter; [StorageSetItem k l] is
    [localStorage.setItem(k, JSON.stringify(l))]. *)
Inductive Effect :=
| SetActiveTab (tab : string)
| SetItems (l : list R)
| SetFiltered (l : list R)
| SetEditing (o : option R)
| SetPopup (p : Popup)
| SetSelected (o : option R)
| SetFormData (f : F)
| StorageSetItem (key : string) (value : list R).

(** A callback either returns after its effects or is aborted by an
    exception nobody catches. *)
Inductive Outcome :=
| Returns (es : list Effect)
| Throws (error : string).

Context `{JSONCodec R}.

Definition apply (st : State) (e : Effect) : State :=
  match e with
  | SetActiveTab tab =>
      mkState tab (items st) (filteredItems st) (editing st) (popup st) (selected st) (formData st) (localStorage st)
  | SetItems l =>
      mkState (activeTab st) l (filteredItems st) (editing st) (popup st) (selected st) (formData st) (localStorage st)
  | SetFiltered l =>
      mkState (activeTab st) (items st) l (editing st) (popup st) (selected st) (formData st) (localStorage st)
  | SetEditing o =>
      mkState (activeTab st) (items st) (filteredItems st) o (popup st) (selected st) (formData st) (localStorage st)
  | SetPopup p =>
      mkState (activeTab st) (items st) (filteredItems st) (editing st) p (selected st) (formData st) (localStorage st)
  | SetSelected o =>
      mkState (activeTab st) (items st) (filteredItems st) (editing st) (popup st) o (formData st) (localStorage st)
  | SetFormData f =>
      mkState (activeTab st) (items st) (filteredItems st) (editing st) (popup st) (selected st) f (localStorage st)
  | StorageSetItem key value =>
      mkState (activeTab st) (items st) (filteredItems st) (editing st) (popup st) (selected st) (formData st)
        (<[key := JSON_stringify value]> (localStorage st))
  end.

Definition run (es : list Effect) (st : State) : State := fold_left apply es st.

(** The state after a callback: an uncaught exception leaves it as it was. *)
Definition settle (o : Outcome) (st : State) : State :=
  match o with
  | Returns es => run es st
  | Throws _ => st
  end.

Definition isNotification (e : Effect) : bool :=
  match e with
  | SetPopup p => show p && (String.eqb (type p) "success" || String.eqb (type p) "delete")
  | _ => false
  end.

Definition writesStorage (e : Effect) : bool :=
  match e with
  | StorageSetItem _ _ => true
  | _ => false
  end.

Definition setsItems (e : Effect) : bool :=
  match e with
  | SetItems _ => true
  | _ => false
  end.

(** Scans a handler's effects in program order, remembering the collection
    it last computed ([SetItems]) and the one it last wrote under [key]: a
    success or delete notification is accepted only when the computed
    collection has already been written. *)
Fixpoint savedBeforeNotified (key : string) (computed saved : option (list R))
    (es : list Effect) : Prop :=
  match es with
  | [] => True
  | e :: es' =>
      match e with
      | SetItems l => savedBeforeNotified key (Some l) saved es'
      | StorageSetItem k l =>
          if String.eqb k key then savedBeforeNotified key computed (Some l) es'
          else savedBeforeNotified key computed saved es'
      | SetPopup p =>
          (isNotification e = true -> exists l, computed = Some l /\ saved = Some l)
          /\ savedBeforeNotified key computed saved es'
      | _ => savedBeforeNotified key computed saved es'
      end
  end.

(** The ordering guarantee on an effect list, stated on its positions:
    whatever precedes a success or delete notification contains the
    computation of a new collection and the write of that same collection
    under [key]. *)
Definition saveBeforeNotification (key : string) (es : list Effect) : Prop :=
  forall pre p post,
    es = pre ++ SetPopup p :: post ->
    isNotification (SetPopup p) = true ->
    exists l, In (SetItems l) pre /\ In (StorageSetItem key l) pre.

End Component.

Arguments State : clear implicits.
Arguments Effect : clear implicits.
Arguments Outcome : clear implicits.

(** ** TaskManagement *)

Module TaskManagement.

Module Form.
Record t := mk {
  taskId : string;
  taskName : string;
  description : string;
  category : string;
  hoursNeeded : string;
  noOfStaff : string;
  staffQualificationCriteria : string;
  department : string;
  programme : string;
  module : string
}.
End Form.

Record Task := mkTask {
  id : Z;
  taskId : option string;
  taskName : string;
  description : string;
  category : string;
  hoursNeeded : string;
  noOfStaff : string;
  staffQualificationCriteria : string;
  department : string;
  programme : string;
  module : string
}.

Abbreviation State := (State Task Form.t).
Abbreviation Effect := (Effect Task Form.t).
Abbreviation Outcome := (Outcome Task Form.t).

Definition storageKey : string := "tasks".

(** The numeric part of one task's [taskId]:
    [t.taskId?.match(/\d+/)] then [match ? parseInt(match[0]) : 0]. *)
Definition taskNumber (t : Task) : N :=
  match taskId t with
  | Some s =>
      match JS.matchDigits s with
      | Some m => JS.parseInt m
      | None => 0%N
      end
  | None => 0%N
  end.

Definition generateTaskId (tasks : list Task) : string :=
  let maxId :=
    match map taskNumber tasks with
    | x :: xs => JS.Math_max N.max x xs
    | [] => 0%N
    end in
  "T" +:+ JS.padStart 3 "0" (JS.String_ (maxId + 1)%N).

Definition sampleData : list Task :=
  [ mkTask 1 (Some "T001") "Review Course Materials"
      "Review and update course materials for CS101" "academic" "40" "2"
      "PhD in Computer Science, 5+ years teaching experience"
      "Computer Science" "Bachelor of Science" "Module 1";
    mkTask 2 (Some "T002") "Prepare Exam Questions"
      "Create final exam questions for MATH101" "assessment" "20" "1"
      "PhD in Mathematics" "Mathematics" "Bachelor of Science" "Module 2";
    mkTask 3 (Some "T003") "Update Syllabus"
      "Update syllabus for Spring 2024 semester" "administrative" "15" "1"
      "Senior lecturer or above" "Computer Science" "Master of Science" "Module 3" ].

(** The mount effect. [if (savedTasks)] is false for a missing key and for
    the empty string; [JSON.parse] is not guarded. *)
Definition loadTasksData `{JSONCodec Task} (st : State) : Outcome :=
  let savedTasks := localStorage st !! "tasks" in
  match savedTasks with
  | Some saved =>
      if JS.truthy saved then
        match JSON_parse saved with
        | Some parsedTasks => Returns [SetItems parsedTasks; SetFiltered parsedTasks]
        | None => Throws "SyntaxError"
        end
      else Returns [SetItems sampleData; SetFiltered sampleData; StorageSetItem "tasks" sampleData]
  | None => Returns [SetItems sampleData; SetFiltered sampleData; StorageSetItem "tasks" sampleData]
  end.

(** The effect on [tasks]: every task is shown. *)
Definition updateFilteredTasks (st : State) : list Effect :=
  [SetFiltered (items st)].

Definition blankForm (taskId : string) : Form.t :=
  Form.mk taskId "" "" "general" "" "" "" "" "" "".

Definition handleTaskAdded (userRole : string) (st : State) : list Effect :=
  let formData := formData st in
  let tasks := items st in
  if negb (JS.truthy (JS.trim (Form.taskName formData)))
     || negb (JS.truthy (JS.trim (Form.description formData)))
  then [SetPopup (mkPopup true "Please fill in all required fields." "error")]
  else
    let maxId :=
      match map id tasks with
      | x :: xs => JS.Math_max Z.max x xs
      | [] => 0
      end in
    let newTask :=
      mkTask (maxId + 1)
        (Some (JS.or_ (Form.taskId formData) (generateTaskId tasks)))
        (Form.taskName formData) (Form.description formData) (Form.category formData)
        (Form.hoursNeeded formData) (Form.noOfStaff formData)
        (Form.staffQualificationCriteria formData) (Form.department formData)
        (Form.programme formData) (Form.module formData) in
    let updatedTasks := tasks ++ [newTask] in
    [ SetItems updatedTasks;
      SetFiltered updatedTasks;
      StorageSetItem "tasks" updatedTasks;
      SetActiveTab "view-tasks";
      SetFormData (blankForm (generateTaskId tasks));
      SetPopup (mkPopup true "Task added successfully!" "success") ].

(** [{ ...task, ...formData }] *)
Definition mergeForm (task : Task) (formData : Form.t) : Task :=
  mkTask (id task) (Some (Form.taskId formData))
    (Form.taskName formData) (Form.description formData) (Form.category formData)
    (Form.hoursNeeded formData) (Form.noOfStaff formData)
    (Form.staffQualificationCriteria formData) (Form.department formData)
    (Form.programme formData) (Form.module formData).

(** Called by [handleSubmit] with the non-null [editingTask]. *)
Definition handleTaskUpdated (userRole : string) (editingTask : Task) (st : State) : list Effect :=
  let formData := formData st in
  let tasks := items st in
  if negb (JS.truthy (JS.trim (Form.taskName formData)))
     || negb (JS.truthy (JS.trim (Form.description formData)))
  then [SetPopup (mkPopup true "Please fill in all required fields." "error")]
  else
    let updatedList :=
      map (fun task => if id task =? id editingTask then mergeForm task formData else task) tasks in
    [ SetItems updatedList;
      SetFiltered updatedList;
      StorageSetItem "tasks" updatedList;
      SetEditing None;
      SetActiveTab "view-tasks";
      SetFormData (blankForm (generateTaskId tasks));
      SetPopup (mkPopup true "Task updated successfully!" "success") ].

(** [confirmed] is the answer of [window.confirm]. *)
Definition handleDeleteTask (userRole : string) (confirmed : bool) (id_ : Z) (st : State) : list Effect :=
  let tasks := items st in
  if negb (isAdministrator userRole)
  then [SetPopup (mkPopup true "You do not have permission to delete tasks." "error")]
  else if confirmed then
    let updatedList := List.filter (fun task => negb (id task =? id_)) tasks in
    [ SetItems updatedList;
      SetFiltered updatedList;
      StorageSetItem "tasks" updatedList ]
    ++ match selected st with
       | Some selectedTask => if id selectedTask =? id_ then [SetSelected None] else []
       | None => []
       end
    ++ [SetPopup (mkPopup true "Task deleted successfully!" "delete")]
  else [].

Definition handleEditTask (userRole : string) (task : Task) (st : State) : list Effect :=
  if negb (isAdministrator userRole)
  then [SetPopup (mkPopup true "You do not have permission to edit tasks." "error")]
  else
    [ SetEditing (Some task);
      SetFormData
        (Form.mk (JS.orUndefined (taskId task) (generateTaskId (items st)))
           (JS.or_ (taskName task) "") (JS.or_ (description task) "")
           (JS.or_ (category task) "general") (JS.or_ (hoursNeeded task) "")
           (JS.or_ (noOfStaff task) "") (JS.or_ (staffQualificationCriteria task) "")
           (JS.or_ (department task) "") (JS.or_ (programme task) "")
           (JS.or_ (module task) ""));
      SetActiveTab "add-task" ].

Definition handleSubmit (userRole : string) (st : State) : list Effect :=
  match editing st with
  | Some editingTask => handleTaskUpdated userRole editingTask st
  | None => handleTaskAdded userRole st
  end.

Definition handleCancel (st : State) : list Effect :=
  [ SetEditing None;
    SetFormData (blankForm (generateTaskId (items st)));
    SetActiveTab "view-tasks" ].

Definition handleViewTask (task : Task) (st : State) : list Effect :=
  [SetSelected (Some task); SetActiveTab "task-details"].

(** Render conditions of the JSX: the form (whose [onSubmit] is
    [handleSubmit]) and the per-row Edit / Delete buttons. *)
Definition formRendered (userRole : string) (st : State) : bool :=
  String.eqb (activeTab st) "add-task" && isAdministrator userRole.

Definition rowActionsRendered (userRole : string) : bool := isAdministrator userRole.

(** The effect on [tasks.length] and [editingTask]: outside an edit the
    form's task id follows the collection,
    [setFormData(prev => ({ ...prev, taskId: newTaskId }))]; [prev] is the
    form of the state the effect runs in. *)
Definition autoUpdateTaskId (st : State) : list Effect :=
  match editing st with
  | None =>
      let newTaskId := generateTaskId (items st) in
      let prev := formData st in
      [ SetFormData
          (Form.mk newTaskId (Form.taskName prev) (Form.description prev) (Form.category prev)
             (Form.hoursNeeded prev) (Form.noOfStaff prev)
             (Form.staffQualificationCriteria prev) (Form.department prev)
             (Form.programme prev) (Form.module prev)) ]
  | Some _ => []
  end.

(** The fields of the form, as [handleInputChange] is given them by the
    inputs of the form. *)
Inductive Field :=
| FieldTaskId | FieldTaskName | FieldDescription | FieldCategory | FieldHoursNeeded
| FieldNoOfStaff | FieldStaffQualificationCriteria | FieldDepartment | FieldProgramme
| FieldModule.

(** [{ ...prev, [field]: value }] *)
Definition setField (field : Field) (value : string) (prev : Form.t) : Form.t :=
  match field with
  | FieldTaskId =>
      Form.mk value (Form.taskName prev) (Form.description prev) (Form.category prev)
        (Form.hoursNeeded prev) (Form.noOfStaff prev) (Form.staffQualificationCriteria prev)
        (Form.department prev) (Form.programme prev) (Form.module prev)
  | FieldTaskName =>
      Form.mk (Form.taskId prev) value (Form.description prev) (Form.category prev)
        (Form.hoursNeeded prev) (Form.noOfStaff prev) (Form.staffQualificationCriteria prev)
        (Form.department prev) (Form.programme prev) (Form.module prev)
  | FieldDescription =>
      Form.mk (Form.taskId prev) (Form.taskName prev) value (Form.category prev)
        (Form.hoursNeeded prev) (Form.noOfStaff prev) (Form.staffQualificationCriteria prev)
        (Form.department prev) (Form.programme prev) (Form.module prev)
  | FieldCategory =>
      Form.mk (Form.taskId prev) (Form.taskName prev) (Form.description prev) value
        (Form.hoursNeeded prev) (Form.noOfStaff prev) (Form.staffQualificationCriteria prev)
        (Form.department prev) (Form.programme prev) (Form.module prev)
  | FieldHoursNeeded =>
      Form.mk (Form.taskId prev) (Form.taskName prev) (Form.description prev) (Form.category prev)
        value (Form.noOfStaff prev) (Form.staffQualificationCriteria prev)
        (Form.department prev) (Form.programme prev) (Form.module prev)
  | FieldNoOfStaff =>
      Form.mk (Form.taskId prev) (Form.taskName prev) (Form.description prev) (Form.category prev)
        (Form.hoursNeeded prev) value (Form.staffQualificationCriteria prev)
        (Form.department prev) (Form.programme prev) (Form.module prev)
  | FieldStaffQualificationCriteria =>
      Form.mk (Form.taskId prev) (Form.taskName prev) (Form.description prev) (Form.category prev)
        (Form.hoursNeeded prev) (Form.noOfStaff prev) value
        (Form.department prev) (Form.programme prev) (Form.module prev)
  | FieldDepartment =>
      Form.mk (Form.taskId prev) (Form.taskName prev) (Form.description prev) (Form.category prev)
        (Form.hoursNeeded prev) (Form.noOfStaff prev) (Form.staffQualificationCriteria prev)
        value (Form.programme prev) (Form.module prev)
  | FieldProgramme =>
      Form.mk (Form.taskId prev) (Form.taskName prev) (Form.description prev) (Form.category prev)
        (Form.hoursNeeded prev) (Form.noOfStaff prev) (Form.staffQualificationCriteria prev)
        (Form.department prev) value (Form.module prev)
  | FieldModule =>
      Form.mk (Form.taskId prev) (Form.taskName prev) (Form.description prev) (Form.category prev)
        (Form.hoursNeeded prev) (Form.noOfStaff prev) (Form.staffQualificationCriteria prev)
        (Form.department prev) (Form.programme prev) value
  end.

Definition handleInputChange (field : Field) (value : string) (st : State) : list Effect :=
  [SetFormData (setField field value (formData st))].

(** The [onClose] given to the popup. *)
Definition closePopup : list Effect := [SetPopup (mkPopup false "" "success")].

(** The three tab buttons; the one for 'add-task' is rendered for an
    Administrator only. *)
Inductive Tab := ViewTasks | AddTask | TaskDetails.

Definition tabName (tab : Tab) : string :=
  match tab with
  | ViewTasks => "view-tasks"
  | AddTask => "add-task"
  | TaskDetails => "task-details"
  end.

Definition tabRendered (userRole : string) (tab : Tab) : bool :=
  match tab with
  | AddTask => isAdministrator userRole
  | _ => true
  end.

End TaskManagement.

(** ** CourseManagement *)

Module CourseManagement.

Module Form.
Record t := mk {
  courseId : string;
  courseCode : string;
  courseName : string;
  department : string;
  credits : JsVal;
  contactHoursWeek : JsVal;
  canCombineSections : bool;
  courseType : string;
  requiredQualification : string;
  semester : string;
  expectedEnrollment : JsVal;
  maxStudentsSection : JsVal;
  priority : JsVal
}.
End Form.

(** A course object: the seeded ones carry [contactHours] and
    [description], the ones made by the form carry the form's fields. *)
Record Course := mkCourse {
  id : Z;
  courseId : option string;
  courseCode : string;
  courseName : string;
  department : string;
  semester : string;
  credits : JsVal;
  contactHours : option JsVal;
  description : option string;
  contactHoursWeek : option JsVal;
  canCombineSections : option bool;
  courseType : option string;
  requiredQualification : option string;
  expectedEnrollment : option JsVal;
  maxStudentsSection : option JsVal;
  priority : option JsVal
}.

Abbreviation State := (State Course Form.t).
Abbreviation Effect := (Effect Course Form.t).
Abbreviation Outcome := (Outcome Course Form.t).

Definition storageKey : string := "courses".

Definition courseNumber (c : Course) : N :=
  match courseId c with
  | Some s =>
      match JS.matchDigits s with
      | Some m => JS.parseInt m
      | None => 0%N
      end
  | None => 0%N
  end.

Definition generateCourseId (courses : list Course) : string :=
  let maxId :=
    match map courseNumber courses with
    | x :: xs => JS.Math_max N.max x xs
    | [] => 0%N
    end in
  "COURSE" +:+ JS.padStart 3 "0" (JS.String_ (maxId + 1)%N).

Definition seeded (id : Z) (courseCode courseName department semester : string)
    (credits contactHours : Z) (description : string) : Course :=
  mkCourse id None courseCode courseName department semester (JsNum credits)
    (Some (JsNum contactHours)) (Some description) None None None None None None None.

Definition sampleData : list Course :=
  [ seeded 1 "CS101" "Introduction to Computer Science" "Computer Science" "Semester 1" 3 3
      "Fundamental concepts of computer science";
    seeded 2 "CS201" "Data Structures" "Computer Science" "Semester 2" 4 4
      "Introduction to data structures and algorithms";
    seeded 3 "MATH101" "Calculus I" "Mathematics" "Semester 1" 4 4
      "Differential and integral calculus";
    seeded 4 "PHYS101" "Physics I" "Physics" "Semester 1" 4 4
      "Mechanics and thermodynamics";
    seeded 5 "CS301" "Database Systems" "Computer Science" "Semester 2" 3 3
      "Database design and management";
    seeded 6 "MATH201" "Linear Algebra" "Mathematics" "Semester 2" 3 3
      "Vector spaces and linear transformations";
    seeded 7 "CS401" "Software Engineering" "Computer Science" "Semester 1" 3 3
      "Software development methodologies";
    seeded 8 "CHEM101" "General Chemistry" "Chemistry" "Semester 1" 4 4
      "Fundamental principles of chemistry" ].

Definition loadCoursesData `{JSONCodec Course} (st : State) : Outcome :=
  let savedCourses := localStorage st !! "courses" in
  match savedCourses with
  | Some saved =>
      if JS.truthy saved then
        match JSON_parse saved with
        | Some parsedCourses => Returns [SetItems parsedCourses; SetFiltered parsedCourses]
        | None => Throws "SyntaxError"
        end
      else Returns [SetItems sampleData; SetFiltered sampleData; StorageSetItem "courses" sampleData]
  | None => Returns [SetItems sampleData; SetFiltered sampleData; StorageSetItem "courses" sampleData]
  end.

(** The filter effect on [selectedSemester] and [courses]. *)
Definition filterCourses (selectedSemester : string) (courses : list Course) : list Course :=
  let filtered := courses in
  let filtered :=
    if negb (String.eqb selectedSemester "All")
    then List.filter (fun course => String.eqb (semester course) selectedSemester) filtered
    else filtered in
  filtered.

Definition filterCoursesEffect (selectedSemester : string) (st : State) : list Effect :=
  [SetFiltered (filterCourses selectedSemester (items st))].

Definition blankForm (courseId semester : string) : Form.t :=
  Form.mk courseId "" "" "Faculty of Computing" (JsNum 3) (JsNum 3) false "lecture" ""
    semester (JsNum 50) (JsNum 50) (JsNum 5).

Definition invalid (formData : Form.t) : bool :=
  negb (JS.truthy (JS.trim (Form.courseCode formData)))
  || negb (JS.truthy (JS.trim (Form.courseName formData)))
  || negb (JS.truthy (JS.trim (Form.requiredQualification formData))).

Definition handleCourseAdded (userRole : string) (st : State) : list Effect :=
  let formData := formData st in
  let courses := items st in
  if invalid formData
  then [SetPopup (mkPopup true "Please fill in all required fields." "error")]
  else
    let maxId :=
      match map id courses with
      | x :: xs => JS.Math_max Z.max x xs
      | [] => 0
      end in
    let newCourse :=
      mkCourse (maxId + 1)
        (Some (JS.or_ (Form.courseId formData) (generateCourseId courses)))
        (Form.courseCode formData) (Form.courseName formData) (Form.department formData)
        (Form.semester formData) (Form.credits formData) None None
        (Some (Form.contactHoursWeek formData)) (Some (Form.canCombineSections formData))
        (Some (Form.courseType formData)) (Some (Form.requiredQualification formData))
        (Some (Form.expectedEnrollment formData)) (Some (Form.maxStudentsSection formData))
        (Some (Form.priority formData)) in
    let updatedCourses := courses ++ [newCourse] in
    [ SetItems updatedCourses;
      SetFiltered updatedCourses;
      StorageSetItem "courses" updatedCourses;
      SetActiveTab "view-courses";
      SetFormData (blankForm (generateCourseId courses) "Semester 1");
      SetPopup (mkPopup true "Course added successfully!" "success") ].

(** [{ ...course, ...formData }] *)
Definition mergeForm (course : Course) (formData : Form.t) : Course :=
  mkCourse (id course) (Some (Form.courseId formData))
    (Form.courseCode formData) (Form.courseName formData) (Form.department formData)
    (Form.semester formData) (Form.credits formData)
    (contactHours course) (description course)
    (Some (Form.contactHoursWeek formData)) (Some (Form.canCombineSections formData))
    (Some (Form.courseType formData)) (Some (Form.requiredQualification formData))
    (Some (Form.expectedEnrollment formData)) (Some (Form.maxStudentsSection formData))
    (Some (Form.priority formData)).

Definition handleCourseUpdated (userRole : string) (editingCourse : Course) (st : State) : list Effect :=
  let formData := formData st in
  let courses := items st in
  if invalid formData
  then [SetPopup (mkPopup true "Please fill in all required fields." "error")]
  else
    let updatedList :=
      map (fun course => if id course =? id editingCourse then mergeForm course formData else course)
        courses in
    [ SetItems updatedList;
      SetFiltered updatedList;
      StorageSetItem "courses" updatedList;
      SetEditing None;
      SetActiveTab "view-courses";
      SetFormData (blankForm (generateCourseId courses) "Semester 1");
      SetPopup (mkPopup true "Course updated successfully!" "success") ].

Definition handleDeleteCourse (userRole : string) (confirmed : bool) (id_ : Z) (st : State) : list Effect :=
  let courses := items st in
  if negb (isAdministrator userRole)
  then [SetPopup (mkPopup true "You do not have permission to delete courses." "error")]
  else if confirmed then
    let updatedList := List.filter (fun course => negb (id course =? id_)) courses in
    [ SetItems updatedList;
      SetFiltered updatedList;
      StorageSetItem "courses" updatedList ]
    ++ match selected st with
       | Some selectedCourse => if id selectedCourse =? id_ then [SetSelected None] else []
       | None => []
       end
    ++ [SetPopup (mkPopup true "Course deleted successfully!" "delete")]
  else [].

Definition handleEditCourse (userRole : string) (course : Course) (st : State) : list Effect :=
  if negb (isAdministrator userRole)
  then [SetPopup (mkPopup true "You do not have permission to edit courses." "error")]
  else
    [ SetEditing (Some course);
      SetFormData
        (Form.mk
           (JS.orUndefined (courseId course)
              (JS.or_ (courseCode course) (generateCourseId (items st))))
           (JS.or_ (courseCode course) "") (JS.or_ (courseName course) "")
           (JS.or_ (department course) "Faculty of Computing")
           (orVal (Some (credits course)) (JsNum 3))
           (orVal (contactHoursWeek course) (orVal (contactHours course) (JsNum 3)))
           (match canCombineSections course with Some b => b | None => false end)
           (JS.orUndefined (courseType course) "lecture")
           (JS.orUndefined (requiredQualification course) "")
           (JS.or_ (semester course) "Semester 1")
           (orVal (expectedEnrollment course) (JsNum 50))
           (orVal (maxStudentsSection course) (JsNum 50))
           (orVal (priority course) (JsNum 5)));
      SetActiveTab "add-course" ].

Definition handleSubmit (userRole : string) (st : State) : list Effect :=
  match editing st with
  | Some editingCourse => handleCourseUpdated userRole editingCourse st
  | None => handleCourseAdded userRole st
  end.

Definition formRendered (userRole : string) (st : State) : bool :=
  String.eqb (activeTab st) "add-course" && isAdministrator userRole.

Definition rowActionsRendered (userRole : string) : bool := isAdministrator userRole.

(** The effect on [courses.length] and [editingCourse]; it computes the
    next course id in line. *)
Definition autoGenerateCourseId (st : State) : list Effect :=
  match editing st with
  | None =>
      let courses := items st in
      let maxId :=
        match map courseNumber courses with
        | x :: xs => JS.Math_max N.max x xs
        | [] => 0%N
        end in
      let newCourseId := "COURSE" +:+ JS.padStart 3 "0" (JS.String_ (maxId + 1)%N) in
      let prev := formData st in
      [ SetFormData
          (Form.mk newCourseId (Form.courseCode prev) (Form.courseName prev)
             (Form.department prev) (Form.credits prev) (Form.contactHoursWeek prev)
             (Form.canCombineSections prev) (Form.courseType prev)
             (Form.requiredQualification prev) (Form.semester prev)
             (Form.expectedEnrollment prev) (Form.maxStudentsSection prev)
             (Form.priority prev)) ]
  | Some _ => []
  end.

Definition handleCancel (st : State) : list Effect :=
  [ SetEditing None;
    SetFormData (blankForm (generateCourseId (items st)) "Semester 2");
    SetActiveTab "view-courses" ].

Definition handleViewCourse (course : Course) (st : State) : list Effect :=
  [SetSelected (Some course); SetActiveTab "course-details"].

(** The [onClose] given to the popup. *)
Definition closePopup : list Effect := [SetPopup (mkPopup false "" "success")].

(** The three tab buttons; the one for 'add-course' is rendered for an
    Administrator only. *)
Inductive Tab := ViewCourses | AddCourse | CourseDetails.

Definition tabName (tab : Tab) : string :=
  match tab with
  | ViewCourses => "view-courses"
  | AddCourse => "add-course"
  | CourseDetails => "course-details"
  end.

Definition tabRendered (userRole : string) (tab : Tab) : bool :=
  match tab with
  | AddCourse => isAdministrator userRole
  | _ => true
  end.

(** [handleInputChange] and [handleNumberChange] both are
    [setFormData(prev => ...)]: the form becomes a function of the form it
    was. *)
Definition changeForm (change : Form.t -> Form.t) (st : State) : list Effect :=
  [SetFormData (change (formData st))].

End CourseManagement.

(** ** StaffManagement *)

Module StaffManagement.

(** A staff object. [I] is the type of its [id]: [Z] once it is in the
    collection, [option Z] for the object the form submits ([None] is
    [undefined]). *)
Record StaffObj (I : Type) := mkStaff {
  id : I;
  staffId : option string;
  name : string;
  email : string;
  department : string;
  position : string;
  teachingHours : JsVal;
  researchHours : JsVal;
  totalHours : JsVal;
  role : option string;
  qualifications : option string;
  minContactHoursYear : option JsVal;
  minContactHoursWeek : option JsVal;
  maxHoursWeek : option JsVal;
  minHoursWeek : option JsVal;
  profilePicture : option string
}.

Arguments mkStaff {I}.
Arguments id {I}.
Arguments staffId {I}.
Arguments name {I}.
Arguments email {I}.
Arguments department {I}.
Arguments position {I}.
Arguments teachingHours {I}.
Arguments researchHours {I}.
Arguments totalHours {I}.
Arguments role {I}.
Arguments qualifications {I}.
Arguments minContactHoursYear {I}.
Arguments minContactHoursWeek {I}.
Arguments maxHoursWeek {I}.
Arguments minHoursWeek {I}.
Arguments profilePicture {I}.

Abbreviation Staff := (StaffObj Z).
Abbreviation Draft := (StaffObj (option Z)).

Abbreviation State := (State Staff unit).
Abbreviation Effect := (Effect Staff unit).
Abbreviation Outcome := (Outcome Staff unit).

Definition storageKey : string := "staffMembers".

(** The same object with its [id] property set to [i]. *)
Definition withId {I J : Type} (s : StaffObj I) (i : J) : StaffObj J :=
  mkStaff i (staffId s) (name s) (email s) (department s) (position s)
    (teachingHours s) (researchHours s) (totalHours s) (role s) (qualifications s)
    (minContactHoursYear s) (minContactHoursWeek s) (maxHoursWeek s) (minHoursWeek s)
    (profilePicture s).

(** [!newStaff.id]: [undefined] and [0] are falsy. *)
Definition idMissing (i : option Z) : bool :=
  match i with
  | Some n => n =? 0
  | None => true
  end.

Definition seeded (id : Z) (name email department position : string)
    (teachingHours researchHours totalHours : Z) : Staff :=
  mkStaff id None name email department position
    (JsNum teachingHours) (JsNum researchHours) (JsNum totalHours)
    None None None None None None None.

Definition sampleData : list Staff :=
  [ seeded 1 "Dr. John Smith" "john.smith@university.edu" "Computer Science" "Professor" 12 6 18;
    seeded 2 "Dr. Sarah Johnson" "sarah.johnson@university.edu" "Mathematics" "Associate Professor" 10 5 15;
    seeded 3 "Dr. Michael Williams" "michael.williams@university.edu" "Physics" "Professor" 15 5 20;
    seeded 4 "Dr. Emily Brown" "emily.brown@university.edu" "Computer Science" "Assistant Professor" 8 4 12;
    seeded 5 "Dr. David Davis" "david.davis@university.edu" "Mathematics" "Associate Professor" 11 5 16 ].

Definition currentUserProfile (userRole currentUserEmail : string) (staffMembers : list Staff)
    : option Staff :=
  match
    List.find
      (fun staff =>
         JS.truthy currentUserEmail
         && String.eqb (JS.toLowerCase (email staff)) (JS.toLowerCase currentUserEmail))
      staffMembers
  with
  | Some staff => Some staff
  | None => if isStaff userRole && (0 <? length staffMembers)%nat then head staffMembers else None
  end.

Definition isOwnProfile (userRole currentUserEmail : string) (st : State) : bool :=
  isStaff userRole &&
  match selected st, currentUserProfile userRole currentUserEmail (items st) with
  | Some selectedStaff, Some profile => id selectedStaff =? id profile
  | _, _ => false
  end.

Definition loadStaffData `{JSONCodec Staff} (st : State) : Outcome :=
  let savedStaff := localStorage st !! "staffMembers" in
  match savedStaff with
  | Some saved =>
      if JS.truthy saved then
        match JSON_parse saved with
        | Some parsedStaff => Returns [SetItems parsedStaff; SetFiltered parsedStaff]
        | None => Throws "SyntaxError"
        end
      else Returns [SetItems sampleData; SetFiltered sampleData; StorageSetItem "staffMembers" sampleData]
  | None => Returns [SetItems sampleData; SetFiltered sampleData; StorageSetItem "staffMembers" sampleData]
  end.

(** The effect that shows a staff user their own profile. *)
Definition autoLoadProfile (userRole currentUserEmail : string) (st : State) : list Effect :=
  let staffMembers := items st in
  match selected st with
  | None =>
      if isStaff userRole && (0 <? length staffMembers)%nat then
        let userProfile :=
          if JS.truthy currentUserEmail
          then List.find
                 (fun staff =>
                    String.eqb (JS.toLowerCase (email staff)) (JS.toLowerCase currentUserEmail))
                 staffMembers
          else None in
        let profileToShow :=
          match userProfile with
          | Some p => Some p
          | None => head staffMembers
          end in
        [SetSelected profileToShow]
      else []
  | Some _ => []
  end.

(** The filter effect on [selectedDepartment], [searchQuery], [staffMembers]. *)
Definition filterStaff (selectedDepartment searchQuery : string) (staffMembers : list Staff)
    : list Staff :=
  let filtered := staffMembers in
  let filtered :=
    if negb (String.eqb selectedDepartment "All")
    then List.filter (fun staff => String.eqb (department staff) selectedDepartment) filtered
    else filtered in
  let filtered :=
    if negb (String.eqb (JS.trim searchQuery) "")
    then
      let query := JS.toLowerCase searchQuery in
      List.filter
        (fun staff =>
           JS.includes (JS.toLowerCase (name staff)) query
           || JS.includes (JS.toLowerCase (email staff)) query)
        filtered
    else filtered in
  filtered.

Definition filterStaffEffect (selectedDepartment searchQuery : string) (st : State) : list Effect :=
  [SetFiltered (filterStaff selectedDepartment searchQuery (items st))].

(** [action === 'cancel'] *)
Definition isCancel (action : option string) : bool :=
  match action with
  | Some a => String.eqb a "cancel"
  | None => false
  end.

Definition handleStaffAdded (userRole : string) (newStaff : option Draft) (action : option string)
    (st : State) : list Effect :=
  let staffMembers := items st in
  if isCancel action
  then [SetEditing None]
  else
    match newStaff with
    | Some newStaff =>
        let maxId :=
          match map id staffMembers with
          | x :: xs => JS.Math_max Z.max x xs
          | [] => 0
          end in
        (* if (!newStaff.id) newStaff.id = maxId + 1 *)
        let newStaff : Staff :=
          match id newStaff with
          | Some i => if i =? 0 then withId newStaff (maxId + 1) else withId newStaff i
          | None => withId newStaff (maxId + 1)
          end in
        let updatedStaff := staffMembers ++ [newStaff] in
        [ SetItems updatedStaff;
          SetFiltered updatedStaff;
          StorageSetItem "staffMembers" updatedStaff;
          SetActiveTab "view-staff";
          SetPopup (mkPopup true "Staff member added successfully!" "success") ]
    | None => []
    end.

(** [staff.id === updatedStaff.id ? updatedStaff : staff]; an [undefined]
    id equals no number. *)
Definition replaceById (updatedStaff : Draft) (staff : Staff) : Staff :=
  match id updatedStaff with
  | Some i => if id staff =? i then withId updatedStaff i else staff
  | None => staff
  end.

Definition handleStaffUpdated (userRole : string) (updatedStaff : Draft) (st : State) : list Effect :=
  let staffMembers := items st in
  let updatedList := map (replaceById updatedStaff) staffMembers in
  [ SetItems updatedList;
    SetFiltered updatedList;
    StorageSetItem "staffMembers" updatedList;
    SetEditing None;
    SetActiveTab "view-staff";
    SetPopup (mkPopup true "Staff record updated" "success") ].

Definition handleDeleteStaff (userRole : string) (confirmed : bool) (id_ : Z) (st : State) : list Effect :=
  let staffMembers := items st in
  if negb (isAdministrator userRole)
  then [SetPopup (mkPopup true "You do not have permission to delete staff members." "error")]
  else if confirmed then
    let updatedList := List.filter (fun staff => negb (id staff =? id_)) staffMembers in
    [ SetItems updatedList;
      SetFiltered updatedList;
      StorageSetItem "staffMembers" updatedList ]
    ++ match selected st with
       | Some selectedStaff => if id selectedStaff =? id_ then [SetSelected None] else []
       | None => []
       end
    ++ [SetPopup (mkPopup true "Record deleted" "delete")]
  else [].

Definition handleEditStaff (userRole : string) (staff : Staff) (st : State) : list Effect :=
  if negb (isAdministrator userRole)
  then [SetPopup (mkPopup true "You do not have permission to edit staff members." "error")]
  else [SetEditing (Some staff); SetActiveTab "add-staff"].

Definition handleViewStaff (staff : Staff) (st : State) : list Effect :=
  [SetSelected (Some staff); SetActiveTab "staff-details"].

(** An uploaded file: its MIME type and its size in bytes. *)
Record File := mkFile { fileType : string; size : Z }.

(** The synchronous part of the upload handler either ends with the given
    effects or starts the [FileReader] for the selected staff member. *)
Inductive UploadStep :=
| Done (es : list Effect)
| ReadAsDataURL (selectedStaff : Staff).

Definition handleProfilePictureUpload (userRole currentUserEmail : string) (file : option File)
    (st : State) : UploadStep :=
  match file, selected st with
  | Some file, Some selectedStaff =>
      if isStaff userRole
         && match currentUserProfile userRole currentUserEmail (items st) with
            | Some profile => negb (id selectedStaff =? id profile)
            | None => false
            end
      then Done [SetPopup (mkPopup true "You can only upload your own profile picture." "error")]
      else if negb (JS.startsWith (fileType file) "image/")
      then Done [SetPopup (mkPopup true "Please select a valid image file." "error")]
      else if size file >? 5 * 1024 * 1024
      then Done [SetPopup (mkPopup true "Image size should be less than 5MB." "error")]
      else ReadAsDataURL selectedStaff
  | _, _ => Done []
  end.

(** [{ ...selectedStaff, profilePicture: reader.result }] *)
Definition withPicture (selectedStaff : Staff) (result : string) : Staff :=
  mkStaff (id selectedStaff) (staffId selectedStaff) (name selectedStaff) (email selectedStaff)
    (department selectedStaff) (position selectedStaff) (teachingHours selectedStaff)
    (researchHours selectedStaff) (totalHours selectedStaff) (role selectedStaff)
    (qualifications selectedStaff) (minContactHoursYear selectedStaff)
    (minContactHoursWeek selectedStaff) (maxHoursWeek selectedStaff) (minHoursWeek selectedStaff)
    (Some result).

(** The reader's completion callback, closed over the handler's
    [selectedStaff] and [staffMembers]. *)
Definition onloadend (userRole : string) (selectedStaff : Staff) (result : string) (st : State)
    : list Effect :=
  let staffMembers := items st in
  let updatedStaff := withPicture selectedStaff result in
  let updatedList :=
    map (fun staff => if id staff =? id selectedStaff then updatedStaff else staff) staffMembers in
  [ SetItems updatedList;
    SetFiltered updatedList;
    StorageSetItem "staffMembers" updatedList;
    SetSelected (Some updatedStaff);
    SetPopup (mkPopup true "Profile picture updated successfully!" "success") ].

Definition formRendered (userRole : string) (st : State) : bool :=
  String.eqb (activeTab st) "add-staff" && isAdministrator userRole.

Definition rowActionsRendered (userRole : string) : bool := isAdministrator userRole.

(** The options of the department filter:
    [['All', ...new Set(staffMembers.map(staff => staff.department))]]. *)
Definition departments (staffMembers : list Staff) : list string :=
  "All" :: JS.newSet (map department staffMembers).

(** The [onClose] given to the popup. *)
Definition closePopup : list Effect := [SetPopup (mkPopup false "" "success")].

(** The three tab buttons; the one for 'add-staff' is rendered for an
    Administrator only. *)
Inductive Tab := ViewStaff | AddStaff | StaffDetails.

Definition tabName (tab : Tab) : string :=
  match tab with
  | ViewStaff => "view-staff"
  | AddStaff => "add-staff"
  | StaffDetails => "staff-details"
  end.

Definition tabRendered (userRole : string) (tab : Tab) : bool :=
  match tab with
  | AddStaff => isAdministrator userRole
  | _ => true
  end.

(** The upload control of the details tab:
    [activeTab === 'staff-details'], a selection, and
    [(isAdministrator || isOwnProfile)]. *)
Definition uploadRendered (userRole currentUserEmail : string) (st : State) : bool :=
  String.eqb (activeTab st) "staff-details"
  && match selected st with
     | Some _ => isAdministrator userRole || isOwnProfile userRole currentUserEmail st
     | None => false
     end.

(** The state as a callback created in an earlier render sees its
    collection. *)
Definition withItems (staffMembers : list Staff) (st : State) : State :=
  mkState (activeTab st) staffMembers (filteredItems st) (editing st) (popup st)
    (selected st) (formData st) (localStorage st).

End StaffManagement.

(** ** AddStaffForm *)

(** What the form needs from the host's floating point numbers:
    [parseFloat] ([None] is [NaN]) and [Math.max(0, a - b)]. *)
Class HostNumbers := {
  parseFloat : JsVal -> option JsVal;
  maxZeroDiff : JsVal -> JsVal -> JsVal
}.

Module AddStaffForm.

Module Form.
Record t := mk {
  staffId : string;
  name : string;
  email : string;
  department : string;
  role : string;
  qualifications : string;
  minContactHoursYear : JsVal;
  minContactHoursWeek : JsVal;
  maxHoursWeek : JsVal;
  minHoursWeek : JsVal;
  profilePicture : string
}.
End Form.

Definition blankForm : Form.t :=
  Form.mk "STAFF001" "" "" "Computer Science" "professor" ""
    (JsNum 300) (JsNum 10) (JsNum 30) (JsNum 15) "".

(** The form's own setters, the callbacks received as props and the inner
    timer of the edit path. *)
Inductive FormEffect :=
| SetIsSubmitting (b : bool)
| SetError (e : option string)
| SetSuccess (b : bool)
| SetFormData (f : Form.t)
| SetPopup (p : Popup)
| OnStaffAdded (newStaff : option StaffManagement.Draft) (action : option string)
| OnStaffUpdated (updatedStaff : StaffManagement.Draft)
| SetTimeoutResetForm (ms : Z).

Definition resetForm : list FormEffect :=
  [SetFormData blankForm; SetError None; SetSuccess false].

(** [parseFloat(v) || 0] *)
Definition parseFloatOr0 `{HostNumbers} (v : JsVal) : JsVal := orVal (parseFloat v) (JsNum 0).

Definition submitData `{HostNumbers} (editingStaff : option StaffManagement.Staff)
    (formData : Form.t) : StaffManagement.Draft :=
  StaffManagement.mkStaff
    (match editingStaff with
     | Some e => Some (StaffManagement.id e)
     | None => None
     end)
    (Some (Form.staffId formData))
    (Form.name formData) (Form.email formData) (Form.department formData)
    (JS.capitalise (Form.role formData))
    (parseFloatOr0 (Form.minContactHoursWeek formData))
    (maxZeroDiff (parseFloatOr0 (Form.maxHoursWeek formData))
       (parseFloatOr0 (Form.minContactHoursWeek formData)))
    (parseFloatOr0 (Form.minHoursWeek formData))
    (Some (Form.role formData)) (Some (Form.qualifications formData))
    (Some (parseFloatOr0 (Form.minContactHoursYear formData)))
    (Some (parseFloatOr0 (Form.minContactHoursWeek formData)))
    (Some (parseFloatOr0 (Form.maxHoursWeek formData)))
    (Some (parseFloatOr0 (Form.minHoursWeek formData)))
    (Some (Form.profilePicture formData)).

Definition invalid (formData : Form.t) : bool :=
  negb (JS.truthy (JS.trim (Form.name formData)))
  || negb (JS.truthy (JS.trim (Form.email formData))).

(** The effects issued at once, and those of the callback that
    [setTimeout(..., 500)] runs later. *)
Definition handleSubmit `{HostNumbers} (editingStaff : option StaffManagement.Staff)
    (formData : Form.t) : list FormEffect * list FormEffect :=
  let begin := [SetIsSubmitting true; SetError None; SetSuccess false] in
  if invalid formData
  then (begin ++ [SetError (Some "Please fill in all required fields."); SetIsSubmitting false], [])
  else
    let submitData := submitData editingStaff formData in
    (begin,
     match editingStaff with
     | Some _ => [OnStaffUpdated submitData; SetTimeoutResetForm 2000]
     | None =>
         [OnStaffAdded (Some submitData) None;
          SetPopup (mkPopup true "Staff member added successfully!" "success")]
         ++ resetForm
     end
     ++ [SetIsSubmitting false]).

Definition handleCancel : list FormEffect :=
  resetForm ++ [OnStaffAdded None (Some "cancel")].

(** What the parent does when the form's effects reach it through the
    [onStaffAdded] / [onStaffUpdated] props. *)
Definition deliver (userRole : string) (st : StaffManagement.State) (e : FormEffect)
    : list StaffManagement.Effect :=
  match e with
  | OnStaffAdded newStaff action => StaffManagement.handleStaffAdded userRole newStaff action st
  | OnStaffUpdated updatedStaff => StaffManagement.handleStaffUpdated userRole updatedStaff st
  | _ => []
  end.

(** The parent's effects caused by a submit of the form. *)
Definition submitToParent `{HostNumbers} (userRole : string)
    (formData : Form.t) (st : StaffManagement.State) : list StaffManagement.Effect :=
  let '(now, later) := handleSubmit (editing st) formData in
  concat (map (deliver userRole st) (now ++ later)).

(** The effect on [editingStaff]: the form is filled from the record being
    edited, or reset. *)
Definition loadEditingStaff (editingStaff : option StaffManagement.Staff) : Form.t :=
  match editingStaff with
  | Some e =>
      Form.mk
        (JS.orUndefined (StaffManagement.staffId e)
           ("STAFF" +:+ JS.padStart 3 "0" (JS.toString (StaffManagement.id e))))
        (JS.or_ (StaffManagement.name e) "")
        (JS.or_ (StaffManagement.email e) "")
        (JS.or_ (StaffManagement.department e) "Computer Science")
        (JS.orUndefined (StaffManagement.role e)
           (if JS.truthy (StaffManagement.position e)
            then JS.toLowerCase (StaffManagement.position e)
            else "professor"))
        (JS.orUndefined (StaffManagement.qualifications e) "")
        (orVal (StaffManagement.minContactHoursYear e) (JsNum 300))
        (orVal (StaffManagement.minContactHoursWeek e)
           (orVal (Some (StaffManagement.teachingHours e)) (JsNum 10)))
        (orVal (StaffManagement.maxHoursWeek e) (JsNum 30))
        (orVal (StaffManagement.minHoursWeek e)
           (orVal (Some (StaffManagement.totalHours e)) (JsNum 15)))
        (JS.orUndefined (StaffManagement.profilePicture e) "")
  | None => blankForm
  end.

(** The picture chosen in the form: what the check of the file decides. *)
Inductive PictureStep :=
| PictureIgnored
| PictureError (message : string)
| PictureRead.

Definition handleProfilePictureChange (file : option StaffManagement.File) : PictureStep :=
  match file with
  | Some file =>
      if negb (JS.startsWith (StaffManagement.fileType file) "image/")
      then PictureError "Please select a valid image file."
      else if StaffManagement.size file >? 5 * 1024 * 1024
      then PictureError "Image size should be less than 5MB."
      else PictureRead
  | None => PictureIgnored
  end.

End AddStaffForm.

(** ** TaskManagement's department list *)

(** [getDepartments]: the departments of the stored staff and courses,
    sorted; the fixed list when there are none or when reading fails. *)
Definition defaultDepartments : list string :=
  ["Computer Science"; "Mathematics"; "Physics"; "Chemistry"; "Biology"].

Definition addDepartment (set : list string) (department : string) : list string :=
  if JS.truthy department then JS.setAdd set department else set.

Definition getDepartments (staffCodec : JSONCodec StaffManagement.Staff)
    (courseCodec : JSONCodec CourseManagement.Course) (storage : gmap string string)
    : list string :=
  match @JSON_parse _ staffCodec (JS.orUndefined (storage !! "staffMembers") "[]") with
  | Some staffMembers =>
      match @JSON_parse _ courseCodec (JS.orUndefined (storage !! "courses") "[]") with
      | Some courses =>
          let departments := [] in
          let departments :=
            fold_left (fun set staff => addDepartment set (StaffManagement.department staff))
              staffMembers departments in
          let departments :=
            fold_left (fun set course => addDepartment set (CourseManagement.department course))
              courses departments in
          let deptArray := JS.Array_sort departments in
          if (0 <? length deptArray)%nat then deptArray else defaultDepartments
      | None => defaultDepartments
      end
  | None => defaultDepartments
  end.

(** ** WorkloadAllocation *)

Module WorkloadAllocation.

(** The options of the department filter of the allocation form: 'All'
    and the departments found in the store. *)
Definition getDepartments (staffCodec : JSONCodec StaffManagement.Staff)
    (courseCodec : JSONCodec CourseManagement.Course) (storage : gmap string string)
    : list string :=
  match @JSON_parse _ staffCodec (JS.orUndefined (storage !! "staffMembers") "[]") with
  | Some staffMembers =>
      match @JSON_parse _ courseCodec (JS.orUndefined (storage !! "courses") "[]") with
      | Some courses =>
          let departments := [] in
          let departments :=
            fold_left (fun set staff => addDepartment set (StaffManagement.department staff))
              staffMembers departments in
          let departments :=
            fold_left (fun set course => addDepartment set (CourseManagement.department course))
              courses departments in
          let deptArray := JS.Array_sort departments in
          "All" :: deptArray
      | None => "All" :: defaultDepartments
      end
  | None => "All" :: defaultDepartments
  end.

End WorkloadAllocation.

(** ** Login *)

Module Login.

Definition normalizeRegNo (value : string) : string := JS.trim (JS.or_ value "").

Definition getRoleFromRegNo (regNo : string) : option string :=
  let v := normalizeRegNo regNo in
  if JS.startsWith (JS.toLowerCase v) "ad" then Some "Administrator"
  else if JS.startsWith (JS.toLowerCase v) "st" then Some "Staff"
  else None.

Definition getSuccessMessage (role : string) : string :=
  if String.eqb role "Administrator" then "Admin successfully logged"
  else if String.eqb role "Staff" then "Staff successfully logged"
  else "Successfully logged".

(** A submit of the login form sets an error, or shows the success title
    and then calls [onLogin({ role, registrationNumber })]. *)
Inductive Result :=
| SetError (message : string)
| OnLogin (title : string) (role : string) (registrationNumber : string).

Definition handleSubmit (registrationNumber password : string) : Result :=
  let regNo := normalizeRegNo registrationNumber in
  if negb (JS.truthy regNo) then SetError "Please enter your registration number."
  else if negb (JS.truthy password) then SetError "Please enter your password."
  else
    match getRoleFromRegNo regNo with
    | None =>
        SetError
          ("Registration number must start with " +:+ JS.quoted "Ad" +:+ " (Admin) or "
           +:+ JS.quoted "St" +:+ " (Staff).")
    | Some role => OnLogin (getSuccessMessage role) role regNo
    end.

End Login.

(** ** App *)

Module App.

Record State := mkState {
  currentPage : string;
  userRole : string;
  currentUserEmail : string;
  isAuthenticated : bool;
  registrationNumber : string;
  localStorage : gmap string string
}.

Definition initial (localStorage : gmap string string) : State :=
  mkState "dashboard" "Administrator" "" false "" localStorage.

(** The mount effect that restores the session from the store. *)
Definition loadAuthState (st : State) : State :=
  let savedIsAuth := localStorage st !! "isAuthenticated" in
  let savedRole := localStorage st !! "userRole" in
  let savedRegNo := localStorage st !! "registrationNumber" in
  match savedIsAuth, savedRole with
  | Some isAuth, Some role =>
      if String.eqb isAuth "true"
         && (String.eqb role "Administrator" || String.eqb role "Staff")
      then mkState (currentPage st) role (currentUserEmail st) true
             (JS.orUndefined savedRegNo "") (localStorage st)
      else st
  | _, _ => st
  end.

Definition handleLogin (role regNo : string) (st : State) : State :=
  mkState "dashboard" role (currentUserEmail st) true (JS.or_ regNo "")
    (<["registrationNumber" := JS.or_ regNo ""]>
       (<["userRole" := role]> (<["isAuthenticated" := "true"]> (localStorage st)))).

Definition handleLogout (st : State) : State :=
  mkState "dashboard" "Administrator" "" false ""
    (base.delete "registrationNumber"
       (base.delete "userRole" (base.delete "isAuthenticated" (localStorage st)))).

(** The effect on [userRole] and [currentUserEmail]: a staff user takes
    the email of the first stored staff member; reading errors are
    swallowed. *)
Definition loadStaffEmail (staffCodec : JSONCodec StaffManagement.Staff) (st : State) : State :=
  let setCurrentUserEmail email :=
    mkState (currentPage st) (userRole st) email (isAuthenticated st)
      (registrationNumber st) (localStorage st) in
  if String.eqb (userRole st) "Staff" then
    match localStorage st !! "staffMembers" with
    | Some savedStaff =>
        if JS.truthy savedStaff then
          match @JSON_parse _ staffCodec savedStaff with
          | Some (first :: _) =>
              let firstStaffEmail := StaffManagement.email first in
              if negb (String.eqb (currentUserEmail st) firstStaffEmail)
              then setCurrentUserEmail firstStaffEmail
              else st
          | Some [] => st
          | None => st
          end
        else st
    | None => st
    end
  else if JS.truthy (currentUserEmail st) then setCurrentUserEmail "" else st.

(** What the user can do to the application, and what the application
    does on its own. *)
Inductive Event :=
| Mount
| SubmitLogin (registrationNumber password : string)
| Logout
| Navigate (page : string)
| StaffEmailEffect.

(** The login page is all there is until the user is authenticated; the
    sidebar (navigation, logout) exists only afterwards. *)
Definition step (staffCodec : JSONCodec StaffManagement.Staff) (st : State) (e : Event) : State :=
  match e with
  | Mount => loadAuthState st
  | SubmitLogin registrationNumber password =>
      if isAuthenticated st then st
      else
        match Login.handleSubmit registrationNumber password with
        | Login.OnLogin _ role regNo => handleLogin role regNo st
        | Login.SetError _ => st
        end
  | Logout => if isAuthenticated st then handleLogout st else st
  | Navigate page =>
      if isAuthenticated st
      then mkState page (userRole st) (currentUserEmail st) (isAuthenticated st)
             (registrationNumber st) (localStorage st)
      else st
  | StaffEmailEffect => loadStaffEmail staffCodec st
  end.

Definition steps (staffCodec : JSONCodec StaffManagement.Staff) (st : State) (es : list Event)
    : State :=
  fold_left (step staffCodec) es st.

End App.

(** ** Event delivery

    React delivers a submit event to [handleSubmit] only while the form is
    part of the rendered tree. *)

Definition taskSubmitEvent (userRole : string) (st : TaskManagement.State)
    : list TaskManagement.Effect :=
  if TaskManagement.formRendered userRole st then TaskManagement.handleSubmit userRole st else [].

Definition courseSubmitEvent (userRole : string) (st : CourseManagement.State)
    : list CourseManagement.Effect :=
  if CourseManagement.formRendered userRole st then CourseManagement.handleSubmit userRole st else [].

Definition staffSubmitEvent `{HostNumbers} (userRole : string) (formData : AddStaffForm.Form.t)
    (st : StaffManagement.State) : list StaffManagement.Effect :=
  if StaffManagement.formRendered userRole st
  then AddStaffForm.submitToParent userRole formData st
  else [].

(** ** Specification-level notions *)

(** The [maxId] every create handler computes from the ids present:
    [ids.length > 0 ? Math.max(...ids) : 0]. *)
Definition maxIdOf (ids : list Z) : Z :=
  match ids with
  | x :: xs => JS.Math_max Z.max x xs
  | [] => 0
  end.

(** [m] is the greatest element of [l]. *)
Definition isMaximum (m : Z) (l : list Z) : Prop :=
  In m l /\ Forall (fun x => x <= m) l.

(** A handler's effects amount to a refusal: the state after them shows an
    error popup and differs from the state before in nothing else; the
    collection, the filtered view, the selection and the store are as they
    were. *)
Definition refused {R F : Type} `{JSONCodec R} (es : list (Effect R F)) (st : State R F) : Prop :=
  let st' := run es st in
  show (popup st') = true /\ type (popup st') = "error"
  /\ items st' = items st
  /\ filteredItems st' = filteredItems st
  /\ selected st' = selected st
  /\ editing st' = editing st
  /\ activeTab st' = activeTab st
  /\ localStorage st' = localStorage st
  /\ Forall (fun e => writesStorage e = false /\ setsItems e = false) es.

(** The effects of a delete that is allowed and confirmed; each module's
    delete handler is an instance ([handleDeleteTask_allowed] and the
    like). *)
Definition deleteEffects {R F : Type} (key : string) (idOf : R -> Z) (id_ : Z) (msg : string)
    (st : State R F) : list (Effect R F) :=
  let updatedList := List.filter (fun r => negb (idOf r =? id_)) (items st) in
  [SetItems updatedList; SetFiltered updatedList; StorageSetItem key updatedList]
  ++ match selected st with
     | Some s => if idOf s =? id_ then [SetSelected None] else []
     | None => []
     end
  ++ [SetPopup (mkPopup true msg "delete")].

(** Between [st] and [st'] exactly the record with id [id_] was removed:
    the collection splits around that record and the rest is kept as it
    was and in its order; a selection that pointed at it is cleared. *)
Definition removesExactly {R F : Type} (idOf : R -> Z) (id_ : Z) (st st' : State R F) : Prop :=
  (exists before r after,
      items st = before ++ r :: after /\ idOf r = id_ /\ items st' = before ++ after
      /\ Forall (fun x => idOf x <> id_) (before ++ after))
  /\ (forall r, In r (items st') <-> In r (items st) /\ idOf r <> id_)
  /\ sublist (items st') (items st)
  /\ (forall s, selected st = Some s -> idOf s = id_ -> selected st' = None).

(** A delete that removed nothing: the collection is the same, yet it was
    written to the store again and a 'delete' popup is shown. *)
Definition deletesNothing {R F : Type} `{JSONCodec R} (key : string)
    (es : list (Effect R F)) (st : State R F) : Prop :=
  let st' := run es st in
  items st' = items st
  /\ filteredItems st' = items st
  /\ In (StorageSetItem key (items st)) es
  /\ localStorage st' = <[key := JSON_stringify (items st)]> (localStorage st)
  /\ show (popup st') = true /\ type (popup st') = "delete".

(** [run] is the first maximal run of digits of [s]: nothing before it is a
    digit, it is not empty, all of it is digits, and it is not followed by
    a digit. *)
Definition noDigit (s : string) : Prop :=
  Forall (fun c => JS.isDigit c = false) (list_ascii_of_string s).

Definition allDigits (s : string) : Prop :=
  Forall (fun c => JS.isDigit c = true) (list_ascii_of_string s).

Definition firstDigitRun (s run : string) : Prop :=
  exists before after,
    s = before +:+ run +:+ after
    /\ noDigit before
    /\ run <> "" /\ allDigits run
    /\ match after with
       | EmptyString => True
       | String c _ => JS.isDigit c = false
       end.

(** The maximal digit runs of a string, left to right; [cur] is the run
    being read, most recent digit first. *)
Fixpoint digitRunsFrom (cur : list ascii) (s : string) : list string :=
  let flush := match cur with [] => [] | _ => [string_of_list_ascii (rev cur)] end in
  match s with
  | EmptyString => flush
  | String c s' =>
      if JS.isDigit c then digitRunsFrom (c :: cur) s'
      else flush ++ digitRunsFrom [] s'
  end.

Definition digitRuns (s : string) : list string := digitRunsFrom [] s.

(** The number a secondary id stands for: the value of its first digit run,
    [0] without one. *)
Definition secondaryNumber (secondaryId : option string) : N :=
  match secondaryId with
  | Some s =>
      match digitRuns s with
      | r :: _ => JS.parseInt r
      | [] => 0%N
      end
  | None => 0%N
  end.

Definition leftPadZeros (width : nat) (s : string) : string :=
  string_of_list_ascii (replicate (width - String.length s) "0"%char) +:+ s.

(** [nextSecondaryId(records, prefix, width)] as the specification words
    it, on the records' secondary ids. *)
Definition nextSecondaryId (secondaryIds : list (option string)) (prefix : string) (width : nat)
    : string :=
  let maximum := foldr N.max 0%N (map secondaryNumber secondaryIds) in
  prefix +:+ leftPadZeros width (JS.String_ (maximum + 1)%N).

(** [nextId(records)]: one more than the greatest id present, [1] for an
    empty collection. *)
Definition isNextId (ids : list Z) (n : Z) : Prop :=
  (ids = [] /\ n = 1) \/ (exists m, isMaximum m ids /\ n = m + 1).

(** Filter criteria of the staff list and what a record must satisfy. *)
Definition departmentMatches (selectedDepartment : string) (s : StaffManagement.Staff) : bool :=
  String.eqb selectedDepartment "All"
  || String.eqb (StaffManagement.department s) selectedDepartment.

Definition containsIgnoringCase (text query : string) : bool :=
  JS.includes (JS.toLowerCase text) (JS.toLowerCase query).

Definition queryMatches (searchQuery : string) (s : StaffManagement.Staff) : bool :=
  String.eqb (JS.trim searchQuery) ""
  || containsIgnoringCase (StaffManagement.name s) searchQuery
  || containsIgnoringCase (StaffManagement.email s) searchQuery.

Definition semesterMatches (selectedSemester : string) (c : CourseManagement.Course) : bool :=
  String.eqb selectedSemester "All"
  || String.eqb (CourseManagement.semester c) selectedSemester.

(** ** Hosts and states used in the examples *)

(** A host whose numbers are the integers. *)
Definition integerNumbers : HostNumbers := {|
  parseFloat v :=
    match v with
    | JsNum n => Some (JsNum n)
    | JsStr s =>
        match JS.takeDigits s with
        | EmptyString => None
        | digits => Some (JsNum (Z.of_N (JS.parseInt digits)))
        end
    | JsBool _ => None
    end;
  maxZeroDiff a b :=
    match a, b with
    | JsNum x, JsNum y => JsNum (Z.max 0 (x - y))
    | _, _ => JsNum 0
    end
|}.

(** A host JSON that writes a collection as the bracketed list of its ids
    and reads back the empty array only; like [JSON.parse] it rejects every
    text that is not JSON. *)
Definition idsCodec {R : Type} (idOf : R -> Z) : JSONCodec R := {|
  JSON_stringify l :=
    "[" +:+ String.concat "," (map (fun r => NilEmpty.string_of_int (Z.to_int (idOf r))) l) +:+ "]";
  JSON_parse s := if String.eqb s "[]" then Some [] else None
|}.

Definition taskCodec : JSONCodec TaskManagement.Task := idsCodec TaskManagement.id.
Definition courseCodec : JSONCodec CourseManagement.Course := idsCodec CourseManagement.id.
Definition staffCodec : JSONCodec StaffManagement.Staff := idsCodec StaffManagement.id.

Definition noPopup : Popup := mkPopup false "" "success".

(** The task list after the first load of an empty store, with the form
    filled in for a new task. *)
Definition taskFormFilled : TaskManagement.Form.t :=
  TaskManagement.Form.mk "T004" "Mark scripts" "Mark the CS101 scripts" "assessment"
    "10" "1" "Lecturer" "Computer Science" "Bachelor of Science" "Module 1".

Definition taskState : TaskManagement.State :=
  mkState "add-task" TaskManagement.sampleData TaskManagement.sampleData None noPopup None
    taskFormFilled {["tasks" := "[1,2,3]"]}.

(** A task store holding text that is not JSON. *)
Definition taskStateCorrupt : TaskManagement.State :=
  mkState "view-tasks" [] [] None noPopup None (TaskManagement.blankForm "T001")
    {["tasks" := "{oops"]}.

Definition courseFormFilled : CourseManagement.Form.t :=
  CourseManagement.Form.mk "COURSE001" "CS501" "Compilers" "Faculty of Computing"
    (JsNum 3) (JsNum 3) false "lecture" "CS201" "Semester 1" (JsNum 50) (JsNum 50) (JsNum 5).

(** Courses with ids 1, 3 and 5. *)
Definition courses135 : list CourseManagement.Course :=
  [ CourseManagement.seeded 1 "CS101" "Introduction to Computer Science" "Computer Science"
      "Semester 1" 3 3 "Fundamental concepts of computer science";
    CourseManagement.seeded 3 "MATH101" "Calculus I" "Mathematics" "Semester 1" 4 4
      "Differential and integral calculus";
    CourseManagement.seeded 5 "CS301" "Database Systems" "Computer Science" "Semester 2" 3 3
      "Database design and management" ].

Definition courseState : CourseManagement.State :=
  mkState "add-course" courses135 courses135 None noPopup None courseFormFilled
    {["courses" := "[1,3,5]"]}.

Definition staffState : StaffManagement.State :=
  mkState "view-staff" StaffManagement.sampleData StaffManagement.sampleData None noPopup
    (nth_error StaffManagement.sampleData 1) tt {["staffMembers" := "[1,2,3,4,5]"]}.

Definition staffFormFilled : AddStaffForm.Form.t :=
  AddStaffForm.Form.mk "STAFF001" "Dr. Ada Byron" "ada.byron@university.edu" "Mathematics"
    "professor" "PhD" (JsNum 300) (JsNum 10) (JsNum 30) (JsNum 15) "".

Definition taskSecond : TaskManagement.Task :=
  TaskManagement.mkTask 2 (Some "T002") "Prepare Exam Questions"
    "Create final exam questions for MATH101" "assessment" "20" "1"
    "PhD in Mathematics" "Mathematics" "Bachelor of Science" "Module 2".

(** A draft that already carries the id of the second staff member. *)
Definition staffDraftTwo : StaffManagement.Draft :=
  StaffManagement.withId
    (StaffManagement.seeded 0 "Dr. Ada Byron" "ada.byron@university.edu" "Mathematics"
       "Professor" 10 20 15)
    (Some 2).

(** ** Notions used by the further properties *)

(** [after] is [before] with every record of id [k] replaced by [new] of
    it, in place: the same ids at the same positions, every other record
    untouched. *)
Definition updatesInPlace {R : Type} (idOf : R -> Z) (k : Z) (new : R -> R)
    (before after : list R) : Prop :=
  map idOf after = map idOf before
  /\ length after = length before
  /\ forall (i : nat) (r : R),
       nth_error before i = Some r ->
       nth_error after i = Some (if idOf r =? k then new r else r).

(** A text that [trim] empties: nothing but white space. *)
Definition blank (s : string) : Prop :=
  Forall (fun c => JS.isWhiteSpace c = true) (list_ascii_of_string s).

(** The sample staff plus a sixth member that carries the id 2 again. *)
Definition staffStateDuplicate : StaffManagement.State :=
  mkState "view-staff" (StaffManagement.sampleData ++ [StaffManagement.withId staffDraftTwo 2])
    (StaffManagement.sampleData ++ [StaffManagement.withId staffDraftTwo 2]) None noPopup
    None tt {["staffMembers" := "[1,2,3,4,5,2]"]}.

(** The task list with the second task open in the form. *)
Definition taskStateEditing : TaskManagement.State :=
  mkState "add-task" TaskManagement.sampleData TaskManagement.sampleData (Some taskSecond)
    noPopup None taskFormFilled {["tasks" := "[1,2,3]"]}.

(** The task form with a name of spaces only. *)
Definition taskStateBlankName : TaskManagement.State :=
  mkState "add-task" TaskManagement.sampleData TaskManagement.sampleData None noPopup None
    (TaskManagement.Form.mk "T004" "   " "Mark the CS101 scripts" "assessment"
       "10" "1" "Lecturer" "Computer Science" "Bachelor of Science" "Module 1")
    {["tasks" := "[1,2,3]"]}.

(** The seeded courses, the first one selected for editing by an
    Administrator. *)
Definition courseFirst : CourseManagement.Course :=
  CourseManagement.seeded 1 "CS101" "Introduction to Computer Science" "Computer Science"
    "Semester 1" 3 3 "Fundamental concepts of computer science".

Definition courseStateSeeded : CourseManagement.State :=
  mkState "view-courses" CourseManagement.sampleData CourseManagement.sampleData None noPopup
    None (CourseManagement.blankForm "COURSE001" "Semester 1")
    {["courses" := "[1,2,3,4,5,6,7,8]"]}.

Definition taskStateList : TaskManagement.State :=
  mkState "view-tasks" TaskManagement.sampleData TaskManagement.sampleData None noPopup None
    (TaskManagement.blankForm "T004") {["tasks" := "[1,2,3]"]}.

(** Who may upload a picture for the selected record: anyone but a staff
    user looking at a record other than their own. *)
Definition uploadPermitted (userRole currentUserEmail : string)
    (staffMembers : list StaffManagement.Staff) (selectedStaff : StaffManagement.Staff) : Prop :=
  isStaff userRole = false
  \/ StaffManagement.currentUserProfile userRole currentUserEmail staffMembers = None
  \/ exists profile,
       StaffManagement.currentUserProfile userRole currentUserEmail staffMembers = Some profile
       /\ StaffManagement.id selectedStaff = StaffManagement.id profile.

(** A staff user's view of the sample data before any selection. *)
Definition staffStateFresh : StaffManagement.State :=
  mkState "view-staff" StaffManagement.sampleData StaffManagement.sampleData None noPopup
    None tt {["staffMembers" := "[1,2,3,4,5]"]}.

Definition staffFirst : StaffManagement.Staff :=
  StaffManagement.seeded 1 "Dr. John Smith" "john.smith@university.edu" "Computer Science"
    "Professor" 12 6 18.

Definition staffSecond : StaffManagement.Staff :=
  StaffManagement.seeded 2 "Dr. Sarah Johnson" "sarah.johnson@university.edu" "Mathematics"
    "Associate Professor" 10 5 15.

Definition imageOfFiveMiB : StaffManagement.File :=
  StaffManagement.mkFile "image/png" (5 * 1024 * 1024).

(** The email test of [currentUserProfile], ignoring case. *)
Definition sameEmail (currentUserEmail : string) (staff : StaffManagement.Staff) : Prop :=
  JS.toLowerCase (StaffManagement.email staff) = JS.toLowerCase currentUserEmail.

(** A department that [getDepartments] collects: a non-empty department
    of a stored staff member or course. *)
Definition namedDepartment (staffMembers : list StaffManagement.Staff)
    (courses : list CourseManagement.Course) (d : string) : Prop :=
  d <> ""
  /\ ((exists s, In s staffMembers /\ StaffManagement.department s = d)
      \/ (exists c, In c courses /\ CourseManagement.department c = d)).

(** A host JSON that also reads back the one collection [known], from the
    text it writes for it. *)
Definition knowingCodec {R : Type} (idOf : R -> Z) (known : list R) : JSONCodec R := {|
  JSON_stringify := @JSON_stringify _ (idsCodec idOf);
  JSON_parse s :=
    if String.eqb s (@JSON_stringify _ (idsCodec idOf) known) then Some known
    else @JSON_parse _ (idsCodec idOf) s
|}.

Definition storeOfSamples : gmap string string :=
  {["staffMembers" := "[1,2,3,4,5]"; "courses" := "[1,2,3,4,5,6,7,8]"]}.

(** Ascending order of texts, as [sort] leaves them. *)
Definition ascending (l : list string) : Prop :=
  Sorted (fun a b => String.leb a b = true) l.

Definition staffText (storage : gmap string string) : string :=
  JS.orUndefined (storage !! "staffMembers") "[]".

Definition coursesText (storage : gmap string string) : string :=
  JS.orUndefined (storage !! "courses") "[]".

(** The store holds, under [key], the collection the component shows, and
    the filtered view has been set to that collection. *)
Definition persisted {R F : Type} `{JSONCodec R} (key : string) (st : State R F) : Prop :=
  localStorage st !! key = Some (JSON_stringify (items st))
  /\ filteredItems st = items st.

(** The host reads back what it wrote for [l] (and that text is not
    empty). *)
Definition readsBack {R : Type} `{JSONCodec R} (l : list R) : Prop :=
  JS.truthy (JSON_stringify l) = true /\ JSON_parse (JSON_stringify l) = Some l.

(** Every write to the store in [es] goes to [key]. *)
Definition onlyWrites {R F : Type} (key : string) (es : list (Effect R F)) : Prop :=
  Forall (fun e => match e with
                   | StorageSetItem k _ => k = key
                   | _ => True
                   end) es.

(** Nothing in [es] touches the collection or the store. *)
Definition readOnly {R F : Type} (es : list (Effect R F)) : Prop :=
  Forall (fun e => writesStorage e = false /\ setsItems e = false) es.

(** Nothing in [es] touches the collection, the filtered view or the
    store. *)
Definition keepsCollection {R F : Type} (es : list (Effect R F)) : Prop :=
  Forall (fun e => match e with
                   | SetItems _ | SetFiltered _ | StorageSetItem _ _ => False
                   | _ => True
                   end) es.

(** A component that has just mounted on a browser whose store is
    [storage]. *)
Definition mountedTasks (storage : gmap string string) : TaskManagement.State :=
  mkState "view-tasks" [] [] None noPopup None (TaskManagement.blankForm "T001") storage.

Definition mountedStaff (storage : gmap string string) : StaffManagement.State :=
  mkState "view-staff" [] [] None noPopup None tt storage.

(** A host JSON that reads back the text of the sample tasks. *)
Definition sampleTasksCodec : JSONCodec TaskManagement.Task :=
  knowingCodec TaskManagement.id TaskManagement.sampleData.

(** ** Sessions of the task page

    What the page lets a user do, each control delivering its event only
    while it is rendered, and the two effects React runs after a render.
    The rows offered are those of the filtered view. *)
Inductive TaskInteraction :=
| TaskClickTab (tab : TaskManagement.Tab)
| TaskClickView (row : nat)
| TaskClickEdit (row : nat)
| TaskClickDelete (confirmed : bool) (row : nat)
| TaskChangeInput (field : TaskManagement.Field) (value : string)
| TaskSubmitForm
| TaskClickCancel
| TaskClosePopup
| TaskFilterEffect
| TaskIdEffect.

Definition rowShown (row : nat) (st : TaskManagement.State) : option TaskManagement.Task :=
  if String.eqb (activeTab st) "view-tasks" then nth_error (filteredItems st) row else None.

Definition taskInteract (userRole : string) (i : TaskInteraction) (st : TaskManagement.State)
    : list TaskManagement.Effect :=
  match i with
  | TaskClickTab tab =>
      if TaskManagement.tabRendered userRole tab
      then [SetActiveTab (TaskManagement.tabName tab)] else []
  | TaskClickView row =>
      match rowShown row st with
      | Some task => TaskManagement.handleViewTask task st
      | None => []
      end
  | TaskClickEdit row =>
      match rowShown row st with
      | Some task =>
          if TaskManagement.rowActionsRendered userRole
          then TaskManagement.handleEditTask userRole task st else []
      | None => []
      end
  | TaskClickDelete confirmed row =>
      match rowShown row st with
      | Some task =>
          if TaskManagement.rowActionsRendered userRole
          then TaskManagement.handleDeleteTask userRole confirmed (TaskManagement.id task) st
          else []
      | None => []
      end
  | TaskChangeInput field value =>
      if TaskManagement.formRendered userRole st
      then TaskManagement.handleInputChange field value st else []
  | TaskSubmitForm => taskSubmitEvent userRole st
  | TaskClickCancel =>
      if TaskManagement.formRendered userRole st then TaskManagement.handleCancel st else []
  | TaskClosePopup => if show (popup st) then TaskManagement.closePopup else []
  | TaskFilterEffect => TaskManagement.updateFilteredTasks st
  | TaskIdEffect => TaskManagement.autoUpdateTaskId st
  end.

(** A session: the interactions in turn, each on the state the previous
    one left. *)
Fixpoint taskSession `{JSONCodec TaskManagement.Task} (userRole : string)
    (session : list TaskInteraction) (st : TaskManagement.State) : TaskManagement.State :=
  match session with
  | [] => st
  | i :: rest => taskSession userRole rest (run (taskInteract userRole i st) st)
  end.

(** The store holds under [key] the text of the collection. *)
Definition inStep {R F : Type} `{JSONCodec R} (key : string) (st : State R F) : Prop :=
  localStorage st !! key = Some (JSON_stringify (items st)).

(** The effects either leave collection and store alone, or set the
    collection, show all of it and write it under [key], in this order and
    before anything else. *)
Definition tidy {R F : Type} (key : string) (es : list (Effect R F)) : Prop :=
  readOnly es
  \/ exists l rest,
       es = SetItems l :: SetFiltered l :: StorageSetItem key l :: rest
       /\ keepsCollection rest.

(** What a reader may do to the page: no effect on collection, store or
    the record being edited, and the filtered view is at most reset to
    the collection [all]. *)
Definition harmless {R F : Type} (all : list R) (es : list (Effect R F)) : Prop :=
  Forall (fun e => match e with
                   | SetItems _ | StorageSetItem _ _ | SetEditing _ => False
                   | SetFiltered l => l = all
                   | _ => True
                   end) es.

(** An editing session: the sample tasks, one added, one edited, one
    deleted. *)
Definition taskSessionSample : list TaskInteraction :=
  [ TaskSubmitForm; TaskFilterEffect; TaskIdEffect; TaskClosePopup;
    TaskClickEdit 1; TaskChangeInput TaskManagement.FieldTaskName "Invigilate";
    TaskSubmitForm; TaskClickDelete true 1; TaskClickTab TaskManagement.TaskDetails ].

(** How one step may change a collection: not at all, by one record
    appended under the next id, by records replaced under their own ids,
    or by the removal of the records of one id. *)
Definition changedInOneWay {A : Type} (idOf : A -> Z) (before after : list A) : Prop :=
  after = before
  \/ (exists new, idOf new = maxIdOf (map idOf before) + 1 /\ after = before ++ [new])
  \/ (exists f, (forall r, idOf (f r) = idOf r) /\ after = map f before)
  \/ (exists k, after = List.filter (fun r => negb (idOf r =? k)) before).

(** The registration number, without the white space around it and in
    lower case, begins with [prefix]. *)
Definition beginsWith (prefix registrationNumber : string) : Prop :=
  exists rest, JS.toLowerCase (JS.trim registrationNumber) = prefix +:+ rest.

(** ** Notions for the application shell *)

Definition validRole (role : string) : Prop := role = "Administrator" \/ role = "Staff".

(** The store holds no session: the first visit, or after a logout. *)
Definition signedOut (storage : gmap string string) : Prop :=
  storage !! "isAuthenticated" = None
  /\ storage !! "userRole" = None
  /\ storage !! "registrationNumber" = None.

(** One of the three keys under which the session is kept. *)
Definition sessionKey (k : string) : Prop :=
  k = "isAuthenticated" \/ k = "userRole" \/ k = "registrationNumber".

(** The store records the session of [st]. *)
Definition sessionStored (st : App.State) : Prop :=
  App.localStorage st !! "isAuthenticated" = Some "true"
  /\ App.localStorage st !! "userRole" = Some (App.userRole st)
  /\ App.localStorage st !! "registrationNumber" = Some (App.registrationNumber st).

(** The application as a page opened anew finds it: same store, fresh
    component state, mount effect run. *)
Definition reopened (st : App.State) : App.State :=
  App.loadAuthState (App.initial (App.localStorage st)).

(** What holds of the shell at every moment of a visit that began signed
    out. *)
Definition shellInvariant (st : App.State) : Prop :=
  (App.isAuthenticated st = true ->
   sessionStored st
   /\ Login.getRoleFromRegNo (App.registrationNumber st) = Some (App.userRole st))
  /\ (App.isAuthenticated st = false ->
      signedOut (App.localStorage st)
      /\ App.userRole st = "Administrator"
      /\ App.registrationNumber st = ""
      /\ App.currentPage st = "dashboard")
  /\ (App.userRole st = "Administrator" -> App.currentUserEmail st = "").

(** A visit: two failed attempts, a staff login, some navigation, a
    logout and an administrator login. *)
Definition visitSample : list App.Event :=
  [ App.Mount; App.SubmitLogin "  " "pw"; App.SubmitLogin "XY1" "pw";
    App.SubmitLogin " st77 " "pw"; App.StaffEmailEffect; App.Navigate "staff-management";
    App.Logout; App.StaffEmailEffect; App.SubmitLogin "AD1" "x";
    App.Navigate "task-management" ].

(** A host JSON that reads back the text of the sample staff. *)
Definition sampleStaffCodec : JSONCodec StaffManagement.Staff :=
  knowingCodec StaffManagement.id StaffManagement.sampleData.

(** A staff user just logged in on a browser that holds the sample data. *)
Definition staffLoggedIn : App.State :=
  App.handleLogin "Staff" "St2041" (App.initial storeOfSamples).

(** The record that replaces [e] when an edit of [e] is submitted with the
    form as the edit filled it. *)
Definition resubmitted `{HostNumbers} (e : StaffManagement.Staff) : StaffManagement.Staff :=
  StaffManagement.withId
    (AddStaffForm.submitData (Some e) (AddStaffForm.loadEditingStaff (Some e)))
    (StaffManagement.id e).

(** ** Sessions of the staff page

    The page together with the file reads that have been started and have
    not completed yet; each read remembers the selection and the
    collection of the render whose handler started it. *)
Record StaffPage := mkStaffPage {
  view : StaffManagement.State;
  reads : list (StaffManagement.Staff * list StaffManagement.Staff)
}.

Inductive StaffInteraction :=
| StaffClickTab (tab : StaffManagement.Tab)
| StaffClickView (row : nat)
| StaffClickEdit (row : nat)
| StaffClickDelete (confirmed : bool) (row : nat)
| StaffSubmitForm (formData : AddStaffForm.Form.t)
| StaffCancelForm
| StaffChooseFile (file : option StaffManagement.File)
| StaffReadCompleted (read : nat) (result : string)
| StaffClosePopup
| StaffFilterEffect (selectedDepartment searchQuery : string)
| StaffProfileEffect.

Definition staffRowShown (row : nat) (st : StaffManagement.State)
    : option StaffManagement.Staff :=
  if String.eqb (activeTab st) "view-staff" then nth_error (filteredItems st) row else None.

Definition dropNth {A : Type} (n : nat) (l : list A) : list A := firstn n l ++ skipn (S n) l.

Definition staffInteract `{HostNumbers} `{JSONCodec StaffManagement.Staff}
    (userRole currentUserEmail : string) (i : StaffInteraction) (pg : StaffPage) : StaffPage :=
  let st := view pg in
  let after es := mkStaffPage (run es st) (reads pg) in
  match i with
  | StaffClickTab tab =>
      if StaffManagement.tabRendered userRole tab
      then after [SetActiveTab (StaffManagement.tabName tab)] else pg
  | StaffClickView row =>
      match staffRowShown row st with
      | Some staff => after (StaffManagement.handleViewStaff staff st)
      | None => pg
      end
  | StaffClickEdit row =>
      match staffRowShown row st with
      | Some staff =>
          if StaffManagement.rowActionsRendered userRole
          then after (StaffManagement.handleEditStaff userRole staff st) else pg
      | None => pg
      end
  | StaffClickDelete confirmed row =>
      match staffRowShown row st with
      | Some staff =>
          if StaffManagement.rowActionsRendered userRole
          then after (StaffManagement.handleDeleteStaff userRole confirmed
                        (StaffManagement.id staff) st)
          else pg
      | None => pg
      end
  | StaffSubmitForm formData => after (staffSubmitEvent userRole formData st)
  | StaffCancelForm =>
      if StaffManagement.formRendered userRole st
      then after (StaffManagement.handleStaffAdded userRole None (Some "cancel") st) else pg
  | StaffChooseFile file =>
      if StaffManagement.uploadRendered userRole currentUserEmail st then
        match StaffManagement.handleProfilePictureUpload userRole currentUserEmail file st with
        | StaffManagement.Done es => after es
        | StaffManagement.ReadAsDataURL selectedStaff =>
            mkStaffPage st (reads pg ++ [(selectedStaff, items st)])
        end
      else pg
  | StaffReadCompleted read result =>
      match nth_error (reads pg) read with
      | Some (selectedStaff, staffMembers) =>
          mkStaffPage
            (run (StaffManagement.onloadend userRole selectedStaff result
                    (StaffManagement.withItems staffMembers st)) st)
            (dropNth read (reads pg))
      | None => pg
      end
  | StaffClosePopup => if show (popup st) then after StaffManagement.closePopup else pg
  | StaffFilterEffect selectedDepartment searchQuery =>
      after (StaffManagement.filterStaffEffect selectedDepartment searchQuery st)
  | StaffProfileEffect => after (StaffManagement.autoLoadProfile userRole currentUserEmail st)
  end.

Fixpoint staffSession `{HostNumbers} `{JSONCodec StaffManagement.Staff}
    (userRole currentUserEmail : string) (session : list StaffInteraction) (pg : StaffPage)
    : StaffPage :=
  match session with
  | [] => pg
  | i :: rest =>
      staffSession userRole currentUserEmail rest (staffInteract userRole currentUserEmail i pg)
  end.

(** A staff member without the picture. *)
Definition withoutPicture (s : StaffManagement.Staff) : StaffManagement.Staff :=
  StaffManagement.mkStaff (StaffManagement.id s) (StaffManagement.staffId s)
    (StaffManagement.name s) (StaffManagement.email s) (StaffManagement.department s)
    (StaffManagement.position s) (StaffManagement.teachingHours s)
    (StaffManagement.researchHours s) (StaffManagement.totalHours s) (StaffManagement.role s)
    (StaffManagement.qualifications s) (StaffManagement.minContactHoursYear s)
    (StaffManagement.minContactHoursWeek s) (StaffManagement.maxHoursWeek s)
    (StaffManagement.minHoursWeek s) None.

(** The id of the record the page takes for the user's own. *)
Definition ownId (userRole currentUserEmail : string)
    (staffMembers : list StaffManagement.Staff) : option Z :=
  option_map StaffManagement.id
    (StaffManagement.currentUserProfile userRole currentUserEmail staffMembers).

(** [r] is [r0] up to the picture, and is [r0] itself unless [r0] is the
    user's own record. *)
Definition tracks (own : option Z) (r r0 : StaffManagement.Staff) : Prop :=
  withoutPicture r = withoutPicture r0 /\ (own <> Some (StaffManagement.id r0) -> r = r0).

Definition known (own : option Z) (staffMembers : list StaffManagement.Staff)
    (r : StaffManagement.Staff) : Prop :=
  exists r0, In r0 staffMembers /\ tracks own r r0.

(** What holds of the page throughout a staff user's session that began
    with the collection [staffMembers]. *)
Definition staffInvariant (own : option Z) (staffMembers : list StaffManagement.Staff)
    (pg : StaffPage) : Prop :=
  Forall2 (tracks own) (items (view pg)) staffMembers
  /\ (forall r, In r (filteredItems (view pg)) -> known own staffMembers r)
  /\ (forall s, selected (view pg) = Some s -> known own staffMembers s)
  /\ (forall s snapshot,
        In (s, snapshot) (reads pg) ->
        known own staffMembers s /\ own = Some (StaffManagement.id s)
        /\ Forall2 (tracks own) snapshot staffMembers).

(** A page as a mount leaves it: the view and the selection come from the
    collection and no read is under way. *)
Definition settled (pg : StaffPage) : Prop :=
  (forall r, In r (filteredItems (view pg)) -> In r (items (view pg)))
  /\ (forall s, selected (view pg) = Some s -> In s (items (view pg)))
  /\ reads pg = [].

(** A staff user's session: looking around, trying the controls of an
    Administrator, and two uploads that complete in the reverse order. *)
Definition staffSessionSample : list StaffInteraction :=
  [ StaffProfileEffect; StaffClickTab StaffManagement.StaffDetails;
    StaffChooseFile (Some imageOfFiveMiB); StaffChooseFile (Some imageOfFiveMiB);
    StaffClickTab StaffManagement.ViewStaff; StaffClickDelete true 2; StaffClickView 3;
    StaffClickTab StaffManagement.StaffDetails; StaffChooseFile (Some imageOfFiveMiB);
    StaffReadCompleted 1 "data:second"; StaffReadCompleted 0 "data:first";
    StaffSubmitForm staffFormFilled; StaffFilterEffect "Physics" "" ].

(** The staff page of the second sample member, freshly loaded. *)
Definition staffPageFresh : StaffPage := mkStaffPage staffStateFresh [].

(** ** Sessions of the course page

    The controls of the page, each delivering its event only while it is
    rendered, and the two effects React runs after a render.  The page
    binds [handleCancel] to no control, so a session has no cancel. *)
Inductive CourseInteraction :=
| CourseClickTab (tab : CourseManagement.Tab)
| CourseClickView (row : nat)
| CourseClickEdit (row : nat)
| CourseClickDelete (confirmed : bool) (row : nat)
| CourseChangeForm (change : CourseManagement.Form.t -> CourseManagement.Form.t)
| CourseSubmitForm
| CourseClosePopup
| CourseFilterEffect (selectedSemester : string)
| CourseIdEffect.

Definition courseRowShown (row : nat) (st : CourseManagement.State)
    : option CourseManagement.Course :=
  if String.eqb (activeTab st) "view-courses" then nth_error (filteredItems st) row else None.

Definition courseInteract (userRole : string) (i : CourseInteraction)
    (st : CourseManagement.State) : list CourseManagement.Effect :=
  match i with
  | CourseClickTab tab =>
      if CourseManagement.tabRendered userRole tab
      then [SetActiveTab (CourseManagement.tabName tab)] else []
  | CourseClickView row =>
      match courseRowShown row st with
      | Some course => CourseManagement.handleViewCourse course st
      | None => []
      end
  | CourseClickEdit row =>
      match courseRowShown row st with
      | Some course =>
          if CourseManagement.rowActionsRendered userRole
          then CourseManagement.handleEditCourse userRole course st else []
      | None => []
      end
  | CourseClickDelete confirmed row =>
      match courseRowShown row st with
      | Some course =>
          if CourseManagement.rowActionsRendered userRole
          then CourseManagement.handleDeleteCourse userRole confirmed
                 (CourseManagement.id course) st
          else []
      | None => []
      end
  | CourseChangeForm change =>
      if CourseManagement.formRendered userRole st
      then CourseManagement.changeForm change st else []
  | CourseSubmitForm => courseSubmitEvent userRole st
  | CourseClosePopup => if show (popup st) then CourseManagement.closePopup else []
  | CourseFilterEffect selectedSemester =>
      CourseManagement.filterCoursesEffect selectedSemester st
  | CourseIdEffect => CourseManagement.autoGenerateCourseId st
  end.

Fixpoint courseSession `{JSONCodec CourseManagement.Course} (userRole : string)
    (session : list CourseInteraction) (st : CourseManagement.State) : CourseManagement.State :=
  match session with
  | [] => st
  | i :: rest => courseSession userRole rest (run (courseInteract userRole i st) st)
  end.

(** No effect on collection, store or the record being edited. *)
Definition looksOnly {R F : Type} (es : list (Effect R F)) : Prop :=
  Forall (fun e => match e with
                   | SetItems _ | StorageSetItem _ _ | SetEditing _ => False
                   | _ => True
                   end) es.

(** An editing session on the course page: the first course is opened,
    given a prerequisite and saved, the second is deleted. *)
Definition courseSessionSample : list CourseInteraction :=
  [ CourseClickTab CourseManagement.ViewCourses; CourseClickEdit 0; CourseSubmitForm;
    CourseChangeForm
      (fun prev =>
         CourseManagement.Form.mk (CourseManagement.Form.courseId prev)
           (CourseManagement.Form.courseCode prev) (CourseManagement.Form.courseName prev)
           (CourseManagement.Form.department prev) (CourseManagement.Form.credits prev)
           (CourseManagement.Form.contactHoursWeek prev)
           (CourseManagement.Form.canCombineSections prev)
           (CourseManagement.Form.courseType prev) "PhD"
           (CourseManagement.Form.semester prev)
           (CourseManagement.Form.expectedEnrollment prev)
           (CourseManagement.Form.maxStudentsSection prev)
           (CourseManagement.Form.priority prev));
    CourseSubmitForm; CourseFilterEffect "Semester 1"; CourseClickDelete true 1;
    CourseIdEffect ].

(** What holds of the staff page, whoever uses it: the store holds the
    text of the collection, the ids are pairwise distinct, and so they are
    in the collection every pending read remembers. *)
Definition staffPageSound `{JSONCodec StaffManagement.Staff} (pg : StaffPage) : Prop :=
  inStep "staffMembers" (view pg)
  /\ List.NoDup (map StaffManagement.id (items (view pg)))
  /\ (forall s snapshot,
        In (s, snapshot) (reads pg) -> List.NoDup (map StaffManagement.id snapshot)).

(** An Administrator's session on the staff page: a member added through
    the form, one edited, one deleted, and a picture uploaded that
    completes after the delete. *)
Definition adminSessionSample : list StaffInteraction :=
  [ StaffClickTab StaffManagement.AddStaff; StaffSubmitForm staffFormFilled;
    StaffClickView 5; StaffClickTab StaffManagement.StaffDetails;
    StaffChooseFile (Some imageOfFiveMiB); StaffClickTab StaffManagement.ViewStaff;
    StaffClickDelete true 0; StaffClickEdit 0; StaffSubmitForm staffFormFilled;
    StaffReadCompleted 0 "data:late" ].

(** * Properties *)

(** ** Strings and digit runs *)

#[local] Arguments String.append !s1 s2 : simpl nomatch.

Lemma append_empty_r (s : string) : s +:+ "" = s.
Proof. induction s as [|c s IH]; simpl; [reflexivity | now rewrite IH]. Qed.

Lemma append_assoc (a b c : string) : (a +:+ b) +:+ c = a +:+ (b +:+ c).
Proof. induction a as [|x a IH]; simpl; [reflexivity | now rewrite IH]. Qed.

Lemma string_of_snoc (l : list ascii) (c : ascii) (t : string) :
  string_of_list_ascii (l ++ [c]) +:+ t = string_of_list_ascii l +:+ String c t.
Proof. induction l as [|x l IH]; simpl; [reflexivity | now rewrite IH]. Qed.

Lemma digitRunsFrom_open (s : string) :
  forall cur, cur <> [] ->
    head (digitRunsFrom cur s) = Some (string_of_list_ascii (rev cur) +:+ JS.takeDigits s).
Proof.
  induction s as [|c s IH]; intros cur Hcur.
  - destruct cur as [|x cur]; [contradiction|].
    simpl digitRunsFrom. simpl JS.takeDigits. now rewrite append_empty_r.
  - simpl digitRunsFrom. simpl JS.takeDigits. destruct (JS.isDigit c).
    + rewrite IH by discriminate. simpl rev. now rewrite string_of_snoc.
    + destruct cur as [|x cur]; [contradiction|]. simpl. now rewrite append_empty_r.
Qed.

Lemma matchDigits_digitRuns (s : string) : JS.matchDigits s = head (digitRuns s).
Proof.
  unfold digitRuns. induction s as [|c s IH]; [reflexivity|].
  simpl. destruct (JS.isDigit c) eqn:Hc.
  - rewrite digitRunsFrom_open by discriminate. reflexivity.
  - exact IH.
Qed.

Lemma takeDigits_run (run after : string) :
  allDigits run ->
  match after with EmptyString => True | String c _ => JS.isDigit c = false end ->
  JS.takeDigits (run +:+ after) = run.
Proof.
  intros Hrun Hafter. induction run as [|c run IH]; simpl.
  - destruct after as [|a after]; [reflexivity|]. simpl. now rewrite Hafter.
  - unfold allDigits in Hrun. simpl in Hrun. inversion Hrun as [|? ? Hc Hrest]; subst.
    rewrite Hc. f_equal. now apply IH.
Qed.

Lemma takeDigits_allDigits (s : string) : allDigits (JS.takeDigits s).
Proof.
  unfold allDigits. induction s as [|c s IH]; simpl; [constructor|].
  destruct (JS.isDigit c) eqn:Hc; simpl; constructor; assumption.
Qed.

Lemma takeDigits_split (s : string) :
  exists after, s = JS.takeDigits s +:+ after
    /\ match after with EmptyString => True | String c _ => JS.isDigit c = false end.
Proof.
  induction s as [|c s [after [Hs Hafter]]]; simpl.
  - exists ""; split; [reflexivity | exact I].
  - destruct (JS.isDigit c) eqn:Hc.
    + exists after. split; [simpl; now rewrite <- Hs | exact Hafter].
    + exists (String c s). split; [reflexivity | exact Hc].
Qed.

(** The regular expression [\d+] finds exactly the first maximal digit run. *)
Lemma matchDigits_firstDigitRun (s run : string) :
  JS.matchDigits s = Some run <-> firstDigitRun s run.
Proof.
  split.
  - revert run. induction s as [|c s IH]; intros run Hm; [discriminate|].
    simpl in Hm. destruct (JS.isDigit c) eqn:Hc.
    + injection Hm as <-.
      destruct (takeDigits_split s) as [after [Hs Hafter]].
      exists "", after. simpl. repeat split.
      * now rewrite <- Hs.
      * constructor.
      * discriminate.
      * unfold allDigits. simpl. constructor; [exact Hc | apply takeDigits_allDigits].
      * exact Hafter.
    + destruct (IH run Hm) as [before [after [Hs [Hb [Hne [Hr Ha]]]]]].
      exists (String c before), after. simpl. repeat split; try assumption.
      * now rewrite <- Hs.
      * unfold noDigit. simpl. constructor; assumption.
  - intros [before [after [Hs [Hb [Hne [Hr Ha]]]]]]. subst s.
    induction before as [|c before IH]; simpl.
    + destruct run as [|r run]; [contradiction|].
      simpl. unfold allDigits in Hr. simpl in Hr.
      inversion Hr as [|? ? Hc Hrest]; subst. rewrite Hc. f_equal. f_equal.
      now apply takeDigits_run.
    + unfold noDigit in Hb. simpl in Hb. inversion Hb as [|? ? Hc Hrest]; subst.
      rewrite Hc. now apply IH.
Qed.

Lemma matchDigits_none (s : string) : JS.matchDigits s = None <-> noDigit s.
Proof.
  unfold noDigit. induction s as [|c s IH]; simpl.
  - split; [constructor | reflexivity].
  - destruct (JS.isDigit c) eqn:Hc.
    + split; [discriminate|]. intros Hall. inversion Hall; congruence.
    + rewrite IH. split; [now constructor | intros Hall; now inversion Hall].
Qed.

Lemma Math_max_foldr (x : N) (xs : list N) :
  JS.Math_max N.max x xs = foldr N.max 0%N (x :: xs).
Proof.
  unfold JS.Math_max. revert x. induction xs as [|y xs IH]; intros x; simpl.
  - lia.
  - rewrite IH. simpl. lia.
Qed.

Lemma cycle_zeros (k : nat) :
  JS.cycle k "" "0" = string_of_list_ascii (replicate k "0"%char).
Proof. induction k as [|k IH]; simpl; [reflexivity | now rewrite IH]. Qed.

Lemma padStart_leftPadZeros (width : nat) (s : string) :
  JS.padStart width "0" s = leftPadZeros width s.
Proof.
  unfold JS.padStart, leftPadZeros.
  destruct (width <=? String.length s)%nat eqn:Hle.
  - apply Nat.leb_le in Hle. replace (width - String.length s)%nat with 0%nat by lia.
    reflexivity.
  - f_equal. destruct (width - String.length s)%nat as [|k]; [reflexivity|].
    simpl. now rewrite cycle_zeros.
Qed.

Lemma taskNumber_secondaryNumber (t : TaskManagement.Task) :
  TaskManagement.taskNumber t = secondaryNumber (TaskManagement.taskId t).
Proof.
  unfold TaskManagement.taskNumber, secondaryNumber.
  destruct (TaskManagement.taskId t) as [s|]; [|reflexivity].
  rewrite matchDigits_digitRuns. now destruct (digitRuns s).
Qed.

Lemma courseNumber_secondaryNumber (c : CourseManagement.Course) :
  CourseManagement.courseNumber c = secondaryNumber (CourseManagement.courseId c).
Proof.
  unfold CourseManagement.courseNumber, secondaryNumber.
  destruct (CourseManagement.courseId c) as [s|]; [|reflexivity].
  rewrite matchDigits_digitRuns. now destruct (digitRuns s).
Qed.

Lemma generateTaskId_refines (tasks : list TaskManagement.Task) :
  TaskManagement.generateTaskId tasks
  = nextSecondaryId (map TaskManagement.taskId tasks) "T" 3.
Proof.
  unfold TaskManagement.generateTaskId, nextSecondaryId.
  rewrite padStart_leftPadZeros. do 3 f_equal.
  rewrite map_map.
  rewrite (map_ext _ _ taskNumber_secondaryNumber).
  destruct (map _ tasks) as [|x xs]; [reflexivity | now rewrite Math_max_foldr].
Qed.

Lemma generateCourseId_refines (courses : list CourseManagement.Course) :
  CourseManagement.generateCourseId courses
  = nextSecondaryId (map CourseManagement.courseId courses) "COURSE" 3.
Proof.
  unfold CourseManagement.generateCourseId, nextSecondaryId.
  rewrite padStart_leftPadZeros. do 3 f_equal.
  rewrite map_map.
  rewrite (map_ext _ _ courseNumber_secondaryNumber).
  destruct (map _ courses) as [|x xs]; [reflexivity | now rewrite Math_max_foldr].
Qed.



Example generateTaskId_sample :
  TaskManagement.generateTaskId TaskManagement.sampleData = "T004".
Proof. reflexivity. Qed.

Example generateCourseId_seeded :
  CourseManagement.generateCourseId CourseManagement.sampleData = "COURSE001".
Proof. reflexivity. Qed.

Example nextSecondaryId_wide :
  nextSecondaryId [Some "T0999"; Some "x12y700"; None; Some "none"] "T" 3 = "T1000".
Proof. reflexivity. Qed.

(** ** Replaying effects *)

Section RunLemmas.
Context {R F : Type} `{JSONCodec R}.

Lemma run_app (es1 es2 : list (Effect R F)) (st : State R F) :
  run (es1 ++ es2) st = run es2 (run es1 st).
Proof. unfold run. apply fold_left_app. Qed.

Lemma refused_error_popup (msg : string) (st : State R F) :
  refused [SetPopup (mkPopup true msg "error")] st.
Proof.
  unfold refused. simpl. repeat split; try reflexivity.
  repeat constructor.
Qed.

(** The checker [savedBeforeNotified] decides the ordering guarantee. *)
Lemma savedBeforeNotified_sound (key : string) (es : list (Effect R F)) :
  forall computed saved done,
    (forall l, computed = Some l -> In (SetItems l) done) ->
    (forall l, saved = Some l -> In (StorageSetItem key l) done) ->
    savedBeforeNotified key computed saved es ->
    forall pre p post,
      es = pre ++ SetPopup p :: post ->
      isNotification (SetPopup p : Effect R F) = true ->
      exists l, In (SetItems l) (done ++ pre) /\ In (StorageSetItem key l) (done ++ pre).
Proof.
  induction es as [|e es IH]; intros computed saved done Hc Hs Hchk pre p post Heq Hnote.
  - destruct pre; discriminate.
  - destruct pre as [|e' pre].
    + simpl in Heq. injection Heq as -> ->. simpl in Hchk.
      destruct Hchk as [Hhere _]. destruct (Hhere Hnote) as [l [Hl1 Hl2]].
      exists l. rewrite app_nil_r. split; [now apply Hc | now apply Hs].
    + simpl in Heq. injection Heq as <- ->.
      assert (Hstep : exists computed' saved',
                 (forall l, computed' = Some l -> In (SetItems l) (done ++ [e])) /\
                 (forall l, saved' = Some l -> In (StorageSetItem key l) (done ++ [e])) /\
                 savedBeforeNotified key computed' saved' (pre ++ SetPopup p :: post)).
      { assert (Hc' : forall l, computed = Some l -> In (SetItems l) (done ++ [e]))
          by (intros l Hl; apply in_or_app; left; now apply Hc).
        assert (Hs' : forall l, saved = Some l -> In (StorageSetItem key l) (done ++ [e]))
          by (intros l Hl; apply in_or_app; left; now apply Hs).
        destruct e; simpl in Hchk;
          try (exists computed, saved; repeat split; assumption).
        - exists (Some l), saved. repeat split; try assumption.
          intros l' Hl'. injection Hl' as <-. apply in_or_app. right. now left.
        - exists computed, saved. repeat split; try assumption. apply Hchk.
        - destruct (String.eqb key0 key) eqn:Hk.
          + apply String.eqb_eq in Hk. subst key0.
            exists computed, (Some value). repeat split; try assumption.
            intros l' Hl'. injection Hl' as <-. apply in_or_app. right. now left.
          + exists computed, saved. repeat split; assumption. }
      destruct Hstep as [computed' [saved' [Hc' [Hs' Hchk']]]].
      destruct (IH computed' saved' (done ++ [e]) Hc' Hs' Hchk' pre p post eq_refl Hnote)
        as [l [Hl1 Hl2]].
      exists l. rewrite <- !app_assoc in Hl1, Hl2. simpl in Hl1, Hl2. now split.
Qed.

Lemma checked_saveBeforeNotification (key : string) (es : list (Effect R F)) :
  savedBeforeNotified key None None es -> saveBeforeNotification key es.
Proof.
  intros Hchk pre p post Heq Hnote.
  apply (savedBeforeNotified_sound key es None None [] ltac:(discriminate) ltac:(discriminate)
           Hchk pre p post Heq Hnote).
Qed.

End RunLemmas.

Lemma not_administrator (userRole : string) :
  isAdministrator userRole = false <-> userRole <> "Administrator".
Proof. unfold isAdministrator. apply String.eqb_neq. Qed.

(** ** Permission gate *)

Lemma taskSubmitEvent_gated (userRole : string) (st : TaskManagement.State) :
  isAdministrator userRole = false -> taskSubmitEvent userRole st = [].
Proof.
  intros Hrole. unfold taskSubmitEvent, TaskManagement.formRendered.
  rewrite Hrole. now rewrite andb_false_r.
Qed.

Lemma courseSubmitEvent_gated (userRole : string) (st : CourseManagement.State) :
  isAdministrator userRole = false -> courseSubmitEvent userRole st = [].
Proof.
  intros Hrole. unfold courseSubmitEvent, CourseManagement.formRendered.
  rewrite Hrole. now rewrite andb_false_r.
Qed.

Lemma staffSubmitEvent_gated `{HostNumbers} (userRole : string)
    (formData : AddStaffForm.Form.t) (st : StaffManagement.State) :
  isAdministrator userRole = false -> staffSubmitEvent userRole formData st = [].
Proof.
  intros Hrole. unfold staffSubmitEvent, StaffManagement.formRendered.
  rewrite Hrole. now rewrite andb_false_r.
Qed.

(** C1 (as the code has it): for an actor whose role is not
    'Administrator' (a 'Staff' actor in particular), in every module and
    every state, the delete handler and the handler that opens a record for
    editing answer with an error notification and change nothing else: the
    collection, the filtered view, the selection and the stored value stay
    as they were and nothing is saved.  The handlers that submit a create
    or an update carry no role check of their own; the form that calls them
    is rendered for an Administrator only, so for any other role a submit
    reaches no handler and has no effect. *)
Theorem C1_non_administrator_changes_nothing (userRole : string)
    (Hrole : isAdministrator userRole = false) :
  (forall (codec : JSONCodec TaskManagement.Task) confirmed id st,
      refused (TaskManagement.handleDeleteTask userRole confirmed id st) st)
  /\ (forall (codec : JSONCodec TaskManagement.Task) task st,
        refused (TaskManagement.handleEditTask userRole task st) st)
  /\ (forall (codec : JSONCodec CourseManagement.Course) confirmed id st,
        refused (CourseManagement.handleDeleteCourse userRole confirmed id st) st)
  /\ (forall (codec : JSONCodec CourseManagement.Course) course st,
        refused (CourseManagement.handleEditCourse userRole course st) st)
  /\ (forall (codec : JSONCodec StaffManagement.Staff) confirmed id st,
        refused (StaffManagement.handleDeleteStaff userRole confirmed id st) st)
  /\ (forall (codec : JSONCodec StaffManagement.Staff) staff st,
        refused (StaffManagement.handleEditStaff userRole staff st) st)
  /\ (forall st, TaskManagement.formRendered userRole st = false
                 /\ taskSubmitEvent userRole st = [])
  /\ (forall st, CourseManagement.formRendered userRole st = false
                 /\ courseSubmitEvent userRole st = [])
  /\ (forall (host : HostNumbers) formData st,
        StaffManagement.formRendered userRole st = false
        /\ staffSubmitEvent userRole formData st = []).
Proof.
  assert (Hdeny : forall (R F : Type) (codec : JSONCodec R) (msg : string)
                    (es : list (Effect R F)) (st : State R F),
             refused (if negb (isAdministrator userRole)
                      then [SetPopup (mkPopup true msg "error")] else es) st).
  { intros. rewrite Hrole. apply refused_error_popup. }
  split; [intros; apply Hdeny|].
  split; [intros; apply Hdeny|].
  split; [intros; apply Hdeny|].
  split; [intros; apply Hdeny|].
  split; [intros; apply Hdeny|].
  split; [intros; apply Hdeny|].
  split; [|split].
  - intros st. split; [|now apply taskSubmitEvent_gated].
    unfold TaskManagement.formRendered. rewrite Hrole. apply andb_false_r.
  - intros st. split; [|now apply courseSubmitEvent_gated].
    unfold CourseManagement.formRendered. rewrite Hrole. apply andb_false_r.
  - intros host formData st. split; [|now apply staffSubmitEvent_gated].
    unfold StaffManagement.formRendered. rewrite Hrole. apply andb_false_r.
Qed.

Lemma C1_non_administrator_changes_nothing_witness :
  isAdministrator "Staff" = false
  /\ @refused _ _ staffCodec
       (StaffManagement.handleDeleteStaff "Staff" true 2 staffState) staffState
  /\ @refused _ _ taskCodec
       (TaskManagement.handleEditTask "Staff" taskSecond taskState) taskState
  /\ taskSubmitEvent "Staff" taskState = [].
Proof.
  pose proof (C1_non_administrator_changes_nothing "Staff" eq_refl) as Hall.
  split; [reflexivity|].
  split; [apply Hall|]. split; [apply Hall|]. apply Hall.
Defined.

(** C1, counterexample: a 'Staff' actor whose call reaches the create
    handler of the task module with a filled-in form is not refused: the
    task is appended, the collection is saved and the popup announces
    success. *)
Lemma C1_staff_create_not_refused :
  let st' := @run _ _ taskCodec (TaskManagement.handleTaskAdded "Staff" taskState) taskState in
  isStaff "Staff" = true
  /\ type (popup st') = "success"
  /\ length (items st') = S (length (items taskState))
  /\ localStorage st' !! "tasks" = Some "[1,2,3,4]"
  /\ ~ @refused _ _ taskCodec (TaskManagement.handleTaskAdded "Staff" taskState) taskState.
Proof.
  split; [reflexivity|]. split; [reflexivity|]. split; [reflexivity|].
  split; [vm_compute; reflexivity|].
  unfold refused. intros [_ [Htype _]]. vm_compute in Htype. discriminate.
Qed.

(** ** Loading *)

Section Loading.
Context {codecT : JSONCodec TaskManagement.Task}
        {codecC : JSONCodec CourseManagement.Course}
        {codecS : JSONCodec StaffManagement.Staff}.

(** Stored text that [JSON.parse] rejects makes each loader throw. *)
Lemma loadTasksData_malformed (st : TaskManagement.State) (saved : string) :
  localStorage st !! "tasks" = Some saved -> JS.truthy saved = true ->
  @JSON_parse _ codecT saved = None ->
  TaskManagement.loadTasksData st = Throws "SyntaxError".
Proof.
  intros Hget Htruthy Hparse. unfold TaskManagement.loadTasksData.
  now rewrite Hget, Htruthy, Hparse.
Qed.

Lemma loadCoursesData_malformed (st : CourseManagement.State) (saved : string) :
  localStorage st !! "courses" = Some saved -> JS.truthy saved = true ->
  @JSON_parse _ codecC saved = None ->
  CourseManagement.loadCoursesData st = Throws "SyntaxError".
Proof.
  intros Hget Htruthy Hparse. unfold CourseManagement.loadCoursesData.
  now rewrite Hget, Htruthy, Hparse.
Qed.

Lemma loadStaffData_malformed (st : StaffManagement.State) (saved : string) :
  localStorage st !! "staffMembers" = Some saved -> JS.truthy saved = true ->
  @JSON_parse _ codecS saved = None ->
  StaffManagement.loadStaffData st = Throws "SyntaxError".
Proof.
  intros Hget Htruthy Hparse. unfold StaffManagement.loadStaffData.
  now rewrite Hget, Htruthy, Hparse.
Qed.

(** A missing key seeds the sample data and persists it. *)
Lemma loadTasksData_absent (st : TaskManagement.State) :
  localStorage st !! "tasks" = None ->
  TaskManagement.loadTasksData st
  = Returns [SetItems TaskManagement.sampleData; SetFiltered TaskManagement.sampleData;
             StorageSetItem "tasks" TaskManagement.sampleData].
Proof. intros Hget. unfold TaskManagement.loadTasksData. now rewrite Hget. Qed.

End Loading.

(** C2, the code at the failing input: with text that is not JSON under
    the key 'tasks', the loader throws the SyntaxError of [JSON.parse]; the
    collection stays empty and the stored text stays as it was, whereas an
    absent key seeds the three sample tasks and stores them. *)
Theorem C2_malformed_store_throws :
  @TaskManagement.loadTasksData taskCodec taskStateCorrupt = Throws "SyntaxError"
  /\ @settle _ _ taskCodec (@TaskManagement.loadTasksData taskCodec taskStateCorrupt)
       taskStateCorrupt = taskStateCorrupt
  /\ items taskStateCorrupt = []
  /\ localStorage taskStateCorrupt !! "tasks" = Some "{oops"
  /\ (let absent := mkState "view-tasks" [] [] None noPopup None (TaskManagement.blankForm "T001") ∅ in
      let st' := @settle _ _ taskCodec (@TaskManagement.loadTasksData taskCodec absent) absent in
      items st' = TaskManagement.sampleData
      /\ localStorage st' !! "tasks" = Some "[1,2,3]").
Proof.
  assert (Hthrow : @TaskManagement.loadTasksData taskCodec taskStateCorrupt = Throws "SyntaxError").
  { apply (@loadTasksData_malformed taskCodec taskStateCorrupt "{oops"); reflexivity. }
  split; [exact Hthrow|]. split; [now rewrite Hthrow|].
  split; [reflexivity|]. split; [reflexivity|].
  split; [reflexivity | vm_compute; reflexivity].
Qed.

(** ** Primary ids *)

Lemma Math_max_isMaximum (x : Z) (xs : list Z) :
  isMaximum (JS.Math_max Z.max x xs) (x :: xs).
Proof.
  unfold JS.Math_max. revert x. induction xs as [|y xs IH]; intros x.
  - split; [now left | constructor; [simpl; lia | constructor]].
  - simpl fold_left. destruct (IH (Z.max x y)) as [Hin Hall].
    inversion Hall as [|? ? Hhd Htl]; subst. split.
    + destruct Hin as [Heq | Hin].
      * rewrite <- Heq.
        destruct (Z.max_spec x y) as [[_ Hm] | [_ Hm]]; rewrite Hm;
          [right; now left | now left].
      * right. now right.
    + constructor; [lia|]. constructor; [lia | exact Htl].
Qed.

Lemma maxIdOf_isNextId (ids : list Z) : isNextId ids (maxIdOf ids + 1).
Proof.
  destruct ids as [|x xs].
  - left. split; reflexivity.
  - right. exists (maxIdOf (x :: xs)). split; [apply Math_max_isMaximum | reflexivity].
Qed.

Lemma isMaximum_unique (m m' : Z) (l : list Z) : isMaximum m l -> isMaximum m' l -> m = m'.
Proof.
  intros [Hin Hall] [Hin' Hall']. rewrite List.Forall_forall in Hall, Hall'.
  apply Hall' in Hin. apply Hall in Hin'. lia.
Qed.

Lemma maxIdOf_above {A : Type} (key : A -> Z) (l : list A) :
  Forall (fun r => key r < maxIdOf (map key l) + 1) l.
Proof.
  destruct l as [|a l]; [constructor|].
  destruct (Math_max_isMaximum (key a) (map key l)) as [_ Hall].
  change (Forall (fun x => x <= maxIdOf (map key (a :: l))) (map key (a :: l))) in Hall.
  rewrite List.Forall_forall in Hall. apply List.Forall_forall. intros r Hr.
  assert (key r <= maxIdOf (map key (a :: l))) by (apply Hall; now apply in_map).
  lia.
Qed.

Lemma handleTaskAdded_valid (userRole : string) (st : TaskManagement.State) :
  JS.truthy (JS.trim (TaskManagement.Form.taskName (formData st))) = true ->
  JS.truthy (JS.trim (TaskManagement.Form.description (formData st))) = true ->
  exists new form,
    TaskManagement.id new = maxIdOf (map TaskManagement.id (items st)) + 1
    /\ TaskManagement.handleTaskAdded userRole st
       = [ SetItems (items st ++ [new]); SetFiltered (items st ++ [new]);
           StorageSetItem "tasks" (items st ++ [new]); SetActiveTab "view-tasks";
           SetFormData form; SetPopup (mkPopup true "Task added successfully!" "success") ].
Proof.
  intros Hname Hdesc. unfold TaskManagement.handleTaskAdded. rewrite Hname, Hdesc.
  simpl orb. cbv iota. eexists. eexists. split; [|reflexivity]. reflexivity.
Qed.

Lemma handleCourseAdded_valid (userRole : string) (st : CourseManagement.State) :
  CourseManagement.invalid (formData st) = false ->
  exists new form,
    CourseManagement.id new = maxIdOf (map CourseManagement.id (items st)) + 1
    /\ CourseManagement.handleCourseAdded userRole st
       = [ SetItems (items st ++ [new]); SetFiltered (items st ++ [new]);
           StorageSetItem "courses" (items st ++ [new]); SetActiveTab "view-courses";
           SetFormData form; SetPopup (mkPopup true "Course added successfully!" "success") ].
Proof.
  intros Hvalid. unfold CourseManagement.handleCourseAdded. rewrite Hvalid.
  eexists. eexists. split; [|reflexivity]. reflexivity.
Qed.

Lemma handleStaffAdded_fresh (userRole : string) (d : StaffManagement.Draft)
    (action : option string) (st : StaffManagement.State) :
  StaffManagement.isCancel action = false ->
  StaffManagement.idMissing (StaffManagement.id d) = true ->
  let new := StaffManagement.withId d (maxIdOf (map StaffManagement.id (items st)) + 1) in
  StaffManagement.handleStaffAdded userRole (Some d) action st
  = [ SetItems (items st ++ [new]); SetFiltered (items st ++ [new]);
      StorageSetItem "staffMembers" (items st ++ [new]); SetActiveTab "view-staff";
      SetPopup (mkPopup true "Staff member added successfully!" "success") ].
Proof.
  intros Hcancel Hmissing. unfold StaffManagement.handleStaffAdded. rewrite Hcancel.
  unfold StaffManagement.idMissing in Hmissing.
  destruct (StaffManagement.id d) as [i|]; [rewrite Hmissing|]; reflexivity.
Qed.

Lemma handleStaffAdded_keeps_id (userRole : string) (d : StaffManagement.Draft)
    (action : option string) (st : StaffManagement.State) (i : Z) :
  StaffManagement.isCancel action = false ->
  StaffManagement.id d = Some i -> i <> 0 ->
  let new := StaffManagement.withId d i in
  StaffManagement.handleStaffAdded userRole (Some d) action st
  = [ SetItems (items st ++ [new]); SetFiltered (items st ++ [new]);
      StorageSetItem "staffMembers" (items st ++ [new]); SetActiveTab "view-staff";
      SetPopup (mkPopup true "Staff member added successfully!" "success") ].
Proof.
  intros Hcancel Hid Hnz. unfold StaffManagement.handleStaffAdded. rewrite Hcancel, Hid.
  apply Z.eqb_neq in Hnz. now rewrite Hnz.
Qed.

Lemma submitToParent_create `{HostNumbers} (userRole : string)
    (formData : AddStaffForm.Form.t) (st : StaffManagement.State) :
  editing st = None -> AddStaffForm.invalid formData = false ->
  AddStaffForm.submitToParent userRole formData st
  = StaffManagement.handleStaffAdded userRole
      (Some (AddStaffForm.submitData None formData)) None st.
Proof.
  intros Hedit Hvalid. unfold AddStaffForm.submitToParent, AddStaffForm.handleSubmit.
  rewrite Hedit, Hvalid. reflexivity.
Qed.

Lemma isNextId_135 (n : Z) : isNextId [1; 3; 5] n -> n = 6.
Proof.
  intros [[Hnil _] | [m [Hmax ->]]]; [discriminate|].
  assert (Hfive : isMaximum 5 [1; 3; 5]).
  { split; [simpl; tauto | repeat (constructor; [lia|]); constructor]. }
  now rewrite (isMaximum_unique _ _ _ Hmax Hfive).
Qed.







Example staff_duplicate_ids :
  map StaffManagement.id
    (items (@run _ _ staffCodec
              (StaffManagement.handleStaffAdded "Administrator" (Some staffDraftTwo) None
                 staffState) staffState))
  = [1; 2; 3; 4; 5; 2].
Proof. reflexivity. Qed.

(** ** Deleting *)

Section Removal.
Context {A : Type} (key : A -> Z) (k : Z).

Lemma filter_absent (l : list A) :
  Forall (fun x => key x <> k) l -> List.filter (fun x => negb (key x =? k)) l = l.
Proof.
  induction 1 as [|x l Hx Hl IH]; [reflexivity|].
  simpl. apply Z.eqb_neq in Hx. rewrite Hx. simpl. now rewrite IH.
Qed.

Lemma count_absent (l : list A) :
  count_occ Z.eq_dec (map key l) k = 0%nat -> Forall (fun x => key x <> k) l.
Proof.
  induction l as [|x l IH]; [constructor|].
  simpl. destruct (Z.eq_dec (key x) k) as [Heq | Hne]; [discriminate|].
  intros Hcount. constructor; [exact Hne | now apply IH].
Qed.

Lemma filter_once (l : list A) :
  count_occ Z.eq_dec (map key l) k = 1%nat ->
  exists before r after,
    l = before ++ r :: after /\ key r = k /\ List.filter (fun x => negb (key x =? k)) l = before ++ after
    /\ Forall (fun x => key x <> k) (before ++ after).
Proof.
  induction l as [|x l IH]; [discriminate|].
  simpl. destruct (Z.eq_dec (key x) k) as [Heq | Hne]; intros Hcount.
  - injection Hcount as Hcount. apply count_absent in Hcount.
    exists [], x, l. rewrite Heq, Z.eqb_refl. simpl.
    rewrite (filter_absent l Hcount). repeat split; assumption.
  - destruct (IH Hcount) as [before [r [after [Hl [Hr [Hf Hall]]]]]].
    exists (x :: before), r, after.
    apply Z.eqb_neq in Hne as Hneb. rewrite Hneb. simpl. rewrite Hf, Hl.
    repeat split; try assumption. now constructor.
Qed.

Lemma filter_members (l : list A) (r : A) :
  In r (List.filter (fun x => negb (key x =? k)) l) <-> In r l /\ key r <> k.
Proof.
  rewrite filter_In. rewrite negb_true_iff, Z.eqb_neq. reflexivity.
Qed.

Lemma filter_is_sublist (f : A -> bool) (l : list A) : sublist (List.filter f l) l.
Proof.
  induction l as [|x l IH]; simpl; [constructor|].
  destruct (f x); now constructor.
Qed.

End Removal.

Section DeleteShape.
Context {R F : Type} `{JSONCodec R}.

Lemma deleteEffects_run (key : string) (idOf : R -> Z) (id_ : Z) (msg : string) (st : State R F) :
  let updatedList := List.filter (fun r => negb (idOf r =? id_)) (items st) in
  let st' := run (deleteEffects key idOf id_ msg st) st in
  items st' = updatedList
  /\ filteredItems st' = updatedList
  /\ localStorage st' = <[key := JSON_stringify updatedList]> (localStorage st)
  /\ popup st' = mkPopup true msg "delete"
  /\ (forall s, selected st = Some s -> idOf s = id_ -> selected st' = None).
Proof.
  unfold deleteEffects. destruct (selected st) as [s|] eqn:Hsel.
  - destruct (idOf s =? id_) eqn:Hs; simpl;
      (split; [reflexivity|]); (split; [reflexivity|]); (split; [reflexivity|]);
      (split; [reflexivity|]).
    + reflexivity.
    + intros s' Hs' Hid. injection Hs' as <-.
      apply Z.eqb_neq in Hs. contradiction.
  - simpl. (split; [reflexivity|]); (split; [reflexivity|]); (split; [reflexivity|]);
      (split; [reflexivity|]).
    intros s' Hs'. discriminate.
Qed.

Lemma deleteEffects_once (key : string) (idOf : R -> Z) (id_ : Z) (msg : string) (st : State R F) :
  count_occ Z.eq_dec (map idOf (items st)) id_ = 1%nat ->
  removesExactly idOf id_ st (run (deleteEffects key idOf id_ msg st) st).
Proof.
  intros Honce.
  destruct (deleteEffects_run key idOf id_ msg st) as [Hitems [_ [_ [_ Hsel]]]].
  unfold removesExactly. rewrite Hitems. split; [|split; [|split]].
  - destruct (filter_once idOf id_ (items st) Honce) as [b [r [a [Hl [Hr [Hf Hall]]]]]].
    exists b, r, a. repeat split; assumption.
  - intros r. apply filter_members.
  - apply filter_is_sublist.
  - exact Hsel.
Qed.

Lemma deleteEffects_none (key : string) (idOf : R -> Z) (id_ : Z) (msg : string) (st : State R F) :
  Forall (fun r => idOf r <> id_) (items st) ->
  deletesNothing key (deleteEffects key idOf id_ msg st) st.
Proof.
  intros Hnone.
  destruct (deleteEffects_run key idOf id_ msg st) as [Hitems [Hfilt [Hstore [Hpop _]]]].
  pose proof (filter_absent idOf id_ (items st) Hnone) as Hsame.
  unfold deletesNothing. rewrite Hitems, Hfilt, Hstore, Hpop, Hsame.
  repeat split; try reflexivity.
  unfold deleteEffects. rewrite Hsame. simpl. right. right. now left.
Qed.

End DeleteShape.

Lemma handleDeleteTask_allowed (userRole : string) (id_ : Z) (st : TaskManagement.State) :
  isAdministrator userRole = true ->
  TaskManagement.handleDeleteTask userRole true id_ st
  = deleteEffects "tasks" TaskManagement.id id_ "Task deleted successfully!" st.
Proof. intros Hrole. unfold TaskManagement.handleDeleteTask. now rewrite Hrole. Qed.

Lemma handleDeleteCourse_allowed (userRole : string) (id_ : Z) (st : CourseManagement.State) :
  isAdministrator userRole = true ->
  CourseManagement.handleDeleteCourse userRole true id_ st
  = deleteEffects "courses" CourseManagement.id id_ "Course deleted successfully!" st.
Proof. intros Hrole. unfold CourseManagement.handleDeleteCourse. now rewrite Hrole. Qed.

Lemma handleDeleteStaff_allowed (userRole : string) (id_ : Z) (st : StaffManagement.State) :
  isAdministrator userRole = true ->
  StaffManagement.handleDeleteStaff userRole true id_ st
  = deleteEffects "staffMembers" StaffManagement.id id_ "Record deleted" st.
Proof. intros Hrole. unfold StaffManagement.handleDeleteStaff. now rewrite Hrole. Qed.

(** C5: a confirmed delete, by an Administrator, of an id that occurs
    exactly once leaves exactly the records whose id differs from it, each
    the very record it was and in the original relative order (the
    collection splits around the removed record); and a Detail selection
    that referenced the deleted record is cleared. *)
Theorem C5_confirmed_delete_removes_exactly (userRole : string)
    (Hadmin : isAdministrator userRole = true) :
  (forall (codec : JSONCodec TaskManagement.Task) id_ (st : TaskManagement.State),
      count_occ Z.eq_dec (map TaskManagement.id (items st)) id_ = 1%nat ->
      removesExactly TaskManagement.id id_ st
        (run (TaskManagement.handleDeleteTask userRole true id_ st) st))
  /\ (forall (codec : JSONCodec CourseManagement.Course) id_ (st : CourseManagement.State),
        count_occ Z.eq_dec (map CourseManagement.id (items st)) id_ = 1%nat ->
        removesExactly CourseManagement.id id_ st
          (run (CourseManagement.handleDeleteCourse userRole true id_ st) st))
  /\ (forall (codec : JSONCodec StaffManagement.Staff) id_ (st : StaffManagement.State),
        count_occ Z.eq_dec (map StaffManagement.id (items st)) id_ = 1%nat ->
        removesExactly StaffManagement.id id_ st
          (run (StaffManagement.handleDeleteStaff userRole true id_ st) st)).
Proof.
  split; [|split]; intros codec id_ st Honce.
  - rewrite (handleDeleteTask_allowed userRole id_ st Hadmin). now apply deleteEffects_once.
  - rewrite (handleDeleteCourse_allowed userRole id_ st Hadmin). now apply deleteEffects_once.
  - rewrite (handleDeleteStaff_allowed userRole id_ st Hadmin). now apply deleteEffects_once.
Qed.

Lemma C5_confirmed_delete_removes_exactly_witness :
  isAdministrator "Administrator" = true
  /\ count_occ Z.eq_dec (map StaffManagement.id (items staffState)) 2 = 1%nat
  /\ removesExactly StaffManagement.id 2 staffState
       (@run _ _ staffCodec (StaffManagement.handleDeleteStaff "Administrator" true 2 staffState)
          staffState).
Proof.
  split; [reflexivity|]. split; [reflexivity|].
  apply (C5_confirmed_delete_removes_exactly "Administrator" eq_refl). reflexivity.
Defined.

Example delete_second_staff :
  let st' := @run _ _ staffCodec
               (StaffManagement.handleDeleteStaff "Administrator" true 2 staffState) staffState in
  map StaffManagement.id (items st') = [1; 3; 4; 5]
  /\ selected st' = None
  /\ localStorage st' !! "staffMembers" = Some "[1,3,4,5]".
Proof. split; [reflexivity|]. split; [reflexivity|]. vm_compute. reflexivity. Qed.

(** C10: a confirmed delete, by an Administrator, of an id that matches no
    record leaves the collection equal to the prior one, element for
    element, yet the handler still writes the unchanged collection to the
    store and still shows a notification of kind 'delete'. *)
Theorem C10_delete_of_unmatched_id (userRole : string)
    (Hadmin : isAdministrator userRole = true) :
  (forall (codec : JSONCodec TaskManagement.Task) id_ (st : TaskManagement.State),
      Forall (fun r => TaskManagement.id r <> id_) (items st) ->
      deletesNothing "tasks" (TaskManagement.handleDeleteTask userRole true id_ st) st)
  /\ (forall (codec : JSONCodec CourseManagement.Course) id_ (st : CourseManagement.State),
        Forall (fun r => CourseManagement.id r <> id_) (items st) ->
        deletesNothing "courses" (CourseManagement.handleDeleteCourse userRole true id_ st) st)
  /\ (forall (codec : JSONCodec StaffManagement.Staff) id_ (st : StaffManagement.State),
        Forall (fun r => StaffManagement.id r <> id_) (items st) ->
        deletesNothing "staffMembers"
          (StaffManagement.handleDeleteStaff userRole true id_ st) st).
Proof.
  split; [|split]; intros codec id_ st Hnone.
  - rewrite (handleDeleteTask_allowed userRole id_ st Hadmin). now apply deleteEffects_none.
  - rewrite (handleDeleteCourse_allowed userRole id_ st Hadmin). now apply deleteEffects_none.
  - rewrite (handleDeleteStaff_allowed userRole id_ st Hadmin). now apply deleteEffects_none.
Qed.

Lemma C10_delete_of_unmatched_id_witness :
  isAdministrator "Administrator" = true
  /\ Forall (fun r => TaskManagement.id r <> 99) (items taskState)
  /\ @deletesNothing _ _ taskCodec "tasks"
       (TaskManagement.handleDeleteTask "Administrator" true 99 taskState) taskState.
Proof.
  assert (Hnone : Forall (fun r => TaskManagement.id r <> 99) (items taskState)).
  { simpl. repeat (constructor; [simpl; lia|]). constructor. }
  split; [reflexivity|]. split; [exact Hnone|].
  apply (C10_delete_of_unmatched_id "Administrator" eq_refl). exact Hnone.
Defined.

(** ** Filtering *)

Lemma startsWith_prefix (s q : string) :
  JS.startsWith s q = true <-> exists after, s = q +:+ after.
Proof.
  revert s. induction q as [|b q IH]; intros s.
  - split; [intros _; now exists s | now destruct s].
  - destruct s as [|a s]; simpl.
    + split; [discriminate | intros [after Hs]; discriminate].
    + rewrite andb_true_iff, Ascii.eqb_eq, IH. split.
      * intros [-> [after ->]]. now exists after.
      * intros [after Hs]. injection Hs as -> ->. split; [reflexivity | now exists after].
Qed.

(** [includes] is the substring test. *)
Lemma includes_substring (s q : string) :
  JS.includes s q = true <-> exists before after, s = before +:+ q +:+ after.
Proof.
  induction s as [|a s IH].
  - cbn [JS.includes]. rewrite orb_false_r, startsWith_prefix. split.
    + intros [after Hs]. now exists "", after.
    + intros [before [after Hs]]. destruct before as [|b before]; [|discriminate].
      now exists after.
  - cbn [JS.includes]. rewrite orb_true_iff, startsWith_prefix, IH. split.
    + intros [[after Hs] | [before [after Hs]]].
      * now exists "", after.
      * exists (String a before), after. simpl. now rewrite Hs.
    + intros [before [after Hs]]. destruct before as [|b before].
      * left. now exists after.
      * right. simpl in Hs. injection Hs as -> Hs. now exists before, after.
Qed.

Lemma filter_pointwise {A : Type} (f g : A -> bool) (l : list A) :
  (forall x, f x = g x) -> List.filter f l = List.filter g l.
Proof.
  intros Hfg. induction l as [|x l IH]; [reflexivity|].
  simpl. now rewrite Hfg, IH.
Qed.

Lemma filter_all {A : Type} (f : A -> bool) (l : list A) :
  (forall x, f x = true) -> List.filter f l = l.
Proof.
  intros Hf. induction l as [|x l IH]; [reflexivity|].
  simpl. now rewrite Hf, IH.
Qed.

Lemma filter_twice {A : Type} (f g : A -> bool) (l : list A) :
  List.filter g (List.filter f l) = List.filter (fun x => f x && g x) l.
Proof.
  induction l as [|x l IH]; [reflexivity|].
  simpl. destruct (f x); simpl; [destruct (g x)|]; now rewrite IH.
Qed.

Lemma filterStaff_conjunction (selectedDepartment searchQuery : string)
    (l : list StaffManagement.Staff) :
  StaffManagement.filterStaff selectedDepartment searchQuery l
  = List.filter
      (fun s => departmentMatches selectedDepartment s && queryMatches searchQuery s) l.
Proof.
  unfold StaffManagement.filterStaff, departmentMatches, queryMatches, containsIgnoringCase.
  destruct (String.eqb selectedDepartment "All");
    destruct (String.eqb (JS.trim searchQuery) ""); simpl.
  - symmetry. now apply filter_all.
  - now apply filter_pointwise.
  - apply filter_pointwise. intros s. now rewrite andb_true_r.
  - apply filter_twice.
Qed.

Lemma filterCourses_semester (selectedSemester : string) (l : list CourseManagement.Course) :
  CourseManagement.filterCourses selectedSemester l
  = List.filter (semesterMatches selectedSemester) l.
Proof.
  unfold CourseManagement.filterCourses, semesterMatches.
  destruct (String.eqb selectedSemester "All"); simpl.
  - symmetry. now apply filter_all.
  - now apply filter_pointwise.
Qed.


Example filterStaff_sample :
  map StaffManagement.id
    (StaffManagement.filterStaff "Mathematics" "SARAH" StaffManagement.sampleData) = [2]
  /\ map StaffManagement.id
       (StaffManagement.filterStaff "All" "  " StaffManagement.sampleData) = [1; 2; 3; 4; 5]
  /\ map StaffManagement.id
       (StaffManagement.filterStaff "All" "@University.edu" StaffManagement.sampleData)
     = [1; 2; 3; 4; 5]
  /\ map CourseManagement.id
       (CourseManagement.filterCourses "Semester 2" CourseManagement.sampleData) = [2; 5; 6].
Proof. repeat split. Qed.

(** ** Ordering of save and notification *)

Ltac check_order :=
  apply checked_saveBeforeNotification;
  repeat (simpl;
          match goal with
          | |- context [if ?b then _ else _] => destruct b
          | |- context [match ?o with Some _ => _ | None => _ end] => destruct o
          end);
  simpl; repeat split;
  try (intros; discriminate);
  try (intros; eexists; split; reflexivity).

(** Locates an element of a known list: peels [pre] off both sides of
    [Heq : a :: rest = pre ++ x :: post] for as long as the heads differ. *)
Ltac walk_prefix Heq :=
  repeat match type of Heq with
         | _ :: _ = ?pre ++ _ =>
             destruct pre as [|? pre]; simpl in Heq;
             [try discriminate Heq | injection Heq as <- Heq]
         | [] = ?pre ++ _ => destruct pre; discriminate Heq
         end.

Lemma formPopup_after_callback `{HostNumbers} (editingStaff : option StaffManagement.Staff)
    (formData : AddStaffForm.Form.t) (pre post : list AddStaffForm.FormEffect) (p : Popup) :
  fst (AddStaffForm.handleSubmit editingStaff formData)
  ++ snd (AddStaffForm.handleSubmit editingStaff formData)
  = pre ++ AddStaffForm.SetPopup p :: post ->
  In (AddStaffForm.OnStaffAdded (Some (AddStaffForm.submitData editingStaff formData)) None) pre.
Proof.
  unfold AddStaffForm.handleSubmit.
  destruct (AddStaffForm.invalid formData); destruct editingStaff as [e|]; simpl; intros Heq;
    walk_prefix Heq; simpl; tauto.
Qed.



(** ** The handlers on the sample data *)

Example task_create_on_sample :
  let st' := @run _ _ taskCodec (TaskManagement.handleTaskAdded "Administrator" taskState)
               taskState in
  map TaskManagement.id (items st') = [1; 2; 3; 4]
  /\ map TaskManagement.taskId (items st') = [Some "T001"; Some "T002"; Some "T003"; Some "T004"]
  /\ activeTab st' = "view-tasks"
  /\ popup st' = mkPopup true "Task added successfully!" "success".
Proof. repeat split. Qed.

Example task_create_blank_name :
  TaskManagement.handleTaskAdded "Administrator"
    (mkState "add-task" TaskManagement.sampleData TaskManagement.sampleData None noPopup None
       (TaskManagement.blankForm "T004") (∅ : gmap string string))
  = [SetPopup (mkPopup true "Please fill in all required fields." "error")].
Proof. reflexivity. Qed.

(** A staff user without a known email owns the first record and may
    replace its picture: the upload passes the checks and its completion
    writes the collection. *)
Example staff_uploads_own_picture :
  let st := mkState "staff-details" StaffManagement.sampleData StaffManagement.sampleData None
              noPopup (head StaffManagement.sampleData) tt (∅ : gmap string string) in
  exists own,
    head StaffManagement.sampleData = Some own
    /\ StaffManagement.handleProfilePictureUpload "Staff" "a@x.edu"
         (Some (StaffManagement.mkFile "image/png" 1024)) st
       = StaffManagement.ReadAsDataURL own
    /\ map StaffManagement.profilePicture
         (items (@run _ _ staffCodec (StaffManagement.onloadend "Staff" own "data:image/png;base64,AA" st) st))
       = [Some "data:image/png;base64,AA"; None; None; None; None].
Proof. eexists. repeat split. Qed.

(** ** The host functions on small inputs *)

Example trim_inner_space_kept : JS.trim "  a b  " = "a b" /\ JS.trim "   " = "".
Proof. split; reflexivity. Qed.

Example matchDigits_leftmost :
  JS.matchDigits "COURSE012b7" = Some "012" /\ JS.matchDigits "none" = None.
Proof. split; reflexivity. Qed.

Example padStart_width_three :
  JS.padStart 3 "0" (JS.String_ 7) = "007" /\ JS.padStart 3 "0" (JS.String_ 1000) = "1000".
Proof. split; reflexivity. Qed.

Example includes_ignoring_case :
  containsIgnoringCase "Dr. John Smith" "JOHN" = true
  /\ containsIgnoringCase "Dr. John Smith" "jon" = false.
Proof. split; reflexivity. Qed.

(** * Further properties of the components *)

(** ** Updating in place *)

Section InPlace.
Context {R : Type} (idOf : R -> Z) (k : Z) (new : R -> R).

Lemma map_updatesInPlace (l : list R) :
  (forall r, idOf r = k -> idOf (new r) = k) ->
  updatesInPlace idOf k new l (map (fun r => if idOf r =? k then new r else r) l).
Proof.
  intros Hid. unfold updatesInPlace. split; [|split].
  - rewrite map_map. apply map_ext. intros r. destruct (idOf r =? k) eqn:Hr; [|reflexivity].
    apply Z.eqb_eq in Hr. rewrite Hr. now apply Hid.
  - apply length_map.
  - intros i r Hr. rewrite nth_error_map, Hr. reflexivity.
Qed.

End InPlace.

Lemma replaceById_some (d : StaffManagement.Draft) (k : Z) (r : StaffManagement.Staff) :
  StaffManagement.id d = Some k ->
  StaffManagement.replaceById d r
  = if StaffManagement.id r =? k then StaffManagement.withId d k else r.
Proof. intros Hd. unfold StaffManagement.replaceById. now rewrite Hd. Qed.

Lemma replaceById_none (d : StaffManagement.Draft) (l : list StaffManagement.Staff) :
  StaffManagement.id d = None -> map (StaffManagement.replaceById d) l = l.
Proof.
  intros Hd. induction l as [|r l IH]; [reflexivity|].
  simpl. unfold StaffManagement.replaceById at 1. rewrite Hd. now rewrite IH.
Qed.

(** X1: an update that passes validation replaces, in place, the records
    whose id is the id of the record being edited by their merge with the
    form: ids, positions and length of the collection are as before and
    every other record is untouched; the edit is closed, the list tab is
    shown and the updated collection is what the store holds. A staff
    update whose draft has no id changes no record. *)
Theorem X1_update_in_place (userRole : string) :
  (forall (codec : JSONCodec TaskManagement.Task) e (st : TaskManagement.State),
      JS.truthy (JS.trim (TaskManagement.Form.taskName (formData st))) = true ->
      JS.truthy (JS.trim (TaskManagement.Form.description (formData st))) = true ->
      let st' := run (TaskManagement.handleTaskUpdated userRole e st) st in
      updatesInPlace TaskManagement.id (TaskManagement.id e)
        (fun t => TaskManagement.mergeForm t (formData st)) (items st) (items st')
      /\ editing st' = None /\ activeTab st' = "view-tasks"
      /\ localStorage st' !! "tasks" = Some (JSON_stringify (items st')))
  /\ (forall (codec : JSONCodec CourseManagement.Course) e (st : CourseManagement.State),
        CourseManagement.invalid (formData st) = false ->
        let st' := run (CourseManagement.handleCourseUpdated userRole e st) st in
        updatesInPlace CourseManagement.id (CourseManagement.id e)
          (fun c => CourseManagement.mergeForm c (formData st)) (items st) (items st')
        /\ editing st' = None /\ activeTab st' = "view-courses"
        /\ localStorage st' !! "courses" = Some (JSON_stringify (items st')))
  /\ (forall (codec : JSONCodec StaffManagement.Staff) d k (st : StaffManagement.State),
        StaffManagement.id d = Some k ->
        let st' := run (StaffManagement.handleStaffUpdated userRole d st) st in
        updatesInPlace StaffManagement.id k (fun _ => StaffManagement.withId d k)
          (items st) (items st')
        /\ editing st' = None /\ activeTab st' = "view-staff"
        /\ localStorage st' !! "staffMembers" = Some (JSON_stringify (items st')))
  /\ (forall (codec : JSONCodec StaffManagement.Staff) d (st : StaffManagement.State),
        StaffManagement.id d = None ->
        items (run (StaffManagement.handleStaffUpdated userRole d st) st) = items st).
Proof.
  split; [|split; [|split]].
  - intros codec e st Hname Hdesc. unfold TaskManagement.handleTaskUpdated.
    rewrite Hname, Hdesc. simpl. split; [|split; [reflexivity|split; [reflexivity|]]].
    + apply map_updatesInPlace. intros r Hr. exact Hr.
    + apply lookup_insert_eq.
  - intros codec e st Hvalid. unfold CourseManagement.handleCourseUpdated.
    rewrite Hvalid. simpl. split; [|split; [reflexivity|split; [reflexivity|]]].
    + apply map_updatesInPlace. intros r Hr. exact Hr.
    + apply lookup_insert_eq.
  - intros codec d k st Hd. unfold StaffManagement.handleStaffUpdated. simpl.
    split; [|split; [reflexivity|split; [reflexivity|]]].
    + rewrite (map_ext _ _ (fun r => replaceById_some d k r Hd)).
      apply (map_updatesInPlace StaffManagement.id k). reflexivity.
    + apply lookup_insert_eq.
  - intros codec d st Hd. unfold StaffManagement.handleStaffUpdated. simpl.
    now apply replaceById_none.
Qed.

Lemma X1_update_in_place_witness :
  JS.truthy (JS.trim (TaskManagement.Form.taskName (formData taskStateEditing))) = true
  /\ JS.truthy (JS.trim (TaskManagement.Form.description (formData taskStateEditing))) = true
  /\ updatesInPlace TaskManagement.id 2
       (fun t => TaskManagement.mergeForm t taskFormFilled)
       (items taskStateEditing)
       (items (@run _ _ taskCodec
                 (TaskManagement.handleTaskUpdated "Administrator" taskSecond taskStateEditing)
                 taskStateEditing)).
Proof.
  split; [reflexivity|]. split; [reflexivity|].
  apply (X1_update_in_place "Administrator"); reflexivity.
Defined.

(** ** Validation *)

Lemma truthy_false (s : string) : JS.truthy s = false <-> s = "".
Proof.
  unfold JS.truthy. rewrite negb_false_iff. apply String.eqb_eq.
Qed.

Lemma trimEnd_blank (s : string) : JS.trimEnd s = "" <-> blank s.
Proof.
  unfold blank. induction s as [|c s IH]; simpl.
  - split; [constructor | reflexivity].
  - destruct (JS.isWhiteSpace c) eqn:Hc; simpl.
    + destruct (String.eqb (JS.trimEnd s) "") eqn:He.
      * apply String.eqb_eq in He. split; [|reflexivity].
        intros _. constructor; [exact Hc | now apply IH].
      * apply String.eqb_neq in He. split; [discriminate|].
        intros Hall. inversion Hall; subst. exfalso. apply He. now apply IH.
    + split; [discriminate|]. intros Hall. inversion Hall; congruence.
Qed.

Lemma trimStart_blank (s : string) : JS.trimStart s = "" <-> blank s.
Proof.
  unfold blank. induction s as [|c s IH]; simpl.
  - split; [constructor | reflexivity].
  - destruct (JS.isWhiteSpace c) eqn:Hc.
    + rewrite IH. split; [now constructor | intros Hall; now inversion Hall].
    + split; [discriminate|]. intros Hall. inversion Hall; congruence.
Qed.

Lemma trimStart_head (s : string) (c : ascii) (t : string) :
  JS.trimStart s = String c t -> JS.isWhiteSpace c = false.
Proof.
  induction s as [|a s IH]; simpl; [discriminate|].
  destruct (JS.isWhiteSpace a) eqn:Ha; [exact IH|].
  intros Heq. injection Heq as <- _. exact Ha.
Qed.

(** [trim] empties exactly the texts made of white space. *)
Lemma trim_blank (s : string) : JS.truthy (JS.trim s) = false <-> blank s.
Proof.
  rewrite truthy_false. unfold JS.trim. split.
  - intros Hend. apply trimEnd_blank in Hend.
    destruct (JS.trimStart s) as [|c t] eqn:Hstart.
    + now apply trimStart_blank.
    + apply trimStart_head in Hstart. unfold blank in Hend. simpl in Hend.
      inversion Hend; congruence.
  - intros Hblank. apply trimStart_blank in Hblank. now rewrite Hblank.
Qed.

(** X2: a create or an update whose required field is empty or holds only
    white space is refused: an error popup and nothing else, for tasks
    (name, description) and courses (code, name, prerequisite); the staff
    form keeps such a submit to itself: it shows its error and calls
    neither of the parent's callbacks. *)
Theorem X2_blank_required_field_refused (userRole : string) :
  (forall (codec : JSONCodec TaskManagement.Task) (st : TaskManagement.State),
      blank (TaskManagement.Form.taskName (formData st))
      \/ blank (TaskManagement.Form.description (formData st)) ->
      refused (TaskManagement.handleTaskAdded userRole st) st
      /\ (forall e, refused (TaskManagement.handleTaskUpdated userRole e st) st))
  /\ (forall (codec : JSONCodec CourseManagement.Course) (st : CourseManagement.State),
        blank (CourseManagement.Form.courseCode (formData st))
        \/ blank (CourseManagement.Form.courseName (formData st))
        \/ blank (CourseManagement.Form.requiredQualification (formData st)) ->
        refused (CourseManagement.handleCourseAdded userRole st) st
        /\ (forall e, refused (CourseManagement.handleCourseUpdated userRole e st) st))
  /\ (forall (host : HostNumbers) editingStaff (formData : AddStaffForm.Form.t)
             (st : StaffManagement.State),
        blank (AddStaffForm.Form.name formData) \/ blank (AddStaffForm.Form.email formData) ->
        AddStaffForm.handleSubmit editingStaff formData
        = ([ AddStaffForm.SetIsSubmitting true; AddStaffForm.SetError None;
             AddStaffForm.SetSuccess false;
             AddStaffForm.SetError (Some "Please fill in all required fields.");
             AddStaffForm.SetIsSubmitting false ], [])
        /\ AddStaffForm.submitToParent userRole formData st = []).
Proof.
  split; [|split].
  - intros codec st Hblank.
    assert (Hinvalid :
              negb (JS.truthy (JS.trim (TaskManagement.Form.taskName (formData st))))
              || negb (JS.truthy (JS.trim (TaskManagement.Form.description (formData st))))
              = true).
    { destruct Hblank as [Hb | Hb]; apply trim_blank in Hb; rewrite Hb; simpl;
        [reflexivity | apply orb_true_r]. }
    split; [|intros e];
      unfold TaskManagement.handleTaskAdded, TaskManagement.handleTaskUpdated;
      rewrite Hinvalid; apply refused_error_popup.
  - intros codec st Hblank.
    assert (Hinvalid : CourseManagement.invalid (formData st) = true).
    { unfold CourseManagement.invalid.
      destruct Hblank as [Hb | [Hb | Hb]]; apply trim_blank in Hb; rewrite Hb; simpl;
        rewrite ?orb_true_r; reflexivity. }
    split; [|intros e];
      unfold CourseManagement.handleCourseAdded, CourseManagement.handleCourseUpdated;
      rewrite Hinvalid; apply refused_error_popup.
  - intros host editingStaff formData st Hblank.
    assert (Hinvalid : AddStaffForm.invalid formData = true).
    { unfold AddStaffForm.invalid.
      destruct Hblank as [Hb | Hb]; apply trim_blank in Hb; rewrite Hb; simpl;
        rewrite ?orb_true_r; reflexivity. }
    unfold AddStaffForm.submitToParent, AddStaffForm.handleSubmit. rewrite Hinvalid.
    split; reflexivity.
Qed.

Lemma X2_blank_required_field_refused_witness :
  blank (TaskManagement.Form.taskName (formData taskStateBlankName))
  /\ @refused _ _ taskCodec
       (TaskManagement.handleTaskAdded "Administrator" taskStateBlankName) taskStateBlankName.
Proof.
  assert (Hblank : blank (TaskManagement.Form.taskName (formData taskStateBlankName)))
    by (repeat constructor).
  split; [exact Hblank|].
  apply (X2_blank_required_field_refused "Administrator"). now left.
Defined.

(** ** Deleting, again *)

Lemma filter_length_count {A : Type} (key : A -> Z) (k : Z) (l : list A) :
  (length (List.filter (fun x => negb (key x =? k)%Z) l)
   + count_occ Z.eq_dec (map key l) k = length l)%nat.
Proof.
  induction l as [|x l IH]; [reflexivity|].
  simpl. destruct (Z.eq_dec (key x) k) as [Heq | Hne].
  - rewrite Heq, Z.eqb_refl. simpl. lia.
  - apply Z.eqb_neq in Hne. rewrite Hne. simpl. lia.
Qed.

Lemma filter_excludes {A : Type} (key : A -> Z) (k : Z) (l : list A) :
  Forall (fun x => key x <> k) (List.filter (fun x => negb (key x =? k)) l).
Proof.
  apply List.Forall_forall. intros x Hx. apply filter_In in Hx as [_ Hx].
  now apply negb_true_iff, Z.eqb_neq in Hx.
Qed.

(** X7: a confirmed delete by an Administrator removes every record that
    carries the id, duplicates included: the collection shrinks by the
    number of occurrences of the id, no record with the id is left and the
    rest keeps its order. A delete that the user does not confirm issues
    no effect at all. *)
Theorem X7_delete_removes_every_occurrence (userRole : string)
    (Hadmin : isAdministrator userRole = true) :
  (forall (codec : JSONCodec TaskManagement.Task) id_ (st : TaskManagement.State),
      let st' := run (TaskManagement.handleDeleteTask userRole true id_ st) st in
      (length (items st') + count_occ Z.eq_dec (map TaskManagement.id (items st)) id_
       = length (items st))%nat
      /\ Forall (fun r => TaskManagement.id r <> id_) (items st')
      /\ sublist (items st') (items st))
  /\ (forall (codec : JSONCodec CourseManagement.Course) id_ (st : CourseManagement.State),
        let st' := run (CourseManagement.handleDeleteCourse userRole true id_ st) st in
        (length (items st') + count_occ Z.eq_dec (map CourseManagement.id (items st)) id_
         = length (items st))%nat
        /\ Forall (fun r => CourseManagement.id r <> id_) (items st')
        /\ sublist (items st') (items st))
  /\ (forall (codec : JSONCodec StaffManagement.Staff) id_ (st : StaffManagement.State),
        let st' := run (StaffManagement.handleDeleteStaff userRole true id_ st) st in
        (length (items st') + count_occ Z.eq_dec (map StaffManagement.id (items st)) id_
         = length (items st))%nat
        /\ Forall (fun r => StaffManagement.id r <> id_) (items st')
        /\ sublist (items st') (items st))
  /\ (forall id_ st, TaskManagement.handleDeleteTask userRole false id_ st = [])
  /\ (forall id_ st, CourseManagement.handleDeleteCourse userRole false id_ st = [])
  /\ (forall id_ st, StaffManagement.handleDeleteStaff userRole false id_ st = []).
Proof.
  assert (Hshape : forall (R F : Type) (codec : JSONCodec R) key (idOf : R -> Z) id_ msg
                     (st : State R F),
             let st' := run (deleteEffects key idOf id_ msg st) st in
             (length (items st') + count_occ Z.eq_dec (map idOf (items st)) id_
              = length (items st))%nat
             /\ Forall (fun r => idOf r <> id_) (items st')
             /\ sublist (items st') (items st)).
  { intros R F codec key idOf id_ msg st.
    destruct (deleteEffects_run key idOf id_ msg st) as [Hitems _].
    cbv zeta. rewrite Hitems. split; [apply filter_length_count|].
    split; [apply filter_excludes | apply filter_is_sublist]. }
  split; [|split; [|split; [|split; [|split]]]].
  - intros codec id_ st. rewrite (handleDeleteTask_allowed userRole id_ st Hadmin).
    apply Hshape.
  - intros codec id_ st. rewrite (handleDeleteCourse_allowed userRole id_ st Hadmin).
    apply Hshape.
  - intros codec id_ st. rewrite (handleDeleteStaff_allowed userRole id_ st Hadmin).
    apply Hshape.
  - intros id_ st. unfold TaskManagement.handleDeleteTask. now rewrite Hadmin.
  - intros id_ st. unfold CourseManagement.handleDeleteCourse. now rewrite Hadmin.
  - intros id_ st. unfold StaffManagement.handleDeleteStaff. now rewrite Hadmin.
Qed.

Lemma X7_delete_removes_every_occurrence_witness :
  isAdministrator "Administrator" = true
  /\ count_occ Z.eq_dec (map StaffManagement.id (items staffStateDuplicate)) 2 = 2%nat
  /\ (length (items (@run _ _ staffCodec
                       (StaffManagement.handleDeleteStaff "Administrator" true 2%Z
                          staffStateDuplicate) staffStateDuplicate))
      + count_occ Z.eq_dec (map StaffManagement.id (items staffStateDuplicate)) 2%Z
      = length (items staffStateDuplicate))%nat.
Proof.
  split; [reflexivity|]. split; [reflexivity|].
  apply (X7_delete_removes_every_occurrence "Administrator" eq_refl).
Defined.

(** ** Ids over time *)

Lemma maxIdOf_ge (ids : list Z) (x : Z) : In x ids -> x <= maxIdOf ids.
Proof.
  destruct ids as [|y ys]; [contradiction|].
  intros Hin. destruct (Math_max_isMaximum y ys) as [_ Hall].
  rewrite List.Forall_forall in Hall. now apply Hall.
Qed.

Lemma maxIdOf_below (ids : list Z) (m : Z) :
  1 <= m -> Forall (fun x => x < m) ids -> maxIdOf ids + 1 <= m.
Proof.
  intros Hm Hall. destruct ids as [|y ys]; [simpl; lia|].
  destruct (Math_max_isMaximum y ys) as [Hin _].
  rewrite List.Forall_forall in Hall. apply Hall in Hin.
  change (JS.Math_max Z.max y ys) with (maxIdOf (y :: ys)) in Hin. lia.
Qed.

Lemma maxIdOf_without_greatest {A : Type} (key : A -> Z) (m : Z) (l : list A) :
  isMaximum m (map key l) -> 1 <= m ->
  let rest := List.filter (fun x => negb (key x =? m)) l in
  maxIdOf (map key rest) + 1 <= m
  /\ (In (m - 1) (map key l) -> maxIdOf (map key rest) + 1 = m).
Proof.
  intros [_ Hmax] Hm rest. rewrite List.Forall_forall in Hmax.
  assert (Hbelow : Forall (fun x => x < m) (map key rest)).
  { apply List.Forall_forall. intros x Hx. apply in_map_iff in Hx as [r [<- Hr]].
    apply filter_members in Hr as [Hr Hne].
    assert (key r <= m) by (apply Hmax; now apply in_map). lia. }
  pose proof (maxIdOf_below _ m Hm Hbelow) as Hle. split; [exact Hle|].
  intros Hprev. apply in_map_iff in Hprev as [r [Hkey Hr]].
  assert (Hin : In (m - 1) (map key rest)).
  { rewrite <- Hkey. apply in_map. apply filter_members. split; [exact Hr | lia]. }
  apply maxIdOf_ge in Hin. lia.
Qed.

(** X8: primary ids are reused. When an Administrator deletes the record
    with the greatest id m (m at least 1) and then creates a record, the
    new record's id is not above m; it is m again when the collection also
    held the id m - 1. *)
Theorem X8_greatest_id_is_reused (userRole : string)
    (Hadmin : isAdministrator userRole = true) :
  (forall (codec : JSONCodec TaskManagement.Task) m (st : TaskManagement.State),
      JS.truthy (JS.trim (TaskManagement.Form.taskName (formData st))) = true ->
      JS.truthy (JS.trim (TaskManagement.Form.description (formData st))) = true ->
      isMaximum m (map TaskManagement.id (items st)) -> 1 <= m ->
      let st1 := run (TaskManagement.handleDeleteTask userRole true m st) st in
      let st2 := run (TaskManagement.handleTaskAdded userRole st1) st1 in
      exists new,
        items st2 = items st1 ++ [new]
        /\ TaskManagement.id new <= m
        /\ (In (m - 1) (map TaskManagement.id (items st)) -> TaskManagement.id new = m))
  /\ (forall (codec : JSONCodec CourseManagement.Course) m (st : CourseManagement.State),
        CourseManagement.invalid (formData st) = false ->
        isMaximum m (map CourseManagement.id (items st)) -> 1 <= m ->
        let st1 := run (CourseManagement.handleDeleteCourse userRole true m st) st in
        let st2 := run (CourseManagement.handleCourseAdded userRole st1) st1 in
        exists new,
          items st2 = items st1 ++ [new]
          /\ CourseManagement.id new <= m
          /\ (In (m - 1) (map CourseManagement.id (items st)) -> CourseManagement.id new = m))
  /\ (forall (codec : JSONCodec StaffManagement.Staff) d m (st : StaffManagement.State),
        StaffManagement.idMissing (StaffManagement.id d) = true ->
        isMaximum m (map StaffManagement.id (items st)) -> 1 <= m ->
        let st1 := run (StaffManagement.handleDeleteStaff userRole true m st) st in
        let st2 := run (StaffManagement.handleStaffAdded userRole (Some d) None st1) st1 in
        exists new,
          items st2 = items st1 ++ [new]
          /\ StaffManagement.id new <= m
          /\ (In (m - 1) (map StaffManagement.id (items st)) -> StaffManagement.id new = m)).
Proof.
  split; [|split].
  - intros codec m st Hname Hdesc Hmax Hm st1 st2.
    assert (Hitems : items st1
                     = List.filter (fun r => negb (TaskManagement.id r =? m)) (items st)).
    { unfold st1. rewrite (handleDeleteTask_allowed userRole m st Hadmin).
      apply deleteEffects_run. }
    assert (Hform : formData st1 = formData st).
    { unfold st1. rewrite (handleDeleteTask_allowed userRole m st Hadmin).
      unfold deleteEffects. destruct (selected st) as [s|];
        [destruct (TaskManagement.id s =? m)|]; reflexivity. }
    rewrite <- Hform in Hname, Hdesc.
    destruct (handleTaskAdded_valid userRole st1 Hname Hdesc) as [new [form [Hid Hes]]].
    exists new. unfold st2. rewrite Hes. split; [reflexivity|].
    rewrite Hid, Hitems. now apply maxIdOf_without_greatest.
  - intros codec m st Hvalid Hmax Hm st1 st2.
    assert (Hitems : items st1
                     = List.filter (fun r => negb (CourseManagement.id r =? m)) (items st)).
    { unfold st1. rewrite (handleDeleteCourse_allowed userRole m st Hadmin).
      apply deleteEffects_run. }
    assert (Hform : formData st1 = formData st).
    { unfold st1. rewrite (handleDeleteCourse_allowed userRole m st Hadmin).
      unfold deleteEffects. destruct (selected st) as [s|];
        [destruct (CourseManagement.id s =? m)|]; reflexivity. }
    rewrite <- Hform in Hvalid.
    destruct (handleCourseAdded_valid userRole st1 Hvalid) as [new [form [Hid Hes]]].
    exists new. unfold st2. rewrite Hes. split; [reflexivity|].
    rewrite Hid, Hitems. now apply maxIdOf_without_greatest.
  - intros codec d m st Hmissing Hmax Hm st1 st2.
    assert (Hitems : items st1
                     = List.filter (fun r => negb (StaffManagement.id r =? m)) (items st)).
    { unfold st1. rewrite (handleDeleteStaff_allowed userRole m st Hadmin).
      apply deleteEffects_run. }
    unfold st2. rewrite (handleStaffAdded_fresh userRole d None st1 eq_refl Hmissing).
    eexists. split; [reflexivity|]. simpl StaffManagement.id. rewrite Hitems.
    now apply maxIdOf_without_greatest.
Qed.

Lemma X8_greatest_id_is_reused_witness :
  isAdministrator "Administrator" = true
  /\ isMaximum 3 (map TaskManagement.id (items taskState))
  /\ exists new,
       items (@run _ _ taskCodec
                (TaskManagement.handleTaskAdded "Administrator"
                   (@run _ _ taskCodec
                      (TaskManagement.handleDeleteTask "Administrator" true 3 taskState)
                      taskState))
                (@run _ _ taskCodec
                   (TaskManagement.handleDeleteTask "Administrator" true 3 taskState) taskState))
       = items (@run _ _ taskCodec
                  (TaskManagement.handleDeleteTask "Administrator" true 3 taskState) taskState)
         ++ [new]
       /\ TaskManagement.id new <= 3
       /\ (In (3 - 1) (map TaskManagement.id (items taskState)) -> TaskManagement.id new = 3).
Proof.
  assert (Hmax : isMaximum 3 (map TaskManagement.id (items taskState))).
  { split; [simpl; tauto | repeat (constructor; [simpl; lia|]); constructor]. }
  split; [reflexivity|]. split; [exact Hmax|].
  apply (X8_greatest_id_is_reused "Administrator" eq_refl); try reflexivity; [exact Hmax | lia].
Defined.

(** ** Generated secondary ids *)

Lemma string_of_uint_allDigits (d : Decimal.uint) : allDigits (NilEmpty.string_of_uint d).
Proof.
  unfold allDigits. induction d; simpl; constructor; (reflexivity || assumption).
Qed.

Lemma parseInt_String (n : N) : JS.parseInt (JS.String_ n) = n.
Proof.
  unfold JS.parseInt, JS.String_. rewrite NilEmpty.usu. apply DecimalN.Unsigned.of_to.
Qed.

Lemma parseInt_leading_zero (s : string) : JS.parseInt (String "0" s) = JS.parseInt s.
Proof.
  unfold JS.parseInt. simpl. now destruct (NilEmpty.uint_of_string s).
Qed.

Lemma parseInt_leftPadZeros (width : nat) (s : string) :
  JS.parseInt (leftPadZeros width s) = JS.parseInt s.
Proof.
  unfold leftPadZeros. induction (width - String.length s)%nat as [|k IH]; [reflexivity|].
  simpl. now rewrite parseInt_leading_zero.
Qed.

Lemma allDigits_leftPadZeros (width : nat) (s : string) :
  allDigits s -> allDigits (leftPadZeros width s).
Proof.
  intros Hs. unfold leftPadZeros, allDigits.
  induction (width - String.length s)%nat as [|k IH]; [exact Hs|].
  simpl. constructor; [reflexivity | exact IH].
Qed.

Lemma leftPadZeros_nonempty (width : nat) (s : string) :
  (0 < width)%nat -> leftPadZeros width s <> "".
Proof.
  intros Hw. unfold leftPadZeros. destruct s as [|c s].
  - simpl String.length. destruct width as [|w]; [lia|]. discriminate.
  - destruct (width - String.length (String c s))%nat; discriminate.
Qed.

Lemma secondaryNumber_of_run (s run : string) :
  firstDigitRun s run -> secondaryNumber (Some s) = JS.parseInt run.
Proof.
  intros Hrun. apply matchDigits_firstDigitRun in Hrun.
  unfold secondaryNumber. rewrite matchDigits_digitRuns in Hrun.
  destruct (digitRuns s) as [|r rs]; [discriminate|]. simpl in Hrun. congruence.
Qed.

(** The number of a generated id is the number it was generated from. *)
Lemma secondaryNumber_generated (prefix : string) (n : N) :
  noDigit prefix ->
  secondaryNumber (Some (prefix +:+ leftPadZeros 3 (JS.String_ n))) = n.
Proof.
  intros Hprefix.
  rewrite (secondaryNumber_of_run _ (leftPadZeros 3 (JS.String_ n))).
  - now rewrite parseInt_leftPadZeros, parseInt_String.
  - exists prefix, "". rewrite append_empty_r. split; [reflexivity|].
    split; [exact Hprefix|]. split; [apply leftPadZeros_nonempty; lia|].
    split; [|exact I]. apply allDigits_leftPadZeros. apply string_of_uint_allDigits.
Qed.

Lemma foldr_max_ge (l : list N) (x : N) : In x l -> (x <= foldr N.max 0 l)%N.
Proof.
  induction l as [|y l IH]; [contradiction|].
  simpl. intros [-> | Hin]; [lia|]. apply IH in Hin. lia.
Qed.

Lemma nextSecondaryId_fresh (secondaryIds : list (option string)) (prefix : string) :
  noDigit prefix ->
  let next := nextSecondaryId secondaryIds prefix 3 in
  secondaryNumber (Some next) = (foldr N.max 0 (map secondaryNumber secondaryIds) + 1)%N
  /\ forall sid, In sid secondaryIds ->
                 (secondaryNumber sid < secondaryNumber (Some next))%N /\ sid <> Some next.
Proof.
  intros Hprefix next.
  assert (Hnext : secondaryNumber (Some next)
                  = (foldr N.max 0 (map secondaryNumber secondaryIds) + 1)%N)
    by (apply secondaryNumber_generated; exact Hprefix).
  split; [exact Hnext|]. intros sid Hin.
  assert (Hle : (secondaryNumber sid <= foldr N.max 0 (map secondaryNumber secondaryIds))%N)
    by (apply foldr_max_ge; now apply in_map).
  split; [lia|]. intros ->. lia.
Qed.

Lemma nextSecondaryId_truthy (secondaryIds : list (option string)) (prefix : string) :
  prefix <> "" -> JS.truthy (nextSecondaryId secondaryIds prefix 3) = true.
Proof.
  intros Hprefix. unfold nextSecondaryId, JS.truthy. apply negb_true_iff, String.eqb_neq.
  destruct prefix; [contradiction | discriminate].
Qed.



Lemma generateTaskId_not_taken (tasks : list TaskManagement.Task) (t : TaskManagement.Task) :
  In t tasks -> TaskManagement.taskId t <> Some (TaskManagement.generateTaskId tasks).
Proof.
  intros Hin. rewrite generateTaskId_refines.
  apply (nextSecondaryId_fresh (map TaskManagement.taskId tasks) "T");
    [repeat constructor | now apply in_map].
Qed.

Lemma generateCourseId_not_taken (courses : list CourseManagement.Course)
    (c : CourseManagement.Course) :
  In c courses -> CourseManagement.courseId c <> Some (CourseManagement.generateCourseId courses).
Proof.
  intros Hin. rewrite generateCourseId_refines.
  apply (nextSecondaryId_fresh (map CourseManagement.courseId courses) "COURSE");
    [repeat constructor | now apply in_map].
Qed.

Lemma or_same (a : string) : JS.or_ a a = a.
Proof. unfold JS.or_. now destruct (JS.truthy a). Qed.



Example proposed_id_after_create_sample :
  let st1 := @run _ _ taskCodec (TaskManagement.handleTaskAdded "Administrator" taskState)
               taskState in
  let st2 := @run _ _ taskCodec (TaskManagement.autoUpdateTaskId st1) st1 in
  TaskManagement.Form.taskId (formData st1) = "T004"
  /\ TaskManagement.Form.taskId (formData st2) = "T005".
Proof. split; reflexivity. Qed.

(** ** Opening a record in the form and submitting it *)

Lemma or_empty (a : string) : JS.or_ a "" = a.
Proof.
  unfold JS.or_. destruct (JS.truthy a) eqn:Ha; [reflexivity|].
  apply truthy_false in Ha. now subst.
Qed.

Lemma or_truthy (a b : string) : JS.truthy a = true -> JS.or_ a b = a.
Proof. intros Ha. unfold JS.or_. now rewrite Ha. Qed.

Lemma NoDup_map_same {A : Type} (f : A -> Z) (l : list A) (a b : A) :
  List.NoDup (map f l) -> In a l -> In b l -> f a = f b -> a = b.
Proof.
  induction l as [|x l IH]; [contradiction|].
  simpl. intros Hnd Ha Hb Hf. inversion Hnd as [|? ? Hnotin Hnd']; subst.
  destruct Ha as [-> | Ha], Hb as [-> | Hb].
  - reflexivity.
  - exfalso. apply Hnotin. rewrite Hf. now apply in_map.
  - exfalso. apply Hnotin. rewrite <- Hf. now apply in_map.
  - now apply IH.
Qed.

Lemma map_fixes {A : Type} (f : A -> A) (l : list A) :
  (forall x, In x l -> f x = x) -> map f l = l.
Proof.
  induction l as [|x l IH]; intros Hf; [reflexivity|].
  simpl. rewrite Hf by now left. rewrite IH; [reflexivity|].
  intros y Hy. apply Hf. now right.
Qed.



(** X6: a course without a prerequisite (such are all the seeded ones)
    cannot be saved from the edit form as it is filled: the form opens
    with an empty prerequisite, which the update refuses with the error
    popup; the collection is left as it was. *)
Theorem X6_course_without_prerequisite_not_resubmittable (userRole : string)
    (Hadmin : isAdministrator userRole = true)
    (codec : JSONCodec CourseManagement.Course) (course : CourseManagement.Course)
    (st : CourseManagement.State) :
  (CourseManagement.requiredQualification course = None
   \/ exists q, CourseManagement.requiredQualification course = Some q /\ blank q) ->
  let st1 := run (CourseManagement.handleEditCourse userRole course st) st in
  editing st1 = Some course /\ activeTab st1 = "add-course" /\ items st1 = items st
  /\ blank (CourseManagement.Form.requiredQualification (formData st1))
  /\ refused (CourseManagement.handleSubmit userRole st1) st1.
Proof.
  intros Hreq st1.
  assert (Hblank : blank (JS.orUndefined (CourseManagement.requiredQualification course) "")).
  { destruct Hreq as [-> | [q [-> Hq]]]; simpl; [constructor | now rewrite or_empty]. }
  unfold st1, CourseManagement.handleEditCourse. rewrite Hadmin. simpl.
  split; [reflexivity|]. split; [reflexivity|]. split; [reflexivity|]. split; [exact Hblank|].
  unfold CourseManagement.handleSubmit, CourseManagement.handleCourseUpdated. simpl.
  apply trim_blank in Hblank.
  assert (Hinvalid : forall f, CourseManagement.Form.requiredQualification f
                               = JS.orUndefined (CourseManagement.requiredQualification course) ""
                               -> CourseManagement.invalid f = true).
  { intros f Hf. unfold CourseManagement.invalid. rewrite Hf, Hblank. simpl.
    now rewrite !orb_true_r. }
  rewrite Hinvalid by reflexivity. apply refused_error_popup.
Qed.

Lemma X6_course_without_prerequisite_not_resubmittable_witness :
  isAdministrator "Administrator" = true
  /\ CourseManagement.requiredQualification courseFirst = None
  /\ Forall (fun c => CourseManagement.requiredQualification c = None)
       CourseManagement.sampleData
  /\ @refused _ _ courseCodec
       (CourseManagement.handleSubmit "Administrator"
          (@run _ _ courseCodec
             (CourseManagement.handleEditCourse "Administrator" courseFirst courseStateSeeded)
             courseStateSeeded))
       (@run _ _ courseCodec
          (CourseManagement.handleEditCourse "Administrator" courseFirst courseStateSeeded)
          courseStateSeeded).
Proof.
  split; [reflexivity|]. split; [reflexivity|]. split; [repeat constructor|].
  apply (X6_course_without_prerequisite_not_resubmittable "Administrator" eq_refl courseCodec
           courseFirst courseStateSeeded).
  now left.
Defined.

(** ** The picture upload *)

Lemma handleProfilePictureUpload_done (userRole currentUserEmail : string)
    (file : option StaffManagement.File) (st : StaffManagement.State)
    (es : list StaffManagement.Effect) :
  StaffManagement.handleProfilePictureUpload userRole currentUserEmail file st
  = StaffManagement.Done es ->
  es = [] \/ exists msg, es = [SetPopup (mkPopup true msg "error")].
Proof.
  unfold StaffManagement.handleProfilePictureUpload.
  destruct file as [f|]; [destruct (selected st) as [sel|]|];
    repeat match goal with
           | |- context [if ?b then _ else _] => destruct b
           end;
    intros Hdone; try discriminate Hdone; injection Hdone as <-;
    (now left) || (right; eexists; reflexivity).
Qed.

(** X9: the upload handler starts reading the file exactly when a file is
    given, a record is selected, the user is permitted (anyone but a staff
    user on a record that is not their own), the type begins with
    'image/' and the size is at most 5 MiB (5242880 bytes pass, one more
    does not). In every other case it ends at once, with no effect or with
    a single error popup; a staff user on a foreign record is told so
    whatever the file. *)
Theorem X9_upload_checks (userRole currentUserEmail : string)
    (st : StaffManagement.State) :
  (forall file selectedStaff,
      StaffManagement.handleProfilePictureUpload userRole currentUserEmail file st
      = StaffManagement.ReadAsDataURL selectedStaff
      <-> exists f,
            file = Some f /\ selected st = Some selectedStaff
            /\ uploadPermitted userRole currentUserEmail (items st) selectedStaff
            /\ JS.startsWith (StaffManagement.fileType f) "image/" = true
            /\ StaffManagement.size f <= 5242880)
  /\ (forall file es,
        StaffManagement.handleProfilePictureUpload userRole currentUserEmail file st
        = StaffManagement.Done es ->
        es = [] \/ exists msg, es = [SetPopup (mkPopup true msg "error")])
  /\ (forall f selectedStaff,
        selected st = Some selectedStaff ->
        ~ uploadPermitted userRole currentUserEmail (items st) selectedStaff ->
        StaffManagement.handleProfilePictureUpload userRole currentUserEmail (Some f) st
        = StaffManagement.Done
            [SetPopup (mkPopup true "You can only upload your own profile picture." "error")])
  /\ (selected st = None ->
      forall file,
        StaffManagement.handleProfilePictureUpload userRole currentUserEmail file st
        = StaffManagement.Done []).
Proof.
  assert (Hgate : forall sel,
             (isStaff userRole
              && match StaffManagement.currentUserProfile userRole currentUserEmail (items st)
                 with
                 | Some profile => negb (StaffManagement.id sel =? StaffManagement.id profile)
                 | None => false
                 end) = false
             <-> uploadPermitted userRole currentUserEmail (items st) sel).
  { intros sel. unfold uploadPermitted.
    destruct (isStaff userRole); simpl; [|split; [now left | reflexivity]].
    destruct (StaffManagement.currentUserProfile userRole currentUserEmail (items st))
      as [p|]; [|split; [right; now left | reflexivity]].
    rewrite negb_false_iff, Z.eqb_eq. split.
    - intros Hid. right. right. now exists p.
    - intros [Hf | [Hn | [p' [Hp Hid]]]]; [discriminate | discriminate |].
      now injection Hp as <-. }
  split; [|split; [|split]].
  - intros file sel. unfold StaffManagement.handleProfilePictureUpload. split.
    + destruct file as [f|]; [|discriminate].
      destruct (selected st) as [sel'|]; [|discriminate].
      destruct (isStaff userRole && _) eqn:Hg; [discriminate|].
      destruct (JS.startsWith (StaffManagement.fileType f) "image/") eqn:Htype;
        [|discriminate].
      simpl negb. cbv iota.
      destruct (StaffManagement.size f >? 5 * 1024 * 1024) eqn:Hsize; [discriminate|].
      intros Heq. injection Heq as <-. exists f.
      split; [reflexivity|]. split; [reflexivity|]. split; [now apply Hgate|].
      split; [exact Htype|]. rewrite Z.gtb_ltb in Hsize. apply Z.ltb_ge in Hsize. lia.
    + intros [f [-> [Hsel [Hperm [Htype Hsize]]]]]. rewrite Hsel.
      apply Hgate in Hperm. rewrite Hperm, Htype. simpl negb. cbv iota.
      assert (Hle : (StaffManagement.size f >? 5 * 1024 * 1024) = false).
      { rewrite Z.gtb_ltb. apply Z.ltb_ge. lia. }
      now rewrite Hle.
  - intros file es. apply handleProfilePictureUpload_done.
  - intros f sel Hsel Hnot. unfold StaffManagement.handleProfilePictureUpload. rewrite Hsel.
    destruct (isStaff userRole && _) eqn:Hg; [reflexivity|].
    exfalso. apply Hnot. now apply Hgate.
  - intros Hsel file. unfold StaffManagement.handleProfilePictureUpload. rewrite Hsel.
    now destruct file.
Qed.

Lemma X9_upload_checks_witness :
  (exists f,
      Some imageOfFiveMiB = Some f /\ selected staffState = Some staffSecond
      /\ uploadPermitted "Administrator" "" (items staffState) staffSecond
      /\ JS.startsWith (StaffManagement.fileType f) "image/" = true
      /\ StaffManagement.size f <= 5242880)
  /\ StaffManagement.handleProfilePictureUpload "Administrator" "" (Some imageOfFiveMiB)
       staffState
     = StaffManagement.ReadAsDataURL staffSecond.
Proof.
  assert (Hok : exists f,
             Some imageOfFiveMiB = Some f /\ selected staffState = Some staffSecond
             /\ uploadPermitted "Administrator" "" (items staffState) staffSecond
             /\ JS.startsWith (StaffManagement.fileType f) "image/" = true
             /\ StaffManagement.size f <= 5242880).
  { exists imageOfFiveMiB. split; [reflexivity|]. split; [reflexivity|].
    split; [now left|]. split; [reflexivity | simpl; lia]. }
  split; [exact Hok|].
  apply (X9_upload_checks "Administrator" "" staffState). exact Hok.
Defined.

Example upload_one_byte_too_many :
  StaffManagement.handleProfilePictureUpload "Administrator" ""
    (Some (StaffManagement.mkFile "image/png" (5 * 1024 * 1024 + 1))) staffState
  = StaffManagement.Done [SetPopup (mkPopup true "Image size should be less than 5MB." "error")]
  /\ StaffManagement.handleProfilePictureUpload "Staff" "" (Some imageOfFiveMiB) staffState
     = StaffManagement.Done
         [SetPopup (mkPopup true "You can only upload your own profile picture." "error")].
Proof. split; reflexivity. Qed.

(** X10: when the file has been read, every record with the id of the
    selected record is replaced, in place, by the selected record as it was
    when the upload began, with the picture set; ids, positions and length
    are kept and every other record is untouched. The selection becomes
    the record with the picture, the collection is saved and success is
    announced. *)
Theorem X10_upload_completion (userRole : string) (codec : JSONCodec StaffManagement.Staff)
    (selectedStaff : StaffManagement.Staff) (result : string) (st : StaffManagement.State) :
  let updated := StaffManagement.withPicture selectedStaff result in
  let st' := run (StaffManagement.onloadend userRole selectedStaff result st) st in
  updatesInPlace StaffManagement.id (StaffManagement.id selectedStaff) (fun _ => updated)
    (items st) (items st')
  /\ StaffManagement.profilePicture updated = Some result
  /\ StaffManagement.id updated = StaffManagement.id selectedStaff
  /\ StaffManagement.name updated = StaffManagement.name selectedStaff
  /\ StaffManagement.email updated = StaffManagement.email selectedStaff
  /\ StaffManagement.department updated = StaffManagement.department selectedStaff
  /\ selected st' = Some updated
  /\ filteredItems st' = items st'
  /\ localStorage st' !! "staffMembers" = Some (JSON_stringify (items st'))
  /\ popup st' = mkPopup true "Profile picture updated successfully!" "success"
  /\ (Forall (fun r => StaffManagement.id r <> StaffManagement.id selectedStaff) (items st) ->
      items st' = items st).
Proof.
  intros updated st'. unfold st', StaffManagement.onloadend. simpl.
  split; [apply (map_updatesInPlace StaffManagement.id); reflexivity|].
  split; [reflexivity|]. split; [reflexivity|]. split; [reflexivity|].
  split; [reflexivity|]. split; [reflexivity|]. split; [reflexivity|].
  split; [reflexivity|]. split; [apply lookup_insert_eq|]. split; [reflexivity|].
  intros Hnone. apply map_fixes. intros r Hr.
  rewrite List.Forall_forall in Hnone. apply Hnone in Hr.
  apply Z.eqb_neq in Hr. now rewrite Hr.
Qed.

Lemma X10_upload_completion_witness :
  Forall (fun r => StaffManagement.id r <> StaffManagement.id (StaffManagement.withId staffFirst 9))
    (items staffState)
  /\ items (@run _ _ staffCodec
              (StaffManagement.onloadend "Administrator" (StaffManagement.withId staffFirst 9)
                 "data:image/png;base64,AA" staffState) staffState)
     = items staffState.
Proof.
  assert (Hnone : Forall (fun r => StaffManagement.id r
                                   <> StaffManagement.id (StaffManagement.withId staffFirst 9))
                    (items staffState)).
  { simpl. repeat (constructor; [simpl; lia|]). constructor. }
  split; [exact Hnone|].
  apply (X10_upload_completion "Administrator" staffCodec (StaffManagement.withId staffFirst 9)
           "data:image/png;base64,AA" staffState).
  exact Hnone.
Defined.

(** ** Whose profile *)

Lemma find_first {A : Type} (f : A -> bool) (l : list A) (x : A) :
  In x l -> f x = true ->
  exists before q after,
    l = before ++ q :: after /\ List.find f l = Some q /\ f q = true
    /\ Forall (fun r => f r = false) before.
Proof.
  induction l as [|y l IH]; [contradiction|].
  intros Hin Hx. simpl. destruct (f y) eqn:Hy.
  - exists [], y, l. repeat split; try assumption. constructor.
  - destruct Hin as [-> | Hin]; [congruence|].
    destruct (IH Hin Hx) as [before [q [after [Hl [Hfind [Hq Hall]]]]]].
    exists (y :: before), q, after.
    split; [now rewrite Hl|]. split; [exact Hfind|]. split; [exact Hq|]. now constructor.
Qed.

Lemma find_nowhere {A : Type} (f : A -> bool) (l : list A) :
  Forall (fun r => f r = false) l -> List.find f l = None.
Proof.
  induction 1 as [|y l Hy Hl IH]; [reflexivity|]. simpl. now rewrite Hy.
Qed.

Lemma nonempty_length {A : Type} (l : list A) : l <> [] -> (0 <? length l)%nat = true.
Proof. destruct l; [contradiction | reflexivity]. Qed.



Lemma autoLoadProfile_selects (userRole currentUserEmail : string)
    (st : StaffManagement.State) :
  isStaff userRole = true -> selected st = None -> items st <> [] ->
  StaffManagement.autoLoadProfile userRole currentUserEmail st
  = [SetSelected (StaffManagement.currentUserProfile userRole currentUserEmail (items st))].
Proof.
  intros Hstaff Hsel Hne.
  unfold StaffManagement.autoLoadProfile, StaffManagement.currentUserProfile.
  rewrite Hsel, Hstaff, (nonempty_length _ Hne). simpl. do 2 f_equal.
  destruct (JS.truthy currentUserEmail) eqn:Htruthy.
  - reflexivity.
  - now rewrite (find_nowhere _ (items st))
      by (apply List.Forall_forall; intros r _; reflexivity).
Qed.

(** X12: a staff user who opens the staff page with nothing selected gets
    their own profile selected (the collection not being empty); the page
    then counts the selection as the user's own, and an image of at most
    5 MiB chosen for it passes every check of the upload. With a
    selection already made, for another role, or on an empty collection
    the effect selects nothing. *)
Theorem X12_staff_profile_is_selected_and_own (userRole currentUserEmail : string)
    (codec : JSONCodec StaffManagement.Staff) (st : StaffManagement.State) :
  (isStaff userRole = true -> selected st = None -> items st <> [] ->
   let st' := run (StaffManagement.autoLoadProfile userRole currentUserEmail st) st in
   exists p,
     StaffManagement.currentUserProfile userRole currentUserEmail (items st) = Some p
     /\ selected st' = Some p /\ items st' = items st
     /\ localStorage st' = localStorage st
     /\ StaffManagement.isOwnProfile userRole currentUserEmail st' = true
     /\ forall f,
          JS.startsWith (StaffManagement.fileType f) "image/" = true ->
          StaffManagement.size f <= 5242880 ->
          StaffManagement.handleProfilePictureUpload userRole currentUserEmail (Some f) st'
          = StaffManagement.ReadAsDataURL p)
  /\ (isStaff userRole = false \/ selected st <> None \/ items st = [] ->
      StaffManagement.autoLoadProfile userRole currentUserEmail st = []).
Proof.
  split.
  - intros Hstaff Hsel Hne st'.
    unfold st'. rewrite (autoLoadProfile_selects userRole currentUserEmail st Hstaff Hsel Hne).
    destruct (StaffManagement.currentUserProfile userRole currentUserEmail (items st))
      as [p|] eqn:Hprofile.
    + exists p. simpl. split; [reflexivity|]. split; [reflexivity|]. split; [reflexivity|].
      split; [reflexivity|]. split.
      * unfold StaffManagement.isOwnProfile. simpl. rewrite Hstaff, Hprofile. simpl.
        apply Z.eqb_refl.
      * intros f Htype Hsize. unfold StaffManagement.handleProfilePictureUpload. simpl.
        rewrite Hstaff, Hprofile, Z.eqb_refl, Htype. simpl.
        assert (Hle : (StaffManagement.size f >? 5 * 1024 * 1024) = false).
        { rewrite Z.gtb_ltb. apply Z.ltb_ge. lia. }
        now rewrite Hle.
    + exfalso. unfold StaffManagement.currentUserProfile in Hprofile.
      destruct (List.find _ (items st)); [discriminate|].
      rewrite Hstaff, (nonempty_length _ Hne) in Hprofile. simpl in Hprofile.
      destruct (items st); [contradiction | discriminate].
  - intros Hcase. unfold StaffManagement.autoLoadProfile.
    destruct (selected st) as [s|]; [reflexivity|].
    destruct Hcase as [Hrole | [Hsel | Hempty]].
    + now rewrite Hrole.
    + contradiction.
    + rewrite Hempty. simpl. now rewrite andb_false_r.
Qed.

Lemma X12_staff_profile_is_selected_and_own_witness :
  isStaff "Staff" = true /\ selected staffStateFresh = None /\ items staffStateFresh <> []
  /\ exists p,
       StaffManagement.currentUserProfile "Staff" "" (items staffStateFresh) = Some p
       /\ selected (@run _ _ staffCodec
                      (StaffManagement.autoLoadProfile "Staff" "" staffStateFresh)
                      staffStateFresh) = Some p
       /\ StaffManagement.handleProfilePictureUpload "Staff" "" (Some imageOfFiveMiB)
            (@run _ _ staffCodec
               (StaffManagement.autoLoadProfile "Staff" "" staffStateFresh) staffStateFresh)
          = StaffManagement.ReadAsDataURL p.
Proof.
  split; [reflexivity|]. split; [reflexivity|]. split; [discriminate|].
  destruct (X12_staff_profile_is_selected_and_own "Staff" "" staffCodec staffStateFresh)
    as [Hown _].
  destruct (Hown eq_refl eq_refl ltac:(discriminate)) as [p [Hp [Hsel [_ [_ [_ Hupload]]]]]].
  exists p. split; [exact Hp|]. split; [exact Hsel|].
  apply Hupload; [reflexivity | simpl; lia].
Defined.

(** ** Department lists *)

Lemma existsb_eqb_In (x : string) (l : list string) :
  existsb (String.eqb x) l = true <-> In x l.
Proof.
  rewrite existsb_exists. split.
  - intros [y [Hy Heq]]. apply String.eqb_eq in Heq. now subst.
  - intros Hin. exists x. split; [exact Hin | apply String.eqb_refl].
Qed.

Lemma setAdd_In (set : list string) (x d : string) :
  In d (JS.setAdd set x) <-> In d set \/ d = x.
Proof.
  unfold JS.setAdd. destruct (existsb (String.eqb x) set) eqn:Hex.
  - apply existsb_eqb_In in Hex. split; [now left | intros [H | ->]; assumption].
  - rewrite in_app_iff. simpl.
    split; [intros [H | [<- | []]]; [now left | now right]
           | intros [H | ->]; [now left | right; now left]].
Qed.

Lemma NoDup_snoc {A : Type} (l : list A) (x : A) :
  List.NoDup l -> ~ In x l -> List.NoDup (l ++ [x]).
Proof.
  induction l as [|y l IH]; intros Hnd Hnotin; simpl.
  - constructor; [intros [] | constructor].
  - inversion Hnd as [|? ? Hy Hl]; subst. constructor.
    + rewrite in_app_iff. simpl. intros [H | [H | []]]; [contradiction|].
      apply Hnotin. now left.
    + apply IH; [exact Hl|]. intros H. apply Hnotin. now right.
Qed.

Lemma setAdd_NoDup (set : list string) (x : string) :
  List.NoDup set -> List.NoDup (JS.setAdd set x).
Proof.
  intros Hnd. unfold JS.setAdd. destruct (existsb (String.eqb x) set) eqn:Hex; [exact Hnd|].
  assert (Hnotin : ~ In x set).
  { intros Hin. apply existsb_eqb_In in Hin. congruence. }
  now apply NoDup_snoc.
Qed.

Section Collecting.
Context {A : Type} (add : list string -> A -> list string) (dept : A -> option string).
Hypothesis add_In :
  forall set a d, In d (add set a) <-> In d set \/ dept a = Some d.
Hypothesis add_NoDup : forall set a, List.NoDup set -> List.NoDup (add set a).

Lemma fold_add_In (l : list A) :
  forall set d, In d (fold_left add l set) <-> In d set \/ exists a, In a l /\ dept a = Some d.
Proof.
  induction l as [|a l IH]; intros set d; simpl.
  - split; [now left | intros [H | [a [[] _]]]; exact H].
  - rewrite IH, add_In. split.
    + intros [[H | H] | [b [Hb Hd]]].
      * now left.
      * right. exists a. split; [now left | exact H].
      * right. exists b. split; [now right | exact Hd].
    + intros [H | [b [[-> | Hb] Hd]]].
      * left. now left.
      * left. now right.
      * right. now exists b.
Qed.

Lemma fold_add_NoDup (l : list A) :
  forall set, List.NoDup set -> List.NoDup (fold_left add l set).
Proof.
  induction l as [|a l IH]; intros set Hnd; simpl; [exact Hnd|].
  apply IH. now apply add_NoDup.
Qed.

End Collecting.

Lemma newSet_In (xs : list string) (d : string) : In d (JS.newSet xs) <-> In d xs.
Proof.
  unfold JS.newSet.
  rewrite (fold_add_In JS.setAdd Some); [|intros set a d'; rewrite setAdd_In; split;
                                            (intros [H | H]; [now left | right; congruence])].
  split.
  - intros [[] | [a [Ha Hd]]]. now injection Hd as <-.
  - intros Hin. right. now exists d.
Qed.

Lemma newSet_NoDup (xs : list string) : List.NoDup (JS.newSet xs).
Proof.
  unfold JS.newSet. apply (fold_add_NoDup JS.setAdd).
  - intros set a. apply setAdd_NoDup.
  - constructor.
Qed.

(** X13: the options of the department filter are 'All' followed by the
    departments of the staff, each once; and choosing any option other
    than 'All' (with no search text) shows a list that is not empty and
    holds exactly the staff of that department. *)
Theorem X13_department_options (staffMembers : list StaffManagement.Staff) :
  (exists options,
      StaffManagement.departments staffMembers = "All" :: options
      /\ List.NoDup options
      /\ forall d, In d options
                   <-> exists s, In s staffMembers /\ StaffManagement.department s = d)
  /\ (forall d,
        In d (StaffManagement.departments staffMembers) -> d <> "All" ->
        let view := StaffManagement.filterStaff d "" staffMembers in
        view <> []
        /\ forall s, In s view <-> In s staffMembers /\ StaffManagement.department s = d).
Proof.
  assert (Hoptions : forall d, In d (JS.newSet (map StaffManagement.department staffMembers))
                               <-> exists s, In s staffMembers
                                             /\ StaffManagement.department s = d).
  { intros d. rewrite newSet_In, in_map_iff.
    split; intros [s [H1 H2]]; exists s; now split. }
  split.
  - eexists. split; [reflexivity|]. split; [apply newSet_NoDup | exact Hoptions].
  - intros d Hin Hnot view.
    assert (Hview : forall s, In s view
                              <-> In s staffMembers /\ StaffManagement.department s = d).
    { intros s. unfold view. rewrite filterStaff_conjunction, filter_In.
      unfold departmentMatches, queryMatches.
      apply String.eqb_neq in Hnot. rewrite Hnot. simpl.
      rewrite andb_true_r, String.eqb_eq. reflexivity. }
    split; [|exact Hview].
    destruct Hin as [Heq | Hin]; [congruence|].
    apply Hoptions in Hin as [s Hs]. apply Hview in Hs.
    intros Hempty. rewrite Hempty in Hs. contradiction.
Qed.

Lemma X13_department_options_witness :
  In "Physics" (StaffManagement.departments StaffManagement.sampleData)
  /\ "Physics" <> "All"
  /\ StaffManagement.filterStaff "Physics" "" StaffManagement.sampleData <> [].
Proof.
  assert (Hin : In "Physics" (StaffManagement.departments StaffManagement.sampleData))
    by (vm_compute; tauto).
  split; [exact Hin|]. split; [discriminate|].
  destruct (X13_department_options StaffManagement.sampleData) as [_ Hfilter].
  apply (Hfilter "Physics" Hin). discriminate.
Defined.

Example departments_of_sample :
  StaffManagement.departments StaffManagement.sampleData
  = ["All"; "Computer Science"; "Mathematics"; "Physics"].
Proof. reflexivity. Qed.

Lemma sortInsert_In (x : string) (l : list string) (y : string) :
  In y (JS.sortInsert x l) <-> y = x \/ In y l.
Proof.
  induction l as [|z l IH]; simpl.
  - split; [intros [<- | []]; now left | intros [-> | []]; now left].
  - destruct (String.leb x z); simpl; [|rewrite IH]; intuition congruence.
Qed.

Lemma Array_sort_In (l : list string) (y : string) : In y (JS.Array_sort l) <-> In y l.
Proof.
  induction l as [|x l IH]; simpl; [reflexivity|].
  rewrite sortInsert_In, IH. intuition congruence.
Qed.

Lemma sortInsert_HdRel (x y : string) (l : list string) :
  String.leb y x = true ->
  HdRel (fun a b => String.leb a b = true) y l ->
  HdRel (fun a b => String.leb a b = true) y (JS.sortInsert x l).
Proof.
  intros Hyx Hhd. destruct l as [|z l]; simpl; [now constructor|].
  destruct (String.leb x z); constructor; [exact Hyx | now inversion Hhd].
Qed.

Lemma sortInsert_ascending (x : string) (l : list string) :
  ascending l -> ascending (JS.sortInsert x l).
Proof.
  unfold ascending. induction l as [|z l IH]; intros Hs; simpl.
  - repeat constructor.
  - destruct (String.leb x z) eqn:Hxz.
    + constructor; [exact Hs | now constructor].
    + inversion Hs as [|? ? Hl Hhd]; subst. constructor; [now apply IH|].
      apply sortInsert_HdRel; [|exact Hhd].
      destruct (String.leb_total x z) as [H | H]; [congruence | exact H].
Qed.

Lemma Array_sort_ascending (l : list string) : ascending (JS.Array_sort l).
Proof.
  induction l as [|x l IH]; simpl; [constructor | now apply sortInsert_ascending].
Qed.

Lemma sortInsert_NoDup (x : string) (l : list string) :
  ~ In x l -> List.NoDup l -> List.NoDup (JS.sortInsert x l).
Proof.
  induction l as [|z l IH]; intros Hnotin Hnd; simpl.
  - constructor; [intros [] | constructor].
  - destruct (String.leb x z); [now constructor|].
    inversion Hnd as [|? ? Hz Hl]; subst. constructor.
    + rewrite sortInsert_In. intros [-> | H]; [|contradiction]. apply Hnotin. now left.
    + apply IH; [|exact Hl]. intros H. apply Hnotin. now right.
Qed.

Lemma Array_sort_NoDup (l : list string) : List.NoDup l -> List.NoDup (JS.Array_sort l).
Proof.
  induction 1 as [|x l Hx Hl IH]; simpl; [constructor|].
  apply sortInsert_NoDup; [now rewrite Array_sort_In | exact IH].
Qed.

Lemma addDepartment_In (set : list string) (department d : string) :
  In d (addDepartment set department)
  <-> In d set \/ (if JS.truthy department then Some department else None) = Some d.
Proof.
  unfold addDepartment. destruct (JS.truthy department).
  - rewrite setAdd_In. split; (intros [H | H]; [now left | right; congruence]).
  - split; [now left | intros [H | H]; [exact H | discriminate]].
Qed.

Lemma addDepartment_NoDup (set : list string) (department : string) :
  List.NoDup set -> List.NoDup (addDepartment set department).
Proof.
  intros Hnd. unfold addDepartment. destruct (JS.truthy department); [|exact Hnd].
  now apply setAdd_NoDup.
Qed.

Lemma truthy_named (department d : string) :
  (if JS.truthy department then Some department else None) = Some d
  <-> department = d /\ d <> "".
Proof.
  destruct (JS.truthy department) eqn:Ht.
  - split.
    + intros Heq. injection Heq as <-. split; [reflexivity|].
      intros ->. discriminate.
    + intros [-> _]. reflexivity.
  - apply truthy_false in Ht. subst. split; [discriminate | intros [<- H]; contradiction].
Qed.

(** X14: the department list of the task form never fails and is never
    empty. When both stored collections can be read, it is the non-empty
    departments of the stored staff and courses, each once, in ascending
    order, or the five default departments when there is none; when
    either collection cannot be read it is the default list. *)
Theorem X14_task_departments (staffCodec : JSONCodec StaffManagement.Staff)
    (courseCodec : JSONCodec CourseManagement.Course) (storage : gmap string string) :
  let result := getDepartments staffCodec courseCodec storage in
  result <> []
  /\ (forall staffMembers courses,
        @JSON_parse _ staffCodec (staffText storage) = Some staffMembers ->
        @JSON_parse _ courseCodec (coursesText storage) = Some courses ->
        ((forall d, ~ namedDepartment staffMembers courses d) -> result = defaultDepartments)
        /\ ((exists d, namedDepartment staffMembers courses d) ->
            ascending result /\ List.NoDup result
            /\ forall d, In d result <-> namedDepartment staffMembers courses d))
  /\ (@JSON_parse _ staffCodec (staffText storage) = None
      \/ @JSON_parse _ courseCodec (coursesText storage) = None ->
      result = defaultDepartments).
Proof.
  intros result. unfold result, getDepartments.
  fold (staffText storage). fold (coursesText storage).
  destruct (@JSON_parse _ staffCodec (staffText storage)) as [staffMembers|] eqn:Hstaff;
    [destruct (@JSON_parse _ courseCodec (coursesText storage)) as [courses|] eqn:Hcourses|].
  - set (collected :=
           fold_left (fun set course => addDepartment set (CourseManagement.department course))
             courses
             (fold_left (fun set staff => addDepartment set (StaffManagement.department staff))
                staffMembers [])).
    assert (Hin : forall d, In d collected <-> namedDepartment staffMembers courses d).
    { intros d. unfold collected, namedDepartment.
      rewrite (fold_add_In _ (fun c => if JS.truthy (CourseManagement.department c)
                                       then Some (CourseManagement.department c) else None))
        by (intros; apply addDepartment_In).
      rewrite (fold_add_In _ (fun s => if JS.truthy (StaffManagement.department s)
                                       then Some (StaffManagement.department s) else None))
        by (intros; apply addDepartment_In).
      split.
      - intros [[[] | [s [Hs Hd]]] | [c [Hc Hd]]]; apply truthy_named in Hd as [Hd Hne].
        + split; [exact Hne | left; now exists s].
        + split; [exact Hne | right; now exists c].
      - intros [Hne [[s [Hs Hd]] | [c [Hc Hd]]]].
        + left. right. exists s. split; [exact Hs | now apply truthy_named].
        + right. exists c. split; [exact Hc | now apply truthy_named]. }
    assert (Hnd : List.NoDup collected).
    { unfold collected. apply fold_add_NoDup; [intros; now apply addDepartment_NoDup|].
      apply fold_add_NoDup; [intros; now apply addDepartment_NoDup | constructor]. }
    destruct (JS.Array_sort collected) as [|x sorted] eqn:Hsorted.
    + assert (Hnone : forall d, ~ namedDepartment staffMembers courses d).
      { intros d Hd. apply Hin in Hd. apply Array_sort_In in Hd. now rewrite Hsorted in Hd. }
      simpl. split; [discriminate|]. split.
      * intros s c Hs Hc. injection Hs as <-. injection Hc as <-.
        split; [reflexivity|]. intros [d Hd]. now apply Hnone in Hd.
      * intros [H | H]; discriminate.
    + simpl. split; [discriminate|]. split.
      * intros s c Hs Hc. injection Hs as <-. injection Hc as <-. split.
        -- intros Hnone. exfalso. apply (Hnone x). apply Hin, Array_sort_In.
           rewrite Hsorted. now left.
        -- intros _. rewrite <- Hsorted.
           split; [apply Array_sort_ascending|]. split; [now apply Array_sort_NoDup|].
           intros d. change (In d (x :: sorted) <-> namedDepartment staffMembers courses d).
           rewrite <- Hsorted, Array_sort_In. apply Hin.
      * intros [H | H]; discriminate.
  - split; [discriminate|]. split; [intros s c _ Hc; discriminate | reflexivity].
  - split; [discriminate|]. split; [intros s c Hs; discriminate | reflexivity].
Qed.

Lemma X14_task_departments_witness :
  @JSON_parse _ (knowingCodec StaffManagement.id StaffManagement.sampleData)
    (staffText storeOfSamples) = Some StaffManagement.sampleData
  /\ @JSON_parse _ (knowingCodec CourseManagement.id CourseManagement.sampleData)
       (coursesText storeOfSamples) = Some CourseManagement.sampleData
  /\ (exists d, namedDepartment StaffManagement.sampleData CourseManagement.sampleData d)
  /\ ascending
       (getDepartments (knowingCodec StaffManagement.id StaffManagement.sampleData)
          (knowingCodec CourseManagement.id CourseManagement.sampleData) storeOfSamples).
Proof.
  assert (Hstaff : @JSON_parse _ (knowingCodec StaffManagement.id StaffManagement.sampleData)
                     (staffText storeOfSamples) = Some StaffManagement.sampleData)
    by (vm_compute; reflexivity).
  assert (Hcourses : @JSON_parse _
                       (knowingCodec CourseManagement.id CourseManagement.sampleData)
                       (coursesText storeOfSamples) = Some CourseManagement.sampleData)
    by (vm_compute; reflexivity).
  assert (Hnamed : exists d,
             namedDepartment StaffManagement.sampleData CourseManagement.sampleData d).
  { exists "Physics". split; [discriminate|]. left. exists (StaffManagement.seeded 3
      "Dr. Michael Williams" "michael.williams@university.edu" "Physics" "Professor" 15 5 20).
    split; [simpl; tauto | reflexivity]. }
  split; [exact Hstaff|]. split; [exact Hcourses|]. split; [exact Hnamed|].
  pose proof (X14_task_departments
                (knowingCodec StaffManagement.id StaffManagement.sampleData)
                (knowingCodec CourseManagement.id CourseManagement.sampleData)
                storeOfSamples) as Hall.
  cbv zeta in Hall. destruct Hall as (_ & Hread & _).
  destruct (Hread _ _ Hstaff Hcourses) as [_ Hsome]. now apply Hsome.
Defined.

Example getDepartments_of_samples :
  getDepartments (knowingCodec StaffManagement.id StaffManagement.sampleData)
    (knowingCodec CourseManagement.id CourseManagement.sampleData) storeOfSamples
  = ["Chemistry"; "Computer Science"; "Mathematics"; "Physics"]
  /\ getDepartments staffCodec courseCodec (∅ : gmap string string) = defaultDepartments
  /\ getDepartments staffCodec courseCodec {["courses" := "{oops"]} = defaultDepartments.
Proof. repeat split; vm_compute; reflexivity. Qed.

(** ** The store and the collection *)

Section Persisting.
Context {R F : Type} `{JSONCodec R}.

Lemma persisted_after_save (key : string) (l : list R) (rest : list (Effect R F))
    (st : State R F) :
  keepsCollection rest ->
  persisted key (run (SetItems l :: SetFiltered l :: StorageSetItem key l :: rest) st).
Proof.
  intros Hrest.
  change (run (SetItems l :: SetFiltered l :: StorageSetItem key l :: rest) st)
    with (run rest (apply (apply (apply st (SetItems l)) (SetFiltered l))
                      (StorageSetItem key l))).
  set (st1 := apply (apply (apply st (SetItems l)) (SetFiltered l)) (StorageSetItem key l)).
  assert (H1 : persisted key st1).
  { unfold persisted, st1. simpl. split; [apply lookup_insert_eq | reflexivity]. }
  clearbody st1. revert st1 H1.
  induction Hrest as [|e rest He Hrest IH]; intros st1 [Hs Hf]; [now split|].
  change (run (e :: rest) st1) with (run rest (apply st1 e)). apply IH.
  destruct e; try contradiction; split; assumption.
Qed.

Lemma onlyWrites_frame (key : string) (es : list (Effect R F)) (st : State R F) (k : string) :
  onlyWrites key es -> k <> key -> localStorage (run es st) !! k = localStorage st !! k.
Proof.
  intros Hes Hk. revert st. induction Hes as [|e es He Hes IH]; intros st; [reflexivity|].
  change (run (e :: es) st) with (run es (apply st e)). rewrite IH.
  destruct e; try reflexivity. simpl in *. subst. now apply lookup_insert_ne.
Qed.

End Persisting.

Ltac quiet := unfold keepsCollection; repeat (constructor; [exact I|]); solve [constructor].

(** X15: whenever a handler changes a collection it leaves the store in
    step with it: after a create or an update that passes validation, a
    confirmed delete by an Administrator, a staff create or update, and
    the completion of a picture upload, the store holds under the module's
    key the text of exactly the collection now shown, and the filtered
    view has been set to that collection. *)
Theorem X15_store_in_step_with_collection (userRole : string) :
  (forall (codec : JSONCodec TaskManagement.Task) (st : TaskManagement.State),
      (JS.truthy (JS.trim (TaskManagement.Form.taskName (formData st))) = true ->
       JS.truthy (JS.trim (TaskManagement.Form.description (formData st))) = true ->
       persisted "tasks" (run (TaskManagement.handleTaskAdded userRole st) st)
       /\ forall e, persisted "tasks" (run (TaskManagement.handleTaskUpdated userRole e st) st))
      /\ (isAdministrator userRole = true ->
          forall id, persisted "tasks" (run (TaskManagement.handleDeleteTask userRole true id st) st)))
  /\ (forall (codec : JSONCodec CourseManagement.Course) (st : CourseManagement.State),
        (CourseManagement.invalid (formData st) = false ->
         persisted "courses" (run (CourseManagement.handleCourseAdded userRole st) st)
         /\ forall e,
              persisted "courses" (run (CourseManagement.handleCourseUpdated userRole e st) st))
        /\ (isAdministrator userRole = true ->
            forall id,
              persisted "courses"
                (run (CourseManagement.handleDeleteCourse userRole true id st) st)))
  /\ (forall (codec : JSONCodec StaffManagement.Staff) (st : StaffManagement.State),
        (forall d action,
            StaffManagement.isCancel action = false ->
            persisted "staffMembers"
              (run (StaffManagement.handleStaffAdded userRole (Some d) action st) st))
        /\ (forall d,
              persisted "staffMembers" (run (StaffManagement.handleStaffUpdated userRole d st) st))
        /\ (isAdministrator userRole = true ->
            forall id,
              persisted "staffMembers"
                (run (StaffManagement.handleDeleteStaff userRole true id st) st))
        /\ (forall selectedStaff result,
              persisted "staffMembers"
                (run (StaffManagement.onloadend userRole selectedStaff result st) st))).
Proof.
  split; [|split].
  - intros codec st. split.
    + intros Hname Hdesc. split; [|intros e];
        unfold TaskManagement.handleTaskAdded, TaskManagement.handleTaskUpdated;
        rewrite Hname, Hdesc; simpl orb; cbv iota;
        apply persisted_after_save; quiet.
    + intros Hadmin id. rewrite (handleDeleteTask_allowed userRole id st Hadmin).
      unfold deleteEffects. apply persisted_after_save.
      destruct (selected st) as [s|]; [destruct (TaskManagement.id s =? id)|]; quiet.
  - intros codec st. split.
    + intros Hvalid. split; [|intros e];
        unfold CourseManagement.handleCourseAdded, CourseManagement.handleCourseUpdated;
        rewrite Hvalid; apply persisted_after_save; quiet.
    + intros Hadmin id. rewrite (handleDeleteCourse_allowed userRole id st Hadmin).
      unfold deleteEffects. apply persisted_after_save.
      destruct (selected st) as [s|]; [destruct (CourseManagement.id s =? id)|]; quiet.
  - intros codec st. split; [|split; [|split]].
    + intros d action Hcancel. unfold StaffManagement.handleStaffAdded. rewrite Hcancel.
      apply persisted_after_save. quiet.
    + intros d. unfold StaffManagement.handleStaffUpdated.
      apply persisted_after_save. quiet.
    + intros Hadmin id. rewrite (handleDeleteStaff_allowed userRole id st Hadmin).
      unfold deleteEffects. apply persisted_after_save.
      destruct (selected st) as [s|]; [destruct (StaffManagement.id s =? id)|]; quiet.
    + intros sel result. unfold StaffManagement.onloadend.
      apply persisted_after_save. quiet.
Qed.

Lemma X15_store_in_step_with_collection_witness :
  JS.truthy (JS.trim (TaskManagement.Form.taskName (formData taskState))) = true
  /\ JS.truthy (JS.trim (TaskManagement.Form.description (formData taskState))) = true
  /\ @persisted _ _ taskCodec "tasks"
       (@run _ _ taskCodec (TaskManagement.handleTaskAdded "Administrator" taskState) taskState).
Proof.
  split; [vm_compute; reflexivity|]. split; [vm_compute; reflexivity|].
  destruct (X15_store_in_step_with_collection "Administrator") as [Htask _].
  destruct (Htask taskCodec taskState) as [Hvalid _].
  destruct Hvalid as [Hadded _]; [vm_compute; reflexivity | vm_compute; reflexivity |].
  exact Hadded.
Defined.

Ltac reload_with load Hstore Hsaved Hreads :=
  cbv zeta; unfold load; rewrite Hstore;
  destruct Hsaved as [Hsaved _]; rewrite Hsaved;
  destruct Hreads as [Htext Hparse]; rewrite Htext, Hparse;
  split; [reflexivity|]; split; [reflexivity | exact Hstore].

(** X16: what a handler saved is what the next mount shows.  If the store
    is in step with the collection of a component (as every changing
    handler leaves it) and the host reads back the text it wrote for that
    collection, then a component mounting on that store, whatever its own
    state, loads exactly that collection, shows all of it, and writes
    nothing.  On a store whose key is absent or holds the empty text the
    mount shows the sample data and leaves the store in step with it, so
    a second mount shows the sample data again without writing. *)
Theorem X16_reload_restores_saved_collection :
  (forall (codec : JSONCodec TaskManagement.Task) (st st0 : TaskManagement.State),
      (persisted "tasks" st -> readsBack (items st) ->
       localStorage st0 = localStorage st ->
       let st1 := settle (TaskManagement.loadTasksData st0) st0 in
       items st1 = items st /\ filteredItems st1 = items st
       /\ localStorage st1 = localStorage st0)
      /\ (localStorage st0 !! "tasks" = None \/ localStorage st0 !! "tasks" = Some "" ->
          readsBack TaskManagement.sampleData ->
          let st1 := settle (TaskManagement.loadTasksData st0) st0 in
          let st2 := settle (TaskManagement.loadTasksData st1) st1 in
          items st1 = TaskManagement.sampleData /\ persisted "tasks" st1
          /\ items st2 = TaskManagement.sampleData /\ localStorage st2 = localStorage st1))
  /\ (forall (codec : JSONCodec CourseManagement.Course) (st st0 : CourseManagement.State),
        (persisted "courses" st -> readsBack (items st) ->
         localStorage st0 = localStorage st ->
         let st1 := settle (CourseManagement.loadCoursesData st0) st0 in
         items st1 = items st /\ filteredItems st1 = items st
         /\ localStorage st1 = localStorage st0)
        /\ (localStorage st0 !! "courses" = None \/ localStorage st0 !! "courses" = Some "" ->
            readsBack CourseManagement.sampleData ->
            let st1 := settle (CourseManagement.loadCoursesData st0) st0 in
            let st2 := settle (CourseManagement.loadCoursesData st1) st1 in
            items st1 = CourseManagement.sampleData /\ persisted "courses" st1
            /\ items st2 = CourseManagement.sampleData /\ localStorage st2 = localStorage st1))
  /\ (forall (codec : JSONCodec StaffManagement.Staff) (st st0 : StaffManagement.State),
        (persisted "staffMembers" st -> readsBack (items st) ->
         localStorage st0 = localStorage st ->
         let st1 := settle (StaffManagement.loadStaffData st0) st0 in
         items st1 = items st /\ filteredItems st1 = items st
         /\ localStorage st1 = localStorage st0)
        /\ (localStorage st0 !! "staffMembers" = None
            \/ localStorage st0 !! "staffMembers" = Some "" ->
            readsBack StaffManagement.sampleData ->
            let st1 := settle (StaffManagement.loadStaffData st0) st0 in
            let st2 := settle (StaffManagement.loadStaffData st1) st1 in
            items st1 = StaffManagement.sampleData /\ persisted "staffMembers" st1
            /\ items st2 = StaffManagement.sampleData /\ localStorage st2 = localStorage st1)).
Proof.
  split; [|split]; intros codec st st0; split.
  - intros Hsaved Hreads Hstore.
    reload_with (@TaskManagement.loadTasksData) Hstore Hsaved Hreads.
  - intros Hstore [Htext Hparse]. cbv zeta.
    assert (Hfirst : TaskManagement.loadTasksData st0
                     = Returns [SetItems TaskManagement.sampleData;
                                SetFiltered TaskManagement.sampleData;
                                StorageSetItem "tasks" TaskManagement.sampleData]).
    { unfold TaskManagement.loadTasksData. destruct Hstore as [Hstore|Hstore]; now rewrite Hstore. }
    rewrite Hfirst. cbn [settle].
    assert (Hin : persisted "tasks"
                    (run [SetItems TaskManagement.sampleData;
                          SetFiltered TaskManagement.sampleData;
                          StorageSetItem "tasks" TaskManagement.sampleData] st0))
      by (apply persisted_after_save; constructor).
    split; [reflexivity|]. split; [exact Hin|].
    unfold TaskManagement.loadTasksData. destruct Hin as [Hin _]. rewrite Hin.
    change (items (run _ st0)) with TaskManagement.sampleData. rewrite Htext, Hparse.
    split; reflexivity.
  - intros Hsaved Hreads Hstore.
    reload_with (@CourseManagement.loadCoursesData) Hstore Hsaved Hreads.
  - intros Hstore [Htext Hparse]. cbv zeta.
    assert (Hfirst : CourseManagement.loadCoursesData st0
                     = Returns [SetItems CourseManagement.sampleData;
                                SetFiltered CourseManagement.sampleData;
                                StorageSetItem "courses" CourseManagement.sampleData]).
    { unfold CourseManagement.loadCoursesData.
      destruct Hstore as [Hstore|Hstore]; now rewrite Hstore. }
    rewrite Hfirst. cbn [settle].
    assert (Hin : persisted "courses"
                    (run [SetItems CourseManagement.sampleData;
                          SetFiltered CourseManagement.sampleData;
                          StorageSetItem "courses" CourseManagement.sampleData] st0))
      by (apply persisted_after_save; constructor).
    split; [reflexivity|]. split; [exact Hin|].
    unfold CourseManagement.loadCoursesData. destruct Hin as [Hin _]. rewrite Hin.
    change (items (run _ st0)) with CourseManagement.sampleData. rewrite Htext, Hparse.
    split; reflexivity.
  - intros Hsaved Hreads Hstore.
    reload_with (@StaffManagement.loadStaffData) Hstore Hsaved Hreads.
  - intros Hstore [Htext Hparse]. cbv zeta.
    assert (Hfirst : StaffManagement.loadStaffData st0
                     = Returns [SetItems StaffManagement.sampleData;
                                SetFiltered StaffManagement.sampleData;
                                StorageSetItem "staffMembers" StaffManagement.sampleData]).
    { unfold StaffManagement.loadStaffData.
      destruct Hstore as [Hstore|Hstore]; now rewrite Hstore. }
    rewrite Hfirst. cbn [settle].
    assert (Hin : persisted "staffMembers"
                    (run [SetItems StaffManagement.sampleData;
                          SetFiltered StaffManagement.sampleData;
                          StorageSetItem "staffMembers" StaffManagement.sampleData] st0))
      by (apply persisted_after_save; constructor).
    split; [reflexivity|]. split; [exact Hin|].
    unfold StaffManagement.loadStaffData. destruct Hin as [Hin _]. rewrite Hin.
    change (items (run _ st0)) with StaffManagement.sampleData. rewrite Htext, Hparse.
    split; reflexivity.
Qed.

Lemma X16_reload_restores_saved_collection_witness :
  @persisted _ _ sampleTasksCodec "tasks" taskState
  /\ @readsBack _ sampleTasksCodec (items taskState)
  /\ localStorage (mountedTasks (localStorage taskState)) = localStorage taskState
  /\ items (@settle _ _ sampleTasksCodec
              (@TaskManagement.loadTasksData sampleTasksCodec
                 (mountedTasks (localStorage taskState)))
              (mountedTasks (localStorage taskState)))
     = TaskManagement.sampleData.
Proof.
  assert (Hsaved : @persisted _ _ sampleTasksCodec "tasks" taskState) by (split; reflexivity).
  assert (Hreads : @readsBack _ sampleTasksCodec (items taskState)) by (split; reflexivity).
  split; [exact Hsaved|]. split; [exact Hreads|]. split; [reflexivity|].
  destruct X16_reload_restores_saved_collection as [Htask _].
  destruct (Htask sampleTasksCodec taskState (mountedTasks (localStorage taskState)))
    as [Hreload _].
  destruct (Hreload Hsaved Hreads eq_refl) as [Hitems _].
  exact Hitems.
Defined.

(** ** Sessions *)

Section Sessions.
Context {R F : Type} `{JSONCodec R}.

Lemma readOnly_run (es : list (Effect R F)) (st : State R F) :
  readOnly es -> items (run es st) = items st /\ localStorage (run es st) = localStorage st.
Proof.
  intros Hes. revert st. induction Hes as [|e es [Hw Hs] Hes IH]; intros st; [now split|].
  change (run (e :: es) st) with (run es (apply st e)).
  destruct (IH (apply st e)) as [Hi Hl]. rewrite Hi, Hl.
  destruct e; try discriminate; now split.
Qed.

Lemma tidy_inStep (key : string) (es : list (Effect R F)) (st : State R F) :
  tidy key es -> inStep key st -> inStep key (run es st).
Proof.
  intros [Hes | (l & rest & -> & Hrest)] Hst.
  - unfold inStep. destruct (readOnly_run es st Hes) as [-> ->]. exact Hst.
  - apply (persisted_after_save key l rest st Hrest).
Qed.

Lemma tidy_onlyWrites (key : string) (es : list (Effect R F)) :
  tidy key es -> onlyWrites key es.
Proof.
  intros [Hes | (l & rest & -> & Hrest)].
  - unfold onlyWrites. eapply List.Forall_impl; [|exact Hes].
    intros e [Hw _]. destruct e; try exact I. discriminate.
  - constructor; [exact I|]. constructor; [exact I|]. constructor; [reflexivity|].
    unfold onlyWrites. eapply List.Forall_impl; [|exact Hrest].
    intros e He. destruct e; try exact I. contradiction.
Qed.

Lemma harmless_run (all : list R) (es : list (Effect R F)) (st : State R F) :
  harmless all es -> items st = all ->
  items (run es st) = items st
  /\ localStorage (run es st) = localStorage st
  /\ editing (run es st) = editing st
  /\ (filteredItems (run es st) = filteredItems st \/ filteredItems (run es st) = items st).
Proof.
  intros Hes. revert st. induction Hes as [|e es He Hes IH]; intros st Hall.
  - split; [reflexivity|]. split; [reflexivity|]. split; [reflexivity|]. now left.
  - change (run (e :: es) st) with (run es (apply st e)).
    assert (Hstep : items (apply st e) = items st /\ localStorage (apply st e) = localStorage st
                    /\ editing (apply st e) = editing st
                    /\ (filteredItems (apply st e) = filteredItems st
                        \/ filteredItems (apply st e) = items st)).
    { destruct e; try contradiction; simpl;
        (split; [reflexivity|]); (split; [reflexivity|]); (split; [reflexivity|]);
        try (now left).
      right. now rewrite Hall. }
    destruct Hstep as (Hi & Hl & He' & Hf).
    destruct (IH (apply st e)) as (Hi' & Hl' & He'' & Hf'); [now rewrite Hi|].
    rewrite Hi', Hl', He'', Hi, Hl, He'.
    split; [reflexivity|]. split; [reflexivity|]. split; [reflexivity|].
    destruct Hf' as [Hf'|Hf']; rewrite Hf'; [exact Hf | right; exact Hi].
Qed.

End Sessions.

Ltac read_only := left; unfold readOnly; repeat (constructor; [split; reflexivity|]); solve [constructor].

Ltac saves := right; eexists; eexists; split; [reflexivity | solve [quiet]].

Lemma handleSubmit_tidy (userRole : string) (st : TaskManagement.State) :
  tidy "tasks" (TaskManagement.handleSubmit userRole st).
Proof.
  unfold TaskManagement.handleSubmit, TaskManagement.handleTaskUpdated,
    TaskManagement.handleTaskAdded.
  destruct (editing st) as [e|];
    destruct (negb (JS.truthy (JS.trim (TaskManagement.Form.taskName (formData st))))
              || negb (JS.truthy (JS.trim (TaskManagement.Form.description (formData st)))));
    first [read_only | saves].
Qed.

Lemma handleDeleteTask_tidy (userRole : string) (confirmed : bool) (id_ : Z)
    (st : TaskManagement.State) :
  tidy "tasks" (TaskManagement.handleDeleteTask userRole confirmed id_ st).
Proof.
  unfold TaskManagement.handleDeleteTask.
  destruct (negb (isAdministrator userRole)); [read_only|].
  destruct confirmed; [|read_only].
  right. eexists. eexists. split; [reflexivity|].
  destruct (selected st) as [s|]; [destruct (TaskManagement.id s =? id_)|]; quiet.
Qed.

Lemma taskInteract_tidy (userRole : string) (i : TaskInteraction) (st : TaskManagement.State) :
  tidy "tasks" (taskInteract userRole i st).
Proof.
  destruct i; unfold taskInteract.
  - destruct (TaskManagement.tabRendered userRole tab); read_only.
  - destruct (rowShown row st); read_only.
  - destruct (rowShown row st); [|read_only].
    destruct (TaskManagement.rowActionsRendered userRole); [|read_only].
    unfold TaskManagement.handleEditTask.
    destruct (negb (isAdministrator userRole)); read_only.
  - destruct (rowShown row st); [|read_only].
    destruct (TaskManagement.rowActionsRendered userRole); [|read_only].
    apply handleDeleteTask_tidy.
  - destruct (TaskManagement.formRendered userRole st); read_only.
  - unfold taskSubmitEvent.
    destruct (TaskManagement.formRendered userRole st); [apply handleSubmit_tidy | read_only].
  - destruct (TaskManagement.formRendered userRole st); read_only.
  - destruct (show (popup st)); read_only.
  - read_only.
  - unfold TaskManagement.autoUpdateTaskId. destruct (editing st); read_only.
Qed.

Ltac no_harm := unfold harmless; repeat (constructor; [first [exact I | reflexivity]|]); solve [constructor].

Lemma taskInteract_harmless (userRole : string) (i : TaskInteraction)
    (st : TaskManagement.State) :
  isAdministrator userRole = false -> harmless (items st) (taskInteract userRole i st).
Proof.
  intros Hrole. destruct i; unfold taskInteract, taskSubmitEvent, TaskManagement.formRendered,
    TaskManagement.rowActionsRendered; rewrite ?Hrole, ?andb_false_r.
  - destruct (TaskManagement.tabRendered userRole tab); no_harm.
  - destruct (rowShown row st); no_harm.
  - destruct (rowShown row st); no_harm.
  - destruct (rowShown row st); no_harm.
  - no_harm.
  - no_harm.
  - no_harm.
  - destruct (show (popup st)); no_harm.
  - no_harm.
  - unfold TaskManagement.autoUpdateTaskId. destruct (editing st); no_harm.
Qed.

(** X17: whatever a user who is not an Administrator does on the task
    page, in any number of steps and in any order (tabs, rows, inputs,
    submit, cancel, closing the popup, with the page's effects running in
    between), the collection, the store and the record being edited stay
    exactly as they were, and the filtered view is the one before or the
    whole collection. *)
Theorem X17_reader_session_changes_nothing `{JSONCodec TaskManagement.Task}
    (userRole : string) (session : list TaskInteraction) (st : TaskManagement.State) :
  isAdministrator userRole = false ->
  let st' := taskSession userRole session st in
  items st' = items st
  /\ localStorage st' = localStorage st
  /\ editing st' = editing st
  /\ (filteredItems st' = filteredItems st \/ filteredItems st' = items st).
Proof.
  intros Hrole. cbv zeta. revert st.
  induction session as [|i session IH]; intros st.
  - split; [reflexivity|]. split; [reflexivity|]. split; [reflexivity|]. now left.
  - cbn [taskSession].
    destruct (harmless_run (items st) (taskInteract userRole i st) st
                (taskInteract_harmless userRole i st Hrole) eq_refl)
      as (Hi & Hl & He & Hf).
    destruct (IH (run (taskInteract userRole i st) st)) as (Hi' & Hl' & He' & Hf').
    rewrite Hi', Hl', He', Hi, Hl, He.
    split; [reflexivity|]. split; [reflexivity|]. split; [reflexivity|].
    destruct Hf' as [Hf'|Hf']; rewrite Hf'; [exact Hf | right; exact Hi].
Qed.

Lemma X17_reader_session_changes_nothing_witness :
  isAdministrator "Staff" = false
  /\ items (@taskSession taskCodec "Staff" taskSessionSample taskState) = items taskState
  /\ localStorage (@taskSession taskCodec "Staff" taskSessionSample taskState)
     = localStorage taskState.
Proof.
  split; [reflexivity|].
  pose proof (@X17_reader_session_changes_nothing taskCodec "Staff" taskSessionSample
                taskState eq_refl) as Hall.
  cbv zeta in Hall. destruct Hall as (Hitems & Hstore & _).
  split; [exact Hitems | exact Hstore].
Defined.

(** X18: on the task page the store never lags behind the collection.
    From a state whose store holds the text of the collection, every
    session of any user, whatever the role, ends in a state whose store
    holds the text of the collection then shown; and no session touches
    any other key of the store. *)
Theorem X18_task_store_never_lags `{JSONCodec TaskManagement.Task}
    (userRole : string) (session : list TaskInteraction) (st : TaskManagement.State) :
  (inStep "tasks" st -> inStep "tasks" (taskSession userRole session st))
  /\ (forall k, k <> "tasks" ->
        localStorage (taskSession userRole session st) !! k = localStorage st !! k).
Proof.
  revert st. induction session as [|i session IH]; intros st; [now split|].
  cbn [taskSession]. destruct (IH (run (taskInteract userRole i st) st)) as [Hstep Hframe].
  split.
  - intros Hst. apply Hstep. apply tidy_inStep; [apply taskInteract_tidy | exact Hst].
  - intros k Hk. rewrite (Hframe k Hk).
    apply (onlyWrites_frame "tasks"); [|exact Hk].
    apply tidy_onlyWrites, taskInteract_tidy.
Qed.

Lemma X18_task_store_never_lags_witness :
  @inStep _ _ taskCodec "tasks" taskState
  /\ @inStep _ _ taskCodec "tasks"
       (@taskSession taskCodec "Administrator" taskSessionSample taskState).
Proof.
  assert (Hst : @inStep _ _ taskCodec "tasks" taskState) by reflexivity.
  split; [exact Hst|].
  destruct (@X18_task_store_never_lags taskCodec "Administrator" taskSessionSample taskState)
    as [Hstep _].
  exact (Hstep Hst).
Defined.

Lemma NoDup_map_filter {A : Type} (idOf : A -> Z) (f : A -> bool) (l : list A) :
  List.NoDup (map idOf l) -> List.NoDup (map idOf (List.filter f l)).
Proof.
  induction l as [|x l IH]; intros Hnd; [constructor|].
  simpl in Hnd. inversion Hnd as [|? ? Hnotin Hnd']; subst. simpl.
  destruct (f x); [|now apply IH].
  simpl. constructor; [|now apply IH].
  intros Hin. apply Hnotin. apply in_map_iff in Hin. destruct Hin as (y & Hy & Hin).
  apply in_map_iff. exists y. split; [exact Hy|]. apply filter_In in Hin. tauto.
Qed.

Lemma changedInOneWay_distinct {A : Type} (idOf : A -> Z) (before after : list A) :
  changedInOneWay idOf before after ->
  List.NoDup (map idOf before) -> List.NoDup (map idOf after).
Proof.
  intros [-> | [(new & Hnew & ->) | [(f & Hf & ->) | (k & ->)]]] Hnd.
  - exact Hnd.
  - rewrite map_app. apply NoDup_snoc; [exact Hnd|].
    intros Hin. apply in_map_iff in Hin. destruct Hin as (r & Hr & Hin).
    pose proof (maxIdOf_above idOf before) as Habove.
    rewrite List.Forall_forall in Habove. specialize (Habove r Hin). lia.
  - rewrite map_map. erewrite map_ext; [exact Hnd|]. exact Hf.
  - now apply NoDup_map_filter.
Qed.

Ltac same_items := left; reflexivity.

Lemma handleSubmit_changes (userRole : string) `{JSONCodec TaskManagement.Task}
    (st : TaskManagement.State) :
  changedInOneWay TaskManagement.id (items st)
    (items (run (TaskManagement.handleSubmit userRole st) st)).
Proof.
  unfold TaskManagement.handleSubmit, TaskManagement.handleTaskUpdated,
    TaskManagement.handleTaskAdded.
  destruct (editing st) as [e|];
    destruct (negb (JS.truthy (JS.trim (TaskManagement.Form.taskName (formData st))))
              || negb (JS.truthy (JS.trim (TaskManagement.Form.description (formData st)))));
    try same_items.
  - right. right. left.
    exists (fun task => if TaskManagement.id task =? TaskManagement.id e
                        then TaskManagement.mergeForm task (formData st) else task).
    split; [|reflexivity].
    intros r. destruct (TaskManagement.id r =? TaskManagement.id e); reflexivity.
  - right. left. eexists. split; [|reflexivity]. reflexivity.
Qed.

Lemma handleDeleteTask_changes (userRole : string) `{JSONCodec TaskManagement.Task}
    (confirmed : bool) (id_ : Z) (st : TaskManagement.State) :
  changedInOneWay TaskManagement.id (items st)
    (items (run (TaskManagement.handleDeleteTask userRole confirmed id_ st) st)).
Proof.
  unfold TaskManagement.handleDeleteTask.
  destruct (negb (isAdministrator userRole)); [same_items|].
  destruct confirmed; [|same_items].
  right. right. right. exists id_.
  destruct (selected st) as [s|]; [destruct (TaskManagement.id s =? id_)|]; reflexivity.
Qed.

Lemma taskInteract_changes (userRole : string) `{JSONCodec TaskManagement.Task}
    (i : TaskInteraction) (st : TaskManagement.State) :
  changedInOneWay TaskManagement.id (items st) (items (run (taskInteract userRole i st) st)).
Proof.
  destruct (taskInteract_tidy userRole i st) as [Hes | _].
  { left. apply (readOnly_run _ st Hes). }
  destruct i; unfold taskInteract.
  - destruct (TaskManagement.tabRendered userRole tab); same_items.
  - destruct (rowShown row st); same_items.
  - destruct (rowShown row st); [|same_items].
    destruct (TaskManagement.rowActionsRendered userRole); [|same_items].
    unfold TaskManagement.handleEditTask.
    destruct (negb (isAdministrator userRole)); same_items.
  - destruct (rowShown row st); [|same_items].
    destruct (TaskManagement.rowActionsRendered userRole); [|same_items].
    apply handleDeleteTask_changes.
  - destruct (TaskManagement.formRendered userRole st); same_items.
  - unfold taskSubmitEvent.
    destruct (TaskManagement.formRendered userRole st); [apply handleSubmit_changes | same_items].
  - destruct (TaskManagement.formRendered userRole st); same_items.
  - destruct (show (popup st)); same_items.
  - same_items.
  - unfold TaskManagement.autoUpdateTaskId. destruct (editing st); same_items.
Qed.



(** ** Login *)

Lemma trimEnd_idempotent (s : string) : JS.trimEnd (JS.trimEnd s) = JS.trimEnd s.
Proof.
  induction s as [|c s IH]; [reflexivity|].
  cbn [JS.trimEnd].
  destruct (JS.isWhiteSpace c && String.eqb (JS.trimEnd s) "") eqn:Hc; [reflexivity|].
  cbn [JS.trimEnd]. rewrite IH, Hc. reflexivity.
Qed.

Lemma trimStart_trimEnd (s : string) :
  JS.trimStart (JS.trimEnd (JS.trimStart s)) = JS.trimEnd (JS.trimStart s).
Proof.
  destruct (JS.trimStart s) as [|c t] eqn:Hs; [reflexivity|].
  apply trimStart_head in Hs. cbn [JS.trimEnd]. rewrite Hs. cbn [andb JS.trimStart].
  now rewrite Hs.
Qed.

Lemma trim_idempotent (s : string) : JS.trim (JS.trim s) = JS.trim s.
Proof.
  unfold JS.trim. rewrite trimStart_trimEnd. apply trimEnd_idempotent.
Qed.

Lemma normalizeRegNo_trim (s : string) : Login.normalizeRegNo s = JS.trim s.
Proof. unfold Login.normalizeRegNo. now rewrite or_empty. Qed.

Lemma getRoleFromRegNo_normalized (registrationNumber : string) :
  Login.getRoleFromRegNo (Login.normalizeRegNo registrationNumber)
  = Login.getRoleFromRegNo registrationNumber.
Proof.
  unfold Login.getRoleFromRegNo. rewrite !normalizeRegNo_trim. now rewrite trim_idempotent.
Qed.

Lemma getRoleFromRegNo_roles (registrationNumber role : string) :
  Login.getRoleFromRegNo registrationNumber = Some role <->
  (role = "Administrator" /\ beginsWith "ad" registrationNumber)
  \/ (role = "Staff" /\ beginsWith "st" registrationNumber).
Proof.
  unfold Login.getRoleFromRegNo, beginsWith. rewrite normalizeRegNo_trim.
  rewrite <- !startsWith_prefix.
  destruct (JS.startsWith (JS.toLowerCase (JS.trim registrationNumber)) "ad") eqn:Had.
  - split.
    + intros Heq. injection Heq as <-. left. now split.
    + intros [[-> _] | [-> Hst]]; [reflexivity|].
      destruct (JS.toLowerCase (JS.trim registrationNumber)) as [|a r];
        simpl in Had, Hst; [discriminate|].
      apply andb_true_iff in Had. destruct Had as [Ha _].
      apply andb_true_iff in Hst. destruct Hst as [Hs _].
      apply Ascii.eqb_eq in Ha, Hs. congruence.
  - destruct (JS.startsWith (JS.toLowerCase (JS.trim registrationNumber)) "st") eqn:Hst.
    + split.
      * intros Heq. injection Heq as <-. right. now split.
      * intros [[_ Hf] | [-> _]]; [discriminate | reflexivity].
    + split; [discriminate|]. intros [[_ Hf] | [_ Hf]]; discriminate.
Qed.



(** ** The application shell *)

Lemma handleSubmit_grants (registrationNumber password title role regNo : string) :
  Login.handleSubmit registrationNumber password = Login.OnLogin title role regNo ->
  validRole role /\ Login.getRoleFromRegNo regNo = Some role.
Proof.
  unfold Login.handleSubmit.
  destruct (negb (JS.truthy (Login.normalizeRegNo registrationNumber))); [discriminate|].
  destruct (negb (JS.truthy password)); [discriminate|].
  destruct (Login.getRoleFromRegNo (Login.normalizeRegNo registrationNumber)) as [r|] eqn:Hrole;
    [|discriminate].
  intros Heq. injection Heq as <- <- <-. split; [|exact Hrole].
  apply getRoleFromRegNo_roles in Hrole. destruct Hrole as [[-> _] | [-> _]]; [now left | now right].
Qed.

Lemma getRoleFromRegNo_valid (regNo role : string) :
  Login.getRoleFromRegNo regNo = Some role -> validRole role.
Proof.
  intros Hrole. apply getRoleFromRegNo_roles in Hrole.
  destruct Hrole as [[-> _] | [-> _]]; [now left | now right].
Qed.

Lemma validRole_restored (role : string) :
  validRole role -> String.eqb role "Administrator" || String.eqb role "Staff" = true.
Proof. intros [-> | ->]; reflexivity. Qed.

Lemma reopened_stored (st : App.State) :
  sessionStored st -> validRole (App.userRole st) ->
  App.isAuthenticated (reopened st) = true
  /\ App.userRole (reopened st) = App.userRole st
  /\ App.registrationNumber (reopened st) = App.registrationNumber st.
Proof.
  intros (Hauth & Hrole & Hreg) Hvalid. unfold reopened, App.loadAuthState. cbn [App.localStorage App.initial].
  rewrite Hauth, Hrole, Hreg. rewrite (validRole_restored _ Hvalid). cbn.
  split; [reflexivity|]. split; [reflexivity|]. apply or_empty.
Qed.

Lemma reopened_signedOut (st : App.State) :
  signedOut (App.localStorage st) -> reopened st = App.initial (App.localStorage st).
Proof.
  intros (Hauth & _). unfold reopened, App.loadAuthState. cbn [App.localStorage App.initial].
  now rewrite Hauth.
Qed.

Lemma handleLogin_stored (role regNo : string) (st : App.State) :
  sessionStored (App.handleLogin role regNo st)
  /\ App.registrationNumber (App.handleLogin role regNo st) = regNo.
Proof.
  unfold sessionStored, App.handleLogin. cbn.
  split; [|apply or_empty].
  split; [|split].
  - rewrite lookup_insert_ne by discriminate. rewrite lookup_insert_ne by discriminate.
    apply lookup_insert_eq.
  - rewrite lookup_insert_ne by discriminate. apply lookup_insert_eq.
  - apply lookup_insert_eq.
Qed.

Lemma handleLogout_signedOut (st : App.State) :
  signedOut (App.localStorage (App.handleLogout st)).
Proof.
  unfold signedOut, App.handleLogout. cbn. split; [|split].
  - rewrite lookup_delete_ne by discriminate. rewrite lookup_delete_ne by discriminate.
    apply lookup_delete_eq.
  - rewrite lookup_delete_ne by discriminate. apply lookup_delete_eq.
  - apply lookup_delete_eq.
Qed.

(** X21: a login survives a reload and a logout ends it.  After
    [handleLogin] with one of the two roles, the application opened anew
    on the same store is authenticated with that role and registration
    number; a role that is neither 'Administrator' nor 'Staff' is stored
    but not restored; after [handleLogout] the application opened anew
    shows the login page; and neither handler touches any key of the store
    other than the three of the session. *)
Theorem X21_login_survives_reload (role regNo : string) (st : App.State) :
  (validRole role ->
   App.isAuthenticated (reopened (App.handleLogin role regNo st)) = true
   /\ App.userRole (reopened (App.handleLogin role regNo st)) = role
   /\ App.registrationNumber (reopened (App.handleLogin role regNo st)) = regNo)
  /\ (~ validRole role ->
      App.isAuthenticated (App.handleLogin role regNo st) = true
      /\ App.isAuthenticated (reopened (App.handleLogin role regNo st)) = false)
  /\ App.isAuthenticated (reopened (App.handleLogout st)) = false
  /\ (forall k, ~ sessionKey k ->
        App.localStorage (App.handleLogin role regNo st) !! k = App.localStorage st !! k
        /\ App.localStorage (App.handleLogout st) !! k = App.localStorage st !! k).
Proof.
  split; [|split; [|split]].
  - intros Hvalid. destruct (handleLogin_stored role regNo st) as [Hstored Hreg].
    destruct (reopened_stored _ Hstored Hvalid) as (Ha & Hr & Hn).
    split; [exact Ha|]. split; [exact Hr|]. now rewrite Hn.
  - intros Hinvalid. split; [reflexivity|].
    destruct (handleLogin_stored role regNo st) as [(Hauth & Hrole & _) _].
    unfold reopened, App.loadAuthState. cbn [App.localStorage App.initial].
    rewrite Hauth, Hrole. cbn [App.userRole App.handleLogin].
    destruct (String.eqb role "Administrator") eqn:Ha.
    { apply String.eqb_eq in Ha. exfalso. apply Hinvalid. now left. }
    destruct (String.eqb role "Staff") eqn:Hs.
    { apply String.eqb_eq in Hs. exfalso. apply Hinvalid. now right. }
    reflexivity.
  - rewrite reopened_signedOut by apply handleLogout_signedOut. reflexivity.
  - intros k Hk. unfold App.handleLogin, App.handleLogout. cbn [App.localStorage].
    assert (k <> "isAuthenticated") by (intros ->; apply Hk; now left).
    assert (k <> "userRole") by (intros ->; apply Hk; right; now left).
    assert (k <> "registrationNumber") by (intros ->; apply Hk; right; now right).
    split.
    + now rewrite !lookup_insert_ne by congruence.
    + now rewrite !lookup_delete_ne by congruence.
Qed.

Lemma X21_login_survives_reload_witness :
  validRole "Staff"
  /\ App.userRole (reopened (App.handleLogin "Staff" "St2041" (App.initial ∅))) = "Staff".
Proof.
  assert (Hvalid : validRole "Staff") by now right.
  split; [exact Hvalid|].
  destruct (X21_login_survives_reload "Staff" "St2041" (App.initial ∅)) as [Hrestored _].
  destruct (Hrestored Hvalid) as (_ & Hrole & _).
  exact Hrole.
Defined.

Lemma step_shellInvariant (staffCodec : JSONCodec StaffManagement.Staff) (st : App.State)
    (e : App.Event) :
  shellInvariant st -> shellInvariant (App.step staffCodec st e).
Proof.
  intros Hinv. pose proof Hinv as (Hin & Hout & Hemail). destruct e; cbn [App.step].
  - (* Mount *)
    destruct (App.isAuthenticated st) eqn:Hauth.
    + destruct (Hin eq_refl) as [(Hsa & Hsr & Hsn) Hrole].
      unfold App.loadAuthState. rewrite Hsa, Hsr, Hsn.
      rewrite (validRole_restored _ (getRoleFromRegNo_valid _ _ Hrole)).
      replace (String.eqb "true" "true") with true by reflexivity. cbn [andb JS.orUndefined].
      rewrite or_empty. unfold shellInvariant, sessionStored. cbn.
      split; [intros _; now split|]. split; [discriminate | exact Hemail].
    + destruct (Hout eq_refl) as ((Hsa & _) & _).
      unfold App.loadAuthState. rewrite Hsa. exact Hinv.
  - (* SubmitLogin *)
    destruct (App.isAuthenticated st) eqn:Hauth; [exact Hinv|].
    destruct (Login.handleSubmit registrationNumber password) as [msg | title role regNo]
      eqn:Hsubmit; [exact Hinv|].
    destruct (handleSubmit_grants _ _ _ _ _ Hsubmit) as [_ Hrole].
    destruct (handleLogin_stored role regNo st) as [Hstored Hreg].
    destruct (Hout eq_refl) as (_ & Hadmin & _).
    split; [|split].
    + intros _. split; [exact Hstored|]. rewrite Hreg. exact Hrole.
    + discriminate.
    + intros _. cbn. apply Hemail. exact Hadmin.
  - (* Logout *)
    destruct (App.isAuthenticated st) eqn:Hauth; [|exact Hinv].
    split; [discriminate|]. split; [|reflexivity].
    intros _. split; [apply handleLogout_signedOut|]. now split.
  - (* Navigate *)
    destruct (App.isAuthenticated st) eqn:Hauth; [|exact Hinv].
    unfold shellInvariant, sessionStored. cbn.
    split; [intros _; exact (Hin eq_refl)|]. split; [discriminate | exact Hemail].
  - (* StaffEmailEffect *)
    assert (Hkeep : forall email,
               (App.userRole st = "Administrator" -> email = "") ->
               shellInvariant
                 (App.mkState (App.currentPage st) (App.userRole st) email
                    (App.isAuthenticated st) (App.registrationNumber st)
                    (App.localStorage st))).
    { intros email Hnew. unfold shellInvariant, sessionStored. cbn.
      split; [exact Hin|]. split; [exact Hout | exact Hnew]. }
    unfold App.loadStaffEmail.
    destruct (String.eqb (App.userRole st) "Staff") eqn:Hstaff.
    + apply String.eqb_eq in Hstaff.
      destruct (App.localStorage st !! "staffMembers") as [saved|]; [|exact Hinv].
      destruct (JS.truthy saved); [|exact Hinv].
      destruct (JSON_parse saved) as [[|first rest]|]; try exact Hinv.
      destruct (negb (String.eqb (App.currentUserEmail st) (StaffManagement.email first)));
        [|exact Hinv].
      apply Hkeep. intros Hadmin. congruence.
    + destruct (JS.truthy (App.currentUserEmail st)); [|exact Hinv].
      apply Hkeep. reflexivity.
Qed.

Lemma step_frame (staffCodec : JSONCodec StaffManagement.Staff) (st : App.State)
    (e : App.Event) (k : string) :
  ~ sessionKey k -> App.localStorage (App.step staffCodec st e) !! k = App.localStorage st !! k.
Proof.
  intros Hk.
  assert (k <> "isAuthenticated") by (intros ->; apply Hk; now left).
  assert (k <> "userRole") by (intros ->; apply Hk; right; now left).
  assert (k <> "registrationNumber") by (intros ->; apply Hk; right; now right).
  destruct e; cbn [App.step].
  - unfold App.loadAuthState.
    destruct (App.localStorage st !! "isAuthenticated"); [|reflexivity].
    destruct (App.localStorage st !! "userRole"); [|reflexivity].
    destruct (_ && _); reflexivity.
  - destruct (App.isAuthenticated st); [reflexivity|].
    destruct (Login.handleSubmit registrationNumber password); [reflexivity|].
    unfold App.handleLogin. cbn [App.localStorage].
    now rewrite !lookup_insert_ne by congruence.
  - destruct (App.isAuthenticated st); [|reflexivity].
    unfold App.handleLogout. cbn [App.localStorage].
    now rewrite !lookup_delete_ne by congruence.
  - destruct (App.isAuthenticated st); reflexivity.
  - unfold App.loadStaffEmail.
    destruct (String.eqb (App.userRole st) "Staff").
    + destruct (App.localStorage st !! "staffMembers") as [saved|]; [|reflexivity].
      destruct (JS.truthy saved); [|reflexivity].
      destruct (JSON_parse saved) as [[|first rest]|]; try reflexivity.
      destruct (negb _); reflexivity.
    + destruct (JS.truthy (App.currentUserEmail st)); reflexivity.
Qed.

(** X22: the shell during a visit.  From a first visit (no session in the
    store), after any sequence of mounts, login attempts, logouts,
    navigation and runs of the staff-email effect: the role is
    'Administrator' or 'Staff'; while authenticated the role is the one
    the registration number stands for, the store records the session, and
    a reload restores it; while not authenticated the shell is in its
    initial state (role 'Administrator', no registration number, page
    'dashboard', no email) and a reload stays on the login page; an
    Administrator never carries a current-user email; and no key of the
    store other than the three of the session is ever touched. *)
Theorem X22_shell_invariants (staffCodec : JSONCodec StaffManagement.Staff)
    (storage : gmap string string) (visit : list App.Event) :
  signedOut storage ->
  let st := App.steps staffCodec (App.initial storage) visit in
  validRole (App.userRole st)
  /\ (App.isAuthenticated st = true ->
      Login.getRoleFromRegNo (App.registrationNumber st) = Some (App.userRole st)
      /\ sessionStored st
      /\ App.isAuthenticated (reopened st) = true
      /\ App.userRole (reopened st) = App.userRole st
      /\ App.registrationNumber (reopened st) = App.registrationNumber st)
  /\ (App.isAuthenticated st = false ->
      st = App.initial (App.localStorage st) /\ reopened st = st)
  /\ (App.userRole st = "Administrator" -> App.currentUserEmail st = "")
  /\ (forall k, ~ sessionKey k -> App.localStorage st !! k = storage !! k).
Proof.
  intros Hout. cbv zeta.
  assert (Hinit : shellInvariant (App.initial storage)).
  { split; [discriminate|]. split; [|reflexivity]. intros _. split; [exact Hout|]. now split. }
  assert (Hframe0 : forall k, ~ sessionKey k ->
                      App.localStorage (App.initial storage) !! k = storage !! k)
    by reflexivity.
  unfold App.steps. revert Hinit Hframe0. generalize (App.initial storage) as st.
  induction visit as [|e visit IH]; intros st Hinv Hframe.
  - cbn [fold_left]. destruct Hinv as (Hin & Hnot & Hemail).
    split.
    { destruct (App.isAuthenticated st) eqn:Hauth.
      - destruct (Hin eq_refl) as [_ Hrole]. exact (getRoleFromRegNo_valid _ _ Hrole).
      - destruct (Hnot eq_refl) as (_ & -> & _). now left. }
    split.
    { intros Hauth. destruct (Hin Hauth) as [Hstored Hrole].
      split; [exact Hrole|]. split; [exact Hstored|].
      apply reopened_stored; [exact Hstored | exact (getRoleFromRegNo_valid _ _ Hrole)]. }
    split.
    { intros Hauth. destruct (Hnot Hauth) as (Hsigned & Hrole & Hreg & Hpage).
      assert (Hst : st = App.initial (App.localStorage st)).
      { destruct st as [page role email auth regNo store]. cbn in *. subst.
        rewrite (Hemail eq_refl). reflexivity. }
      split; [exact Hst|]. rewrite reopened_signedOut by exact Hsigned. now rewrite <- Hst. }
    split; [exact Hemail | exact Hframe].
  - cbn [fold_left]. apply IH.
    + now apply step_shellInvariant.
    + intros k Hk. rewrite step_frame by exact Hk. now apply Hframe.
Qed.

Lemma X22_shell_invariants_witness :
  signedOut ∅
  /\ validRole (App.userRole (App.steps staffCodec (App.initial ∅) visitSample)).
Proof.
  assert (Hout : signedOut ∅) by (split; [|split]; reflexivity).
  split; [exact Hout|].
  pose proof (X22_shell_invariants staffCodec ∅ visitSample Hout) as Hall.
  cbv zeta in Hall. destruct Hall as [Hrole _]. exact Hrole.
Defined.

(** X23: every staff user is shown the first stored staff member as their
    own profile.  For a user with role 'Staff' on a store whose staff
    collection reads as a non-empty list, the shell's effect sets the
    current-user email to that of the first member and is then stable;
    the staff page mounted on that store loads the collection, its
    auto-load effect selects the first member, and the page counts that
    selection as the user's own profile.  The registration number plays
    no part in it. *)
Theorem X23_staff_user_sees_first_member (staffCodec : JSONCodec StaffManagement.Staff)
    (app : App.State) (saved : string) (first : StaffManagement.Staff)
    (rest : list StaffManagement.Staff) :
  App.userRole app = "Staff" ->
  App.localStorage app !! "staffMembers" = Some saved ->
  JS.truthy saved = true ->
  JSON_parse saved = Some (first :: rest) ->
  let app' := App.loadStaffEmail staffCodec app in
  let page :=
    settle (StaffManagement.loadStaffData (mountedStaff (App.localStorage app')))
      (mountedStaff (App.localStorage app')) in
  let page' :=
    run (StaffManagement.autoLoadProfile (App.userRole app') (App.currentUserEmail app') page)
      page in
  App.currentUserEmail app' = StaffManagement.email first
  /\ App.loadStaffEmail staffCodec app' = app'
  /\ App.registrationNumber app' = App.registrationNumber app
  /\ items page = first :: rest
  /\ selected page' = Some first
  /\ StaffManagement.isOwnProfile (App.userRole app') (App.currentUserEmail app') page' = true.
Proof.
  intros Hrole Hsaved Htruthy Hparse.
  assert (Hshell : App.currentUserEmail (App.loadStaffEmail staffCodec app)
                   = StaffManagement.email first
                   /\ App.userRole (App.loadStaffEmail staffCodec app) = "Staff"
                   /\ App.registrationNumber (App.loadStaffEmail staffCodec app)
                      = App.registrationNumber app
                   /\ App.localStorage (App.loadStaffEmail staffCodec app)
                      = App.localStorage app).
  { unfold App.loadStaffEmail. rewrite Hrole, Hsaved, Htruthy, Hparse.
    replace (String.eqb "Staff" "Staff") with true by reflexivity.
    destruct (String.eqb (App.currentUserEmail app) (StaffManagement.email first)) eqn:Heq.
    - apply String.eqb_eq in Heq. cbn. rewrite ?Hrole. now rewrite Heq.
    - cbn. rewrite ?Hrole. now split. }
  destruct Hshell as (Hemail & Hrole' & Hreg & Hstore). cbv zeta.
  rewrite Hemail, Hrole', Hstore.
  assert (Hpage : settle (StaffManagement.loadStaffData (mountedStaff (App.localStorage app)))
                    (mountedStaff (App.localStorage app))
                  = mkState "view-staff" (first :: rest) (first :: rest) None noPopup None tt
                      (App.localStorage app)).
  { unfold StaffManagement.loadStaffData. cbn [localStorage mountedStaff].
    rewrite Hsaved, Htruthy, Hparse. reflexivity. }
  rewrite Hpage.
  assert (Hprofile : StaffManagement.currentUserProfile "Staff" (StaffManagement.email first)
                       (first :: rest) = Some first).
  { unfold StaffManagement.currentUserProfile. cbn [List.find].
    rewrite String.eqb_refl, andb_true_r.
    destruct (JS.truthy (StaffManagement.email first)); [reflexivity|].
    cbn [andb]. rewrite (find_nowhere _ rest)
      by (apply List.Forall_forall; intros r _; reflexivity).
    reflexivity. }
  split; [reflexivity|]. split.
  { remember (App.loadStaffEmail staffCodec app) as app' eqn:Happ'.
    unfold App.loadStaffEmail. rewrite Hrole', Hstore, Hsaved, Htruthy, Hparse, Hemail.
    replace (String.eqb "Staff" "Staff") with true by reflexivity.
    now rewrite String.eqb_refl. }
  split; [exact Hreg|]. split; [reflexivity|].
  rewrite autoLoadProfile_selects; [|reflexivity|reflexivity|discriminate].
  cbn [items]. rewrite Hprofile. split; [reflexivity|].
  unfold StaffManagement.isOwnProfile. cbn [run fold_left apply selected items].
  rewrite Hprofile. cbn. apply Z.eqb_refl.
Qed.

Lemma X23_staff_user_sees_first_member_witness :
  App.userRole staffLoggedIn = "Staff"
  /\ App.localStorage staffLoggedIn !! "staffMembers" = Some "[1,2,3,4,5]"
  /\ JS.truthy "[1,2,3,4,5]" = true
  /\ @JSON_parse _ sampleStaffCodec "[1,2,3,4,5]" = Some StaffManagement.sampleData
  /\ App.currentUserEmail (App.loadStaffEmail sampleStaffCodec staffLoggedIn)
     = "john.smith@university.edu".
Proof.
  split; [reflexivity|]. split; [reflexivity|]. split; [reflexivity|]. split; [reflexivity|].
  pose proof (X23_staff_user_sees_first_member sampleStaffCodec staffLoggedIn "[1,2,3,4,5]"
                _ _ eq_refl eq_refl eq_refl eq_refl) as Hall.
  cbv zeta in Hall. destruct Hall as [Hemail _]. exact Hemail.
Defined.

(** ** Editing a staff member *)

Lemma not_blank_truthy (s : string) : ~ blank s -> JS.truthy (JS.trim s) = true.
Proof.
  intros Hs. destruct (JS.truthy (JS.trim s)) eqn:Ht; [reflexivity|].
  apply trim_blank in Ht. contradiction.
Qed.



(** The second sample member before and after an edit submitted
    unchanged: research hours 5 become 20, 'Associate Professor' becomes
    'Associate professor'. *)
Example staff_edit_round_trip_sample :
  StaffManagement.researchHours staffSecond = JsNum 5
  /\ StaffManagement.researchHours (@resubmitted integerNumbers staffSecond) = JsNum 20
  /\ StaffManagement.position staffSecond = "Associate Professor"
  /\ StaffManagement.position (@resubmitted integerNumbers staffSecond) = "Associate professor".
Proof. split; [|split; [|split]]; reflexivity. Qed.

(** ** Sessions of a staff user on the staff page *)

Lemma alike_id (r r0 : StaffManagement.Staff) :
  withoutPicture r = withoutPicture r0 ->
  StaffManagement.id r = StaffManagement.id r0
  /\ StaffManagement.email r = StaffManagement.email r0.
Proof.
  intros Heq. split.
  - change (StaffManagement.id (withoutPicture r) = StaffManagement.id (withoutPicture r0)).
    now rewrite Heq.
  - change (StaffManagement.email (withoutPicture r)
            = StaffManagement.email (withoutPicture r0)).
    now rewrite Heq.
Qed.

Lemma tracks_same (own : option Z) (r : StaffManagement.Staff) : tracks own r r.
Proof. split; [reflexivity | intros _; reflexivity]. Qed.

Lemma tracks_all_same (own : option Z) (l : list StaffManagement.Staff) :
  Forall2 (tracks own) l l.
Proof. induction l; constructor; [apply tracks_same | assumption]. Qed.

Lemma tracks_In (own : option Z) (l l0 : list StaffManagement.Staff)
    (r : StaffManagement.Staff) :
  Forall2 (tracks own) l l0 -> In r l -> known own l0 r.
Proof.
  induction 1 as [|x x0 l l0 Hx Hl IH]; [contradiction|].
  intros [<- | Hin].
  - exists x0. split; [now left | exact Hx].
  - destruct (IH Hin) as (r0 & Hr0 & Ht). exists r0. split; [now right | exact Ht].
Qed.

Lemma find_tracked (own : option Z) (f : StaffManagement.Staff -> bool)
    (l l0 : list StaffManagement.Staff) :
  (forall r r0, tracks own r r0 -> f r = f r0) ->
  Forall2 (tracks own) l l0 ->
  option_map StaffManagement.id (List.find f l)
  = option_map StaffManagement.id (List.find f l0).
Proof.
  intros Hf. induction 1 as [|x x0 l l0 Hx Hl IH]; [reflexivity|].
  simpl. rewrite (Hf x x0 Hx). destruct (f x0); [|exact IH].
  simpl. f_equal. apply alike_id. apply Hx.
Qed.

Lemma ownId_tracked (own : option Z) (userRole currentUserEmail : string)
    (l l0 : list StaffManagement.Staff) :
  Forall2 (tracks own) l l0 ->
  ownId userRole currentUserEmail l = ownId userRole currentUserEmail l0.
Proof.
  intros Hl. unfold ownId, StaffManagement.currentUserProfile.
  pose proof (find_tracked own
                (fun staff =>
                   JS.truthy currentUserEmail
                   && String.eqb (JS.toLowerCase (StaffManagement.email staff))
                        (JS.toLowerCase currentUserEmail)) l l0) as Hfind.
  cbv beta in Hfind.
  assert (Hsame : forall r r0, tracks own r r0 ->
            JS.truthy currentUserEmail
            && String.eqb (JS.toLowerCase (StaffManagement.email r))
                 (JS.toLowerCase currentUserEmail)
            = JS.truthy currentUserEmail
              && String.eqb (JS.toLowerCase (StaffManagement.email r0))
                   (JS.toLowerCase currentUserEmail)).
  { intros r r0 [Halike _]. destruct (alike_id r r0 Halike) as [_ ->]. reflexivity. }
  specialize (Hfind Hsame Hl).
  destruct (List.find _ l) as [y|], (List.find _ l0) as [y0|]; try discriminate Hfind.
  - exact Hfind.
  - destruct Hl as [|x x0 l l0 Hx Hl]; [reflexivity|].
    destruct (isStaff userRole); [|reflexivity].
    simpl. f_equal. apply alike_id. apply Hx.
Qed.

Lemma replace_tracked (own : option Z) (all : list StaffManagement.Staff)
    (s : StaffManagement.Staff) (result : string)
    (snapshot part : list StaffManagement.Staff) :
  List.NoDup (map StaffManagement.id all) ->
  known own all s -> own = Some (StaffManagement.id s) ->
  (forall r0, In r0 part -> In r0 all) ->
  Forall2 (tracks own) snapshot part ->
  Forall2 (tracks own)
    (map (fun staff => if StaffManagement.id staff =? StaffManagement.id s
                       then StaffManagement.withPicture s result else staff) snapshot)
    part.
Proof.
  intros Hnd (s0 & Hs0 & Hs & _) Hown Hpart.
  induction 1 as [|x x0 l l0 Hx Hl IH]; [constructor|].
  simpl. constructor.
  - destruct (StaffManagement.id x =? StaffManagement.id s) eqn:Hid; [|exact Hx].
    apply Z.eqb_eq in Hid.
    assert (Hsame : s0 = x0).
    { apply (NoDup_map_same StaffManagement.id all); [exact Hnd | exact Hs0 | |].
      - apply Hpart. now left.
      - destruct (alike_id s s0 Hs) as [<- _]. destruct Hx as [Hx _].
        destruct (alike_id x x0 Hx) as [<- _]. now symmetry. }
    subst x0. split; [exact Hs|].
    intros Hother. exfalso. apply Hother. rewrite Hown. f_equal.
    apply alike_id. exact Hs.
  - apply IH. intros r0 Hr0. apply Hpart. now right.
Qed.

Lemma dropNth_In {A : Type} (n : nat) (l : list A) (x : A) : In x (dropNth n l) -> In x l.
Proof.
  unfold dropNth. rewrite in_app_iff. intros [Hin | Hin].
  - rewrite <- (firstn_skipn n l). apply in_or_app. now left.
  - rewrite <- (firstn_skipn (S n) l). apply in_or_app. now right.
Qed.

Lemma filterStaff_In (selectedDepartment searchQuery : string)
    (l : list StaffManagement.Staff) (r : StaffManagement.Staff) :
  In r (StaffManagement.filterStaff selectedDepartment searchQuery l) -> In r l.
Proof. rewrite filterStaff_conjunction, filter_In. tauto. Qed.

Lemma isStaff_not_administrator (userRole : string) :
  isStaff userRole = true -> isAdministrator userRole = false.
Proof. intros Hrole. apply String.eqb_eq in Hrole. now subst. Qed.

Section StaffSessions.
Context `{HostNumbers} `{JSONCodec StaffManagement.Staff}.
Variables (userRole currentUserEmail : string) (all : list StaffManagement.Staff).
Hypothesis Hstaff : isStaff userRole = true.
Hypothesis Hdistinct : List.NoDup (map StaffManagement.id all).

Lemma staffInvariant_after (pg : StaffPage) (st' : StaffManagement.State) :
  staffInvariant (ownId userRole currentUserEmail all) all pg ->
  items st' = items (view pg) ->
  (forall r, In r (filteredItems st') -> known (ownId userRole currentUserEmail all) all r) ->
  (forall s, selected st' = Some s -> known (ownId userRole currentUserEmail all) all s) ->
  staffInvariant (ownId userRole currentUserEmail all) all (mkStaffPage st' (reads pg)).
Proof.
  intros (Hitems & _ & _ & Hreads) Hsame Hfiltered Hselected.
  split; [|split; [|split]]; cbn [view reads].
  - now rewrite Hsame.
  - exact Hfiltered.
  - exact Hselected.
  - exact Hreads.
Qed.

Lemma staffInteract_invariant (i : StaffInteraction) (pg : StaffPage) :
  staffInvariant (ownId userRole currentUserEmail all) all pg ->
  staffInvariant (ownId userRole currentUserEmail all) all
    (staffInteract userRole currentUserEmail i pg).
Proof.
  intros Hinv. pose proof Hinv as (Hitems & Hfiltered & Hselected & Hreads).
  pose proof (isStaff_not_administrator userRole Hstaff) as Hadmin.
  assert (Hunchanged : staffInvariant (ownId userRole currentUserEmail all) all
                         (mkStaffPage (view pg) (reads pg))).
  { apply staffInvariant_after; [exact Hinv | reflexivity | exact Hfiltered | exact Hselected]. }
  destruct i; cbn [staffInteract].
  - (* tab *)
    destruct (StaffManagement.tabRendered userRole tab); [|exact Hinv].
    apply staffInvariant_after; [exact Hinv | reflexivity | exact Hfiltered | exact Hselected].
  - (* view *)
    destruct (staffRowShown row (view pg)) as [staff|] eqn:Hrow; [|exact Hinv].
    apply staffInvariant_after; [exact Hinv | reflexivity | exact Hfiltered |].
    intros s Hs. cbn in Hs. injection Hs as <-. apply Hfiltered.
    unfold staffRowShown in Hrow.
    destruct (String.eqb (activeTab (view pg)) "view-staff"); [|discriminate].
    now apply nth_error_In in Hrow.
  - (* edit *)
    destruct (staffRowShown row (view pg)); [|exact Hinv].
    unfold StaffManagement.rowActionsRendered. rewrite Hadmin. exact Hinv.
  - (* delete *)
    destruct (staffRowShown row (view pg)); [|exact Hinv].
    unfold StaffManagement.rowActionsRendered. rewrite Hadmin. exact Hinv.
  - (* submit *)
    unfold staffSubmitEvent, StaffManagement.formRendered. rewrite Hadmin, andb_false_r.
    exact Hunchanged.
  - (* cancel *)
    unfold StaffManagement.formRendered. rewrite Hadmin, andb_false_r. exact Hinv.
  - (* choose a file *)
    destruct (StaffManagement.uploadRendered userRole currentUserEmail (view pg)) eqn:Hshown;
      [|exact Hinv].
    destruct (StaffManagement.handleProfilePictureUpload userRole currentUserEmail file
                (view pg)) as [es | selectedStaff] eqn:Hupload.
    + apply handleProfilePictureUpload_done in Hupload.
      destruct Hupload as [-> | [msg ->]]; [exact Hunchanged|].
      apply staffInvariant_after; [exact Hinv | reflexivity | exact Hfiltered | exact Hselected].
    + unfold StaffManagement.uploadRendered in Hshown.
      apply andb_true_iff in Hshown. destruct Hshown as [_ Hshown].
      unfold StaffManagement.handleProfilePictureUpload in Hupload.
      destruct file as [f|]; [|discriminate].
      destruct (selected (view pg)) as [sel|] eqn:Hsel; [|discriminate].
      assert (Hsame : selectedStaff = sel).
      { repeat match type of Hupload with
               | (if ?b then _ else _) = _ => destruct b; try discriminate Hupload
               end.
        now injection Hupload as <-. }
      subst selectedStaff. clear Hupload.
      rewrite Hadmin in Hshown. cbn [orb] in Hshown.
      unfold StaffManagement.isOwnProfile in Hshown. rewrite Hstaff, Hsel in Hshown.
      cbn [andb] in Hshown.
      assert (Hown : ownId userRole currentUserEmail (items (view pg))
                     = Some (StaffManagement.id sel)).
      { unfold ownId.
        destruct (StaffManagement.currentUserProfile userRole currentUserEmail
                    (items (view pg))) as [profile|]; [|discriminate].
        apply Z.eqb_eq in Hshown. cbn. now rewrite Hshown. }
      rewrite (ownId_tracked _ _ _ _ _ Hitems) in Hown.
      split; [|split; [|split]]; cbn [view reads].
      * exact Hitems.
      * exact Hfiltered.
      * intros s Hs. rewrite Hsel in Hs. now apply Hselected.
      * intros s snapshot Hin. apply in_app_iff in Hin. destruct Hin as [Hin | [Heq | []]].
        -- now apply Hreads.
        -- injection Heq as <- <-.
           split; [now apply Hselected|]. split; [exact Hown | exact Hitems].
  - (* a read completes *)
    destruct (nth_error (reads pg) read) as [[selectedStaff staffMembers]|] eqn:Hread;
      [|exact Hinv].
    apply nth_error_In in Hread.
    destruct (Hreads _ _ Hread) as (Hknown & Hown & Hsnapshot).
    assert (Hnew : Forall2 (tracks (ownId userRole currentUserEmail all))
                     (map (fun staff =>
                             if StaffManagement.id staff =? StaffManagement.id selectedStaff
                             then StaffManagement.withPicture selectedStaff result
                             else staff) staffMembers) all).
    { apply (replace_tracked _ all); try assumption. intros r0 Hr0. exact Hr0. }
    split; [|split; [|split]]; cbn [view reads].
    + exact Hnew.
    + intros r Hr. apply (tracks_In _ _ _ _ Hnew). exact Hr.
    + intros s Hs. cbn in Hs. injection Hs as <-.
      destruct Hknown as (s0 & Hs0 & Halike & _).
      exists s0. split; [exact Hs0|]. split; [exact Halike|].
      intros Hother. exfalso. apply Hother. rewrite Hown. f_equal. now apply alike_id.
    + intros s snapshot Hin. apply Hreads. now apply dropNth_In in Hin.
  - (* popup *)
    destruct (show (popup (view pg))); [|exact Hinv].
    apply staffInvariant_after; [exact Hinv | reflexivity | exact Hfiltered | exact Hselected].
  - (* filter *)
    apply staffInvariant_after; [exact Hinv | reflexivity | | exact Hselected].
    intros r Hr. cbn in Hr. apply filterStaff_In in Hr. now apply (tracks_In _ _ _ _ Hitems).
  - (* profile *)
    unfold StaffManagement.autoLoadProfile.
    destruct (selected (view pg)) as [sel|] eqn:Hsel; [exact Hunchanged|].
    destruct (isStaff userRole && (0 <? length (items (view pg)))%nat); [|exact Hunchanged].
    apply staffInvariant_after; [exact Hinv | reflexivity | exact Hfiltered |].
    intros s Hs. cbn in Hs. apply (tracks_In _ _ _ _ Hitems).
    destruct (JS.truthy currentUserEmail).
    + destruct (List.find _ (items (view pg))) as [p|] eqn:Hfind.
      * injection Hs as <-. now apply find_some in Hfind.
      * destruct (items (view pg)); [discriminate|]. injection Hs as <-. now left.
    + destruct (items (view pg)); [discriminate|]. injection Hs as <-. now left.
Qed.

Lemma staffSession_invariant (session : list StaffInteraction) (pg : StaffPage) :
  staffInvariant (ownId userRole currentUserEmail all) all pg ->
  staffInvariant (ownId userRole currentUserEmail all) all
    (staffSession userRole currentUserEmail session pg).
Proof.
  revert pg. induction session as [|i session IH]; intros pg Hinv; [exact Hinv|].
  cbn [staffSession]. apply IH. now apply staffInteract_invariant.
Qed.

End StaffSessions.

(** X25: a staff user can change nothing but the picture of their own
    record.  On a page whose ids are pairwise distinct, after any session
    of a user with role 'Staff' (tabs, rows, filters, the controls of an
    Administrator, uploads that complete in any order and at any later
    time), the collection has the same records at the same positions up to
    the picture, and every record other than the one the page takes for
    the user's own is exactly as it was. *)
Theorem X25_staff_user_changes_only_own_picture
    (numbers : HostNumbers) (codec : JSONCodec StaffManagement.Staff)
    (userRole currentUserEmail : string) (session : list StaffInteraction) (pg : StaffPage) :
  isStaff userRole = true ->
  List.NoDup (map StaffManagement.id (items (view pg))) ->
  settled pg ->
  Forall2 (tracks (ownId userRole currentUserEmail (items (view pg))))
    (items (view (staffSession userRole currentUserEmail session pg)))
    (items (view pg)).
Proof.
  intros Hstaff Hdistinct (Hfiltered & Hselected & Hreads).
  apply (staffSession_invariant userRole currentUserEmail (items (view pg)) Hstaff Hdistinct).
  split; [apply tracks_all_same|]. split; [|split].
  - intros r Hr. exists r. split; [now apply Hfiltered | apply tracks_same].
  - intros s Hs. exists s. split; [now apply Hselected | apply tracks_same].
  - intros s snapshot Hin. rewrite Hreads in Hin. contradiction.
Qed.

Lemma X25_staff_user_changes_only_own_picture_witness :
  isStaff "Staff" = true
  /\ List.NoDup (map StaffManagement.id (items (view staffPageFresh)))
  /\ settled staffPageFresh
  /\ Forall2
       (tracks (ownId "Staff" "sarah.johnson@university.edu" (items (view staffPageFresh))))
       (items (view (@staffSession integerNumbers staffCodec "Staff"
                       "sarah.johnson@university.edu" staffSessionSample staffPageFresh)))
       (items (view staffPageFresh)).
Proof.
  assert (Hdistinct : List.NoDup (map StaffManagement.id (items (view staffPageFresh)))).
  { apply (NoDup_count_occ' Z.eq_dec). intros x Hx. simpl in Hx.
    destruct Hx as [<- | [<- | [<- | [<- | [<- | []]]]]]; reflexivity. }
  assert (Hsettled : settled staffPageFresh).
  { split; [intros r Hr; exact Hr|]. split; [discriminate | reflexivity]. }
  split; [reflexivity|]. split; [exact Hdistinct|]. split; [exact Hsettled|].
  exact (X25_staff_user_changes_only_own_picture integerNumbers staffCodec "Staff"
           "sarah.johnson@university.edu" staffSessionSample staffPageFresh
           eq_refl Hdistinct Hsettled).
Defined.

(** The sample session: the two uploads of the second member complete in
    the reverse order, the later completion wins, and the upload tried on
    the fourth member's record never starts. *)
Example staff_session_sample :
  map StaffManagement.profilePicture
    (items (view (@staffSession integerNumbers staffCodec "Staff"
                    "sarah.johnson@university.edu" staffSessionSample staffPageFresh)))
  = [None; Some "data:first"; None; None; None].
Proof. reflexivity. Qed.

(** ** Cancelling *)



(** ** The two picture inputs *)

Lemma uploadPermitted_passes (userRole currentUserEmail : string)
    (staffMembers : list StaffManagement.Staff) (selectedStaff : StaffManagement.Staff) :
  uploadPermitted userRole currentUserEmail staffMembers selectedStaff ->
  isStaff userRole
  && match StaffManagement.currentUserProfile userRole currentUserEmail staffMembers with
     | Some profile => negb (StaffManagement.id selectedStaff =? StaffManagement.id profile)
     | None => false
     end = false.
Proof.
  intros [Hrole | [Hnone | (profile & Hprofile & Hid)]].
  - now rewrite Hrole.
  - rewrite Hnone. apply andb_false_r.
  - rewrite Hprofile, Hid, Z.eqb_refl. apply andb_false_r.
Qed.

(** X27: the picture input of the staff form and the upload of the
    details tab judge a file alike.  For a user permitted to upload for
    the selected record, the form accepts a file exactly when the upload
    starts reading it, and when one of them rejects a file the other
    rejects it with the same message; without a file both do nothing. *)
Theorem X27_picture_inputs_agree (userRole currentUserEmail : string)
    (st : StaffManagement.State) (selectedStaff : StaffManagement.Staff)
    (file : StaffManagement.File) :
  selected st = Some selectedStaff ->
  uploadPermitted userRole currentUserEmail (items st) selectedStaff ->
  (AddStaffForm.handleProfilePictureChange (Some file) = AddStaffForm.PictureRead <->
   StaffManagement.handleProfilePictureUpload userRole currentUserEmail (Some file) st
   = StaffManagement.ReadAsDataURL selectedStaff)
  /\ (forall message,
        AddStaffForm.handleProfilePictureChange (Some file) = AddStaffForm.PictureError message
        <-> StaffManagement.handleProfilePictureUpload userRole currentUserEmail (Some file) st
            = StaffManagement.Done [SetPopup (mkPopup true message "error")])
  /\ AddStaffForm.handleProfilePictureChange None = AddStaffForm.PictureIgnored
  /\ StaffManagement.handleProfilePictureUpload userRole currentUserEmail None st
     = StaffManagement.Done [].
Proof.
  intros Hsel Hpermitted.
  unfold AddStaffForm.handleProfilePictureChange, StaffManagement.handleProfilePictureUpload.
  rewrite Hsel, (uploadPermitted_passes _ _ _ _ Hpermitted).
  destruct (negb (JS.startsWith (StaffManagement.fileType file) "image/"));
    [|destruct (StaffManagement.size file >? 5 * 1024 * 1024)].
  - split; [split; discriminate|]. split; [|split; reflexivity].
    intros message. split; intros Heq; injection Heq as <-; reflexivity.
  - split; [split; discriminate|]. split; [|split; reflexivity].
    intros message. split; intros Heq; injection Heq as <-; reflexivity.
  - split; [split; reflexivity|]. split; [|split; reflexivity].
    intros message. split; discriminate.
Qed.

Lemma X27_picture_inputs_agree_witness :
  selected staffState = Some staffSecond
  /\ uploadPermitted "Administrator" "" (items staffState) staffSecond
  /\ (AddStaffForm.handleProfilePictureChange (Some imageOfFiveMiB) = AddStaffForm.PictureRead
      <-> StaffManagement.handleProfilePictureUpload "Administrator" "" (Some imageOfFiveMiB)
            staffState
          = StaffManagement.ReadAsDataURL staffSecond).
Proof.
  assert (Hpermitted : uploadPermitted "Administrator" "" (items staffState) staffSecond)
    by (left; reflexivity).
  split; [reflexivity|]. split; [exact Hpermitted|].
  destruct (X27_picture_inputs_agree "Administrator" "" staffState staffSecond imageOfFiveMiB
              eq_refl Hpermitted) as [Hagree _].
  exact Hagree.
Defined.

(** ** The departments offered by the task form and the allocation form *)

(** X28: the allocation form offers 'All' followed by the departments the
    task form offers, with one difference.  When the store can be read
    and names at least one department, or when it cannot be read, the
    list of the allocation form is 'All' followed by the list of the task
    form; when the store can be read and names no department the task
    form falls back to the five default departments while the allocation
    form offers 'All' alone. *)
Theorem X28_allocation_departments (staffCodec : JSONCodec StaffManagement.Staff)
    (courseCodec : JSONCodec CourseManagement.Course) (storage : gmap string string) :
  let task := getDepartments staffCodec courseCodec storage in
  let allocation := WorkloadAllocation.getDepartments staffCodec courseCodec storage in
  (allocation = "All" :: task \/ (allocation = ["All"] /\ task = defaultDepartments))
  /\ (forall staffMembers courses,
        @JSON_parse _ staffCodec (staffText storage) = Some staffMembers ->
        @JSON_parse _ courseCodec (coursesText storage) = Some courses ->
        ((exists d, namedDepartment staffMembers courses d) -> allocation = "All" :: task)
        /\ ((forall d, ~ namedDepartment staffMembers courses d) ->
            allocation = ["All"] /\ task = defaultDepartments))
  /\ (@JSON_parse _ staffCodec (staffText storage) = None
      \/ @JSON_parse _ courseCodec (coursesText storage) = None ->
      allocation = "All" :: defaultDepartments /\ task = defaultDepartments).
Proof.
  cbv zeta. unfold WorkloadAllocation.getDepartments.
  unfold getDepartments. fold (staffText storage). fold (coursesText storage).
  destruct (@JSON_parse _ staffCodec (staffText storage)) as [staffMembers|] eqn:Hstaff;
    [destruct (@JSON_parse _ courseCodec (coursesText storage)) as [courses|] eqn:Hcourses|].
  - set (collected :=
           fold_left (fun set course => addDepartment set (CourseManagement.department course))
             courses
             (fold_left (fun set staff => addDepartment set (StaffManagement.department staff))
                staffMembers [])).
    assert (Hin : forall d, In d collected <-> namedDepartment staffMembers courses d).
    { intros d. unfold collected, namedDepartment.
      rewrite (fold_add_In _ (fun c => if JS.truthy (CourseManagement.department c)
                                       then Some (CourseManagement.department c) else None))
        by (intros; apply addDepartment_In).
      rewrite (fold_add_In _ (fun s => if JS.truthy (StaffManagement.department s)
                                       then Some (StaffManagement.department s) else None))
        by (intros; apply addDepartment_In).
      split.
      - intros [[[] | [s [Hs Hd]]] | [c [Hc Hd]]]; apply truthy_named in Hd as [Hd Hne].
        + split; [exact Hne | left; now exists s].
        + split; [exact Hne | right; now exists c].
      - intros [Hne [[s [Hs Hd]] | [c [Hc Hd]]]].
        + left. right. exists s. split; [exact Hs | now apply truthy_named].
        + right. exists c. split; [exact Hc | now apply truthy_named]. }
    destruct (JS.Array_sort collected) as [|x sorted] eqn:Hsorted.
    + assert (Hnone : forall d, ~ namedDepartment staffMembers courses d).
      { intros d Hd. apply Hin in Hd. apply Array_sort_In in Hd. now rewrite Hsorted in Hd. }
      simpl. split; [right; now split|]. split.
      * intros s c Hs Hc. injection Hs as <-. injection Hc as <-. split.
        -- intros [d Hd]. now apply Hnone in Hd.
        -- intros _. now split.
      * intros [Hfail | Hfail]; discriminate.
    + simpl. split; [now left|]. split.
      * intros s c Hs Hc. injection Hs as <-. injection Hc as <-. split; [reflexivity|].
        intros Hnone. exfalso. apply (Hnone x). apply Hin, Array_sort_In.
        rewrite Hsorted. now left.
      * intros [Hfail | Hfail]; discriminate.
  - split; [now left|]. split; [intros s c _ Hc; discriminate | now split].
  - split; [now left|]. split; [intros s c Hs; discriminate | now split].
Qed.

Lemma X28_allocation_departments_witness :
  (exists d, namedDepartment StaffManagement.sampleData [] d)
  /\ WorkloadAllocation.getDepartments sampleStaffCodec courseCodec
       {["staffMembers" := "[1,2,3,4,5]"]}
     = "All" :: getDepartments sampleStaffCodec courseCodec {["staffMembers" := "[1,2,3,4,5]"]}.
Proof.
  assert (Hnamed : exists d, namedDepartment StaffManagement.sampleData [] d).
  { exists "Physics". split; [discriminate|]. left.
    exists (StaffManagement.seeded 3 "Dr. Michael Williams" "michael.williams@university.edu"
              "Physics" "Professor" 15 5 20).
    split; [right; right; now left | reflexivity]. }
  split; [exact Hnamed|].
  pose proof (X28_allocation_departments sampleStaffCodec courseCodec
                {["staffMembers" := "[1,2,3,4,5]"]}) as Hall.
  cbv zeta in Hall. destruct Hall as (_ & Hread & _).
  destruct (Hread StaffManagement.sampleData [] eq_refl eq_refl) as [Hsome _].
  exact (Hsome Hnamed).
Defined.

(** On the sample staff the allocation form offers 'All' and the three
    departments in ascending order. *)
Example allocation_departments_sample :
  WorkloadAllocation.getDepartments sampleStaffCodec courseCodec
    {["staffMembers" := "[1,2,3,4,5]"]}
  = ["All"; "Computer Science"; "Mathematics"; "Physics"].
Proof. reflexivity. Qed.

(** ** Sessions of the course page *)

Lemma looksOnly_run {R F : Type} `{JSONCodec R} (es : list (Effect R F)) (st : State R F) :
  looksOnly es ->
  items (run es st) = items st
  /\ localStorage (run es st) = localStorage st
  /\ editing (run es st) = editing st.
Proof.
  intros Hes. revert st. induction Hes as [|e es He Hes IH]; intros st.
  - split; [reflexivity|]. split; reflexivity.
  - change (run (e :: es) st) with (run es (apply st e)).
    destruct (IH (apply st e)) as (Hi & Hl & Hed). rewrite Hi, Hl, Hed.
    destruct e; try contradiction; (split; [reflexivity|]); split; reflexivity.
Qed.

Ltac looks_only := unfold looksOnly; repeat (constructor; [exact I|]); solve [constructor].

Lemma courseInteract_looksOnly (userRole : string) (i : CourseInteraction)
    (st : CourseManagement.State) :
  isAdministrator userRole = false -> looksOnly (courseInteract userRole i st).
Proof.
  intros Hrole. destruct i; unfold courseInteract, courseSubmitEvent,
    CourseManagement.formRendered, CourseManagement.rowActionsRendered;
    rewrite ?Hrole, ?andb_false_r.
  - destruct (CourseManagement.tabRendered userRole tab); looks_only.
  - destruct (courseRowShown row st); looks_only.
  - destruct (courseRowShown row st); looks_only.
  - destruct (courseRowShown row st); looks_only.
  - looks_only.
  - looks_only.
  - destruct (show (popup st)); looks_only.
  - looks_only.
  - unfold CourseManagement.autoGenerateCourseId. destruct (editing st); looks_only.
Qed.

Lemma courseSubmit_tidy (userRole : string) (st : CourseManagement.State) :
  tidy "courses" (CourseManagement.handleSubmit userRole st).
Proof.
  unfold CourseManagement.handleSubmit, CourseManagement.handleCourseUpdated,
    CourseManagement.handleCourseAdded.
  destruct (editing st) as [e|]; destruct (CourseManagement.invalid (formData st));
    first [read_only | saves].
Qed.

Lemma handleDeleteCourse_tidy (userRole : string) (confirmed : bool) (id_ : Z)
    (st : CourseManagement.State) :
  tidy "courses" (CourseManagement.handleDeleteCourse userRole confirmed id_ st).
Proof.
  unfold CourseManagement.handleDeleteCourse.
  destruct (negb (isAdministrator userRole)); [read_only|].
  destruct confirmed; [|read_only].
  right. eexists. eexists. split; [reflexivity|].
  destruct (selected st) as [s|]; [destruct (CourseManagement.id s =? id_)|]; quiet.
Qed.

Lemma courseInteract_tidy (userRole : string) (i : CourseInteraction)
    (st : CourseManagement.State) :
  tidy "courses" (courseInteract userRole i st).
Proof.
  destruct i; unfold courseInteract.
  - destruct (CourseManagement.tabRendered userRole tab); read_only.
  - destruct (courseRowShown row st); read_only.
  - destruct (courseRowShown row st); [|read_only].
    destruct (CourseManagement.rowActionsRendered userRole); [|read_only].
    unfold CourseManagement.handleEditCourse.
    destruct (negb (isAdministrator userRole)); read_only.
  - destruct (courseRowShown row st); [|read_only].
    destruct (CourseManagement.rowActionsRendered userRole); [|read_only].
    apply handleDeleteCourse_tidy.
  - destruct (CourseManagement.formRendered userRole st); read_only.
  - unfold courseSubmitEvent.
    destruct (CourseManagement.formRendered userRole st); [apply courseSubmit_tidy | read_only].
  - destruct (show (popup st)); read_only.
  - read_only.
  - unfold CourseManagement.autoGenerateCourseId. destruct (editing st); read_only.
Qed.

Lemma courseSubmit_changes (userRole : string) `{JSONCodec CourseManagement.Course}
    (st : CourseManagement.State) :
  changedInOneWay CourseManagement.id (items st)
    (items (run (CourseManagement.handleSubmit userRole st) st)).
Proof.
  unfold CourseManagement.handleSubmit, CourseManagement.handleCourseUpdated,
    CourseManagement.handleCourseAdded.
  destruct (editing st) as [e|]; destruct (CourseManagement.invalid (formData st));
    try same_items.
  - right. right. left.
    exists (fun course => if CourseManagement.id course =? CourseManagement.id e
                          then CourseManagement.mergeForm course (formData st) else course).
    split; [|reflexivity].
    intros r. destruct (CourseManagement.id r =? CourseManagement.id e); reflexivity.
  - right. left. eexists. split; [|reflexivity]. reflexivity.
Qed.

Lemma handleDeleteCourse_changes (userRole : string) `{JSONCodec CourseManagement.Course}
    (confirmed : bool) (id_ : Z) (st : CourseManagement.State) :
  changedInOneWay CourseManagement.id (items st)
    (items (run (CourseManagement.handleDeleteCourse userRole confirmed id_ st) st)).
Proof.
  unfold CourseManagement.handleDeleteCourse.
  destruct (negb (isAdministrator userRole)); [same_items|].
  destruct confirmed; [|same_items].
  right. right. right. exists id_.
  destruct (selected st) as [s|]; [destruct (CourseManagement.id s =? id_)|]; reflexivity.
Qed.

Lemma courseInteract_changes (userRole : string) `{JSONCodec CourseManagement.Course}
    (i : CourseInteraction) (st : CourseManagement.State) :
  changedInOneWay CourseManagement.id (items st)
    (items (run (courseInteract userRole i st) st)).
Proof.
  destruct i; unfold courseInteract.
  - destruct (CourseManagement.tabRendered userRole tab); same_items.
  - destruct (courseRowShown row st); same_items.
  - destruct (courseRowShown row st); [|same_items].
    destruct (CourseManagement.rowActionsRendered userRole); [|same_items].
    unfold CourseManagement.handleEditCourse.
    destruct (negb (isAdministrator userRole)); same_items.
  - destruct (courseRowShown row st); [|same_items].
    destruct (CourseManagement.rowActionsRendered userRole); [|same_items].
    apply handleDeleteCourse_changes.
  - destruct (CourseManagement.formRendered userRole st); same_items.
  - unfold courseSubmitEvent.
    destruct (CourseManagement.formRendered userRole st);
      [apply courseSubmit_changes | same_items].
  - destruct (show (popup st)); same_items.
  - same_items.
  - unfold CourseManagement.autoGenerateCourseId. destruct (editing st); same_items.
Qed.

Ltac still_editing Hedit Hnone :=
  exfalso; cbn in Hnone; rewrite ?Hedit in Hnone; discriminate Hnone.

Lemma courseInteract_edit_stays (userRole : string) `{JSONCodec CourseManagement.Course}
    (i : CourseInteraction) (st : CourseManagement.State) (e : CourseManagement.Course) :
  editing st = Some e ->
  editing (run (courseInteract userRole i st) st) = None ->
  i = CourseSubmitForm /\ CourseManagement.invalid (formData st) = false.
Proof.
  intros Hedit Hnone. destruct i; unfold courseInteract in Hnone.
  - destruct (CourseManagement.tabRendered userRole tab); still_editing Hedit Hnone.
  - destruct (courseRowShown row st); still_editing Hedit Hnone.
  - destruct (courseRowShown row st); [|still_editing Hedit Hnone].
    destruct (CourseManagement.rowActionsRendered userRole); [|still_editing Hedit Hnone].
    unfold CourseManagement.handleEditCourse in Hnone.
    destruct (negb (isAdministrator userRole)); still_editing Hedit Hnone.
  - destruct (courseRowShown row st) as [course|]; [|still_editing Hedit Hnone].
    destruct (CourseManagement.rowActionsRendered userRole); [|still_editing Hedit Hnone].
    unfold CourseManagement.handleDeleteCourse in Hnone.
    destruct (negb (isAdministrator userRole)); [still_editing Hedit Hnone|].
    destruct confirmed; [|still_editing Hedit Hnone].
    destruct (selected st) as [s|];
      [destruct (CourseManagement.id s =? CourseManagement.id course)|];
      still_editing Hedit Hnone.
  - destruct (CourseManagement.formRendered userRole st); still_editing Hedit Hnone.
  - split; [reflexivity|].
    unfold courseSubmitEvent, CourseManagement.handleSubmit in Hnone.
    destruct (CourseManagement.formRendered userRole st); [|still_editing Hedit Hnone].
    rewrite Hedit in Hnone. unfold CourseManagement.handleCourseUpdated in Hnone.
    destruct (CourseManagement.invalid (formData st)); [|reflexivity].
    still_editing Hedit Hnone.
  - destruct (show (popup st)); still_editing Hedit Hnone.
  - still_editing Hedit Hnone.
  - unfold CourseManagement.autoGenerateCourseId in Hnone. rewrite Hedit in Hnone.
    still_editing Hedit Hnone.
Qed.



(** ** Sessions of any user on the staff page *)

Section StaffPageSteps.
Context `{HostNumbers} `{JSONCodec StaffManagement.Staff}.

Lemma submitToParent_invalid (userRole : string) (formData : AddStaffForm.Form.t)
    (st : StaffManagement.State) :
  AddStaffForm.invalid formData = true ->
  AddStaffForm.submitToParent userRole formData st = [].
Proof.
  intros Hinvalid. unfold AddStaffForm.submitToParent, AddStaffForm.handleSubmit.
  rewrite Hinvalid. reflexivity.
Qed.

Lemma submitToParent_update (userRole : string) (formData : AddStaffForm.Form.t)
    (st : StaffManagement.State) (e : StaffManagement.Staff) :
  editing st = Some e -> AddStaffForm.invalid formData = false ->
  AddStaffForm.submitToParent userRole formData st
  = StaffManagement.handleStaffUpdated userRole
      (AddStaffForm.submitData (Some e) formData) st.
Proof.
  intros Hedit Hvalid. unfold AddStaffForm.submitToParent, AddStaffForm.handleSubmit.
  rewrite Hedit, Hvalid. reflexivity.
Qed.

Lemma staffSubmitEvent_step (userRole : string) (formData : AddStaffForm.Form.t)
    (st : StaffManagement.State) :
  tidy "staffMembers" (staffSubmitEvent userRole formData st)
  /\ changedInOneWay StaffManagement.id (items st)
       (items (run (staffSubmitEvent userRole formData st) st)).
Proof.
  unfold staffSubmitEvent.
  destruct (StaffManagement.formRendered userRole st); [|split; [read_only | same_items]].
  destruct (AddStaffForm.invalid formData) eqn:Hvalid.
  { rewrite submitToParent_invalid by exact Hvalid. split; [read_only | same_items]. }
  destruct (editing st) as [e|] eqn:Hedit.
  - rewrite (submitToParent_update _ _ _ e Hedit Hvalid).
    unfold StaffManagement.handleStaffUpdated. split; [saves|].
    right. right. left.
    exists (StaffManagement.replaceById (AddStaffForm.submitData (Some e) formData)).
    split; [|reflexivity].
    intros r.
    rewrite (replaceById_some (AddStaffForm.submitData (Some e) formData)
               (StaffManagement.id e) r eq_refl).
    destruct (StaffManagement.id r =? StaffManagement.id e) eqn:Hr; [|reflexivity].
    apply Z.eqb_eq in Hr. now rewrite Hr.
  - rewrite (submitToParent_create _ _ _ Hedit Hvalid).
    rewrite handleStaffAdded_fresh by reflexivity. cbv zeta. split; [saves|].
    right. left. eexists. split; [|reflexivity]. reflexivity.
Qed.

Lemma handleDeleteStaff_step (userRole : string) (confirmed : bool) (id_ : Z)
    (st : StaffManagement.State) :
  tidy "staffMembers" (StaffManagement.handleDeleteStaff userRole confirmed id_ st)
  /\ changedInOneWay StaffManagement.id (items st)
       (items (run (StaffManagement.handleDeleteStaff userRole confirmed id_ st) st)).
Proof.
  unfold StaffManagement.handleDeleteStaff.
  destruct (negb (isAdministrator userRole)); [split; [read_only | same_items]|].
  destruct confirmed; [|split; [read_only | same_items]].
  split.
  - right. eexists. eexists. split; [reflexivity|].
    destruct (selected st) as [s|]; [destruct (StaffManagement.id s =? id_)|]; quiet.
  - right. right. right. exists id_.
    destruct (selected st) as [s|]; [destruct (StaffManagement.id s =? id_)|]; reflexivity.
Qed.

(** What one interaction does to the page: effects on the view that are
    tidy and change the collection in one way at most; or a read is
    started on the collection as it is; or a read completes. *)
Lemma staffInteract_cases (userRole currentUserEmail : string) (i : StaffInteraction)
    (pg : StaffPage) :
  (exists es,
      view (staffInteract userRole currentUserEmail i pg) = run es (view pg)
      /\ reads (staffInteract userRole currentUserEmail i pg) = reads pg
      /\ tidy "staffMembers" es
      /\ changedInOneWay StaffManagement.id (items (view pg)) (items (run es (view pg))))
  \/ (exists s,
        view (staffInteract userRole currentUserEmail i pg) = view pg
        /\ reads (staffInteract userRole currentUserEmail i pg)
           = reads pg ++ [(s, items (view pg))])
  \/ (exists n s snapshot result,
        nth_error (reads pg) n = Some (s, snapshot)
        /\ view (staffInteract userRole currentUserEmail i pg)
           = run (StaffManagement.onloadend userRole s result
                    (StaffManagement.withItems snapshot (view pg))) (view pg)
        /\ reads (staffInteract userRole currentUserEmail i pg) = dropNth n (reads pg)).
Proof.
  assert (Hstays : forall pg',
             view pg' = view pg -> reads pg' = reads pg ->
             exists es,
               view pg' = run es (view pg) /\ reads pg' = reads pg
               /\ tidy "staffMembers" es
               /\ changedInOneWay StaffManagement.id (items (view pg))
                    (items (run es (view pg)))).
  { intros pg' Hview Hreads. exists []. split; [exact Hview|]. split; [exact Hreads|].
    split; [read_only | same_items]. }
  assert (Hlooks : forall es,
             readOnly es ->
             exists es',
               run es (view pg) = run es' (view pg) /\ reads pg = reads pg
               /\ tidy "staffMembers" es'
               /\ changedInOneWay StaffManagement.id (items (view pg))
                    (items (run es' (view pg)))).
  { intros es Hes. exists es. split; [reflexivity|]. split; [reflexivity|].
    split; [now left|]. left. apply (readOnly_run es (view pg) Hes). }
  destruct i; cbn [staffInteract].
  - left. destruct (StaffManagement.tabRendered userRole tab); [|now apply Hstays].
    apply Hlooks. unfold readOnly. repeat (constructor; [split; reflexivity|]). constructor.
  - left. destruct (staffRowShown row (view pg)); [|now apply Hstays].
    apply Hlooks. unfold readOnly. repeat (constructor; [split; reflexivity|]). constructor.
  - left. destruct (staffRowShown row (view pg)); [|now apply Hstays].
    destruct (StaffManagement.rowActionsRendered userRole); [|now apply Hstays].
    apply Hlooks. unfold StaffManagement.handleEditStaff, readOnly.
    destruct (negb (isAdministrator userRole));
      repeat (constructor; [split; reflexivity|]); constructor.
  - left. destruct (staffRowShown row (view pg)) as [staff|]; [|now apply Hstays].
    destruct (StaffManagement.rowActionsRendered userRole); [|now apply Hstays].
    eexists. split; [reflexivity|]. split; [reflexivity|]. apply handleDeleteStaff_step.
  - left. eexists. split; [reflexivity|]. split; [reflexivity|]. apply staffSubmitEvent_step.
  - left. destruct (StaffManagement.formRendered userRole (view pg)); [|now apply Hstays].
    apply Hlooks. unfold readOnly. repeat (constructor; [split; reflexivity|]). constructor.
  - destruct (StaffManagement.uploadRendered userRole currentUserEmail (view pg));
      [|left; now apply Hstays].
    destruct (StaffManagement.handleProfilePictureUpload userRole currentUserEmail file
                (view pg)) as [es | selectedStaff] eqn:Hupload.
    + left. apply handleProfilePictureUpload_done in Hupload.
      apply Hlooks. destruct Hupload as [-> | [msg ->]]; unfold readOnly;
        repeat (constructor; [split; reflexivity|]); constructor.
    + right. left. exists selectedStaff. split; reflexivity.
  - destruct (nth_error (reads pg) read) as [[selectedStaff staffMembers]|] eqn:Hread;
      [|left; now apply Hstays].
    right. right. exists read, selectedStaff, staffMembers, result.
    split; [exact Hread|]. split; reflexivity.
  - left. destruct (show (popup (view pg))); [|now apply Hstays].
    apply Hlooks. unfold readOnly. repeat (constructor; [split; reflexivity|]). constructor.
  - left. apply Hlooks. unfold readOnly.
    repeat (constructor; [split; reflexivity|]). constructor.
  - left. apply Hlooks. unfold StaffManagement.autoLoadProfile, readOnly.
    destruct (selected (view pg)); [constructor|].
    destruct (isStaff userRole && (0 <? length (items (view pg)))%nat);
      repeat (constructor; [split; reflexivity|]); constructor.
Qed.

Lemma staffInteract_sound (userRole currentUserEmail : string) (i : StaffInteraction)
    (pg : StaffPage) :
  staffPageSound pg -> staffPageSound (staffInteract userRole currentUserEmail i pg).
Proof.
  intros (Hstep & Hnd & Hreads).
  destruct (staffInteract_cases userRole currentUserEmail i pg)
    as [(es & Hview & Hsame & Htidy & Hchange)
       | [(s & Hview & Hmore) | (n & s & snapshot & result & Hread & Hview & Hless)]];
    unfold staffPageSound; rewrite Hview.
  - rewrite Hsame. split; [now apply tidy_inStep|]. split; [|exact Hreads].
    now apply (changedInOneWay_distinct StaffManagement.id (items (view pg))).
  - rewrite Hmore. split; [exact Hstep|]. split; [exact Hnd|].
    intros s' snapshot Hin. apply in_app_iff in Hin. destruct Hin as [Hin | [Heq | []]].
    + now apply (Hreads s').
    + injection Heq as _ <-. exact Hnd.
  - rewrite Hless. unfold StaffManagement.onloadend.
    split; [apply persisted_after_save; quiet|]. split.
    + cbn [run fold_left apply items StaffManagement.withItems].
      rewrite map_map. erewrite map_ext.
      * apply (Hreads s snapshot). now apply nth_error_In in Hread.
      * intros r. cbv beta.
        destruct (StaffManagement.id r =? StaffManagement.id s) eqn:Hr; [|reflexivity].
        apply Z.eqb_eq in Hr. now rewrite Hr.
    + intros s' snapshot' Hin. apply (Hreads s'). now apply dropNth_In in Hin.
Qed.

Lemma staffInteract_frame (userRole currentUserEmail : string) (i : StaffInteraction)
    (pg : StaffPage) (k : string) :
  k <> "staffMembers" ->
  localStorage (view (staffInteract userRole currentUserEmail i pg)) !! k
  = localStorage (view pg) !! k.
Proof.
  intros Hk.
  destruct (staffInteract_cases userRole currentUserEmail i pg)
    as [(es & Hview & _ & Htidy & _)
       | [(s & Hview & _) | (n & s & snapshot & result & _ & Hview & _)]];
    rewrite Hview.
  - apply (onlyWrites_frame "staffMembers"); [now apply tidy_onlyWrites | exact Hk].
  - reflexivity.
  - apply (onlyWrites_frame "staffMembers"); [|exact Hk].
    unfold StaffManagement.onloadend, onlyWrites.
    repeat (constructor; [first [exact I | reflexivity]|]). constructor.
Qed.

End StaffPageSteps.



(** The sample session of the Administrator: the read was started on six
    members; the first was then deleted and the second renamed; the read
    completing last puts back the six members it remembered, with the
    picture set on the sixth. *)
Example late_read_restores_its_collection :
  map (fun s => (StaffManagement.id s, StaffManagement.name s))
    (items (view (@staffSession integerNumbers staffCodec "Administrator" ""
                    (removelast adminSessionSample) staffPageFresh)))
  = [(2, "Dr. Ada Byron"); (3, "Dr. Michael Williams"); (4, "Dr. Emily Brown");
     (5, "Dr. David Davis"); (6, "Dr. Ada Byron")]
  /\ map (fun s => (StaffManagement.id s, StaffManagement.name s))
       (items (view (@staffSession integerNumbers staffCodec "Administrator" ""
                       adminSessionSample staffPageFresh)))
     = [(1, "Dr. John Smith"); (2, "Dr. Sarah Johnson"); (3, "Dr. Michael Williams");
        (4, "Dr. Emily Brown"); (5, "Dr. David Davis"); (6, "Dr. Ada Byron")].
Proof. split; reflexivity. Qed.
